(** * Starlight payment-channel agent: a shallow embedding of [starlight/agent.go]

    The development follows the Go source function by function.  Go
    packages become modules ([xdr], [fsm], [update], [message], [db]),
    structs become records, tagged unions become inductive types, and
    code that runs inside a bolt transaction becomes a computation in a
    state-and-error monad whose state is the open transaction. *)

From Stdlib Require Import ZArith String Ascii List Bool Lia.
From Stdlib Require DecimalString.
From stdpp Require Import base option list gmap strings.

Local Open Scope string_scope.
Local Open Scope Z_scope.
Set Warnings "-register-all".

(** ** Machine integers *)

(** Go's [int64] and [uint64] arithmetic wraps around. *)
Definition wrap_i64 (z : Z) : Z := (z + 2 ^ 63) mod 2 ^ 64 - 2 ^ 63.
Definition wrap_u64 (z : Z) : Z := z mod 2 ^ 64.
Definition wrap_u32 (z : Z) : Z := z mod 2 ^ 32.

(** [len(s)] of a Go string is its number of bytes. *)
Definition len (s : string) : Z := Z.of_nat (String.length s).

(** ** Errors *)

(** The package-level error values the agent returns. *)
Inductive sentinel : Set :=
| errAlreadyConfigured | errNotConfigured
| errInvalidPassword | errInvalidUsername | errInvalidInput
| errInvalidEdit | errEmptyConfigEdit | errPasswordsDontMatch
| errExists | errChannelExistsRetriable | errAgentClosing | errNotFunded
| errEmptyAddress | errEmptyAmount | errAcctsSame | errInvalidAddress
| errInsufficientBalance | errInvalidAsset
| errNoChannelSpecified | errNoCommandSpecified | ErrUnmarshaling
| errInvalidChannelID | errFetchingAccounts | errRemoteGuestMessage
| errBadRequest.

#[global] Instance sentinel_eq_dec : EqDecision sentinel.
Proof. solve_decision. Defined.

(** [errors.Wrap(e, msg)] keeps the root of [e]; [errors.Sub(root, e)]
    substitutes [root] as the root of [e] ([e] may be nil);
    [errors.New(msg)] and the errors of foreign packages are [New]. *)
Inductive error : Set :=
| Sentinel (s : sentinel)
| New (msg : string)
| Wrap (e : error) (msg : string)
| Sub (root : error) (e : option error).

Fixpoint Root (e : error) : error :=
  match e with
  | Wrap e' _ => Root e'
  | Sub r _ => Root r
  | _ => e
  end.

Coercion Sentinel : sentinel >-> error.

(** ** The monad of effectful Go code *)

(** A Go function that returns [error] and works on a mutable state [S]
    either returns normally, returns an error, or panics.  The state is
    threaded through all three outcomes: what was mutated before an
    error is returned stays mutated. *)
Inductive res (A : Type) : Type :=
| Ok (a : A)
| Fail (e : error)
| Panic (msg : string).
Arguments Ok {A} a.
Arguments Fail {A} e.
Arguments Panic {A} msg.

Definition M (S A : Type) : Type := S -> res A * S.

#[global] Instance M_ret {S} : MRet (M S) := fun A a s => (Ok a, s).
#[global] Instance M_bind {S} : MBind (M S) := fun A B f m s =>
  match m s with
  | (Ok a, s') => f a s'
  | (Fail e, s') => (Fail e, s')
  | (Panic msg, s') => (Panic msg, s')
  end.

Definition fail {S A} (e : error) : M S A := fun s => (Fail e, s).
Definition panic {S A} (msg : string) : M S A := fun s => (Panic msg, s).
Definition gets {S A} (f : S -> A) : M S A := fun s => (Ok (f s), s).
Definition modify {S} (f : S -> S) : M S unit := fun s => (Ok tt, f s).

(** [if err != nil { return err }] for a call that yields [error] only. *)
Definition check {S} (o : option error) : M S unit :=
  match o with Some e => fail e | None => mret tt end.

(** The same for a call that yields a value and an error. *)
Definition try {S A} (r : error + A) : M S A :=
  match r with inl e => fail e | inr a => mret a end.

(** A [for _, x := range l] loop whose body may return an error; a
    [continue] in the body is the body returning [Ok]. *)
Fixpoint forRange {S A} (body : Z -> A -> M S unit) (i : Z) (l : list A) : M S unit :=
  match l with
  | [] => mret tt
  | x :: l' => body i x;; forRange body (i + 1) l'
  end.

(** The root error a computation returned, if it returned one. *)
Definition failedWith {A S} (r : res A * S) (s : sentinel) : Prop :=
  exists e, r.1 = Fail e /\ Root e = Sentinel s.

(** ** Package [xdr]: ledger transactions as the agent reads them *)

Module xdr.

(** [xdr.Asset]; the zero value is the native asset. *)
Inductive Asset : Set :=
| AssetNative
| AssetAlphaNum4 (code issuer : string)
| AssetAlphaNum12 (code issuer : string).

Definition isNative (a : Asset) : bool :=
  match a with AssetNative => true | _ => false end.

(** The asset of an allow-trust operation names a code only. *)
Inductive AllowTrustOpAsset : Set :=
| AllowNative
| AllowCode4 (code : string)
| AllowCode12 (code : string).

Record CreateAccountOp : Set :=
  { Destination : string; StartingBalance : Z }.

Record PaymentOp : Set :=
  { PayDestination : string; PayAsset : Asset; Amount : Z }.

Record ChangeTrustOp : Set :=
  { Line : Asset; Limit : Z }.

Record AllowTrustOp : Set :=
  { Trustor : string; TrustAsset : AllowTrustOpAsset; Authorize : bool }.

(** [op.Body]: the operation kinds the wallet watcher switches on;
    every other kind is [OtherOp]. *)
Inductive OperationBody : Set :=
| CreateAccount (op : CreateAccountOp)
| Payment (op : PaymentOp)
| AccountMerge (destination : string)
| ChangeTrust (op : ChangeTrustOp)
| AllowTrust (op : AllowTrustOp)
| OtherOp.

(** [op.SourceAccount] is a pointer; [Address()] of nil is empty. *)
Record Operation : Set :=
  { SourceAccount : option string; Body : OperationBody }.

Definition Address (a : option string) : string := default "" a.

Record Transaction : Set :=
  { TxSourceAccount : string; Operations : list Operation }.

(** [Result.Result.Results[i].Tr.AccountMergeResult.SourceAccountBalance],
    present for the merge operations of a successful transaction. *)
Record TransactionResult : Set :=
  { TxSuccess : bool; Results : list (option Z) }.

End xdr.

(** ** Package [worizon]: what the ledger client delivers *)

Module worizon.

(** [worizon.Tx]: the decoded envelope and result. *)
Record Tx : Set :=
  { Env : xdr.Transaction; Result : xdr.TransactionResult }.

(** [worizon.Transaction]: a ledger transaction as streamed, with its
    paging token [PT] and ledger number; [Decoded] is what
    [worizon.NewTx] makes of its XDR payload. *)
Record Transaction : Set :=
  { PT : string; Ledger : Z; Decoded : error + Tx }.

Definition NewTx (htx : Transaction) : error + Tx := Decoded htx.

End worizon.

(** ** Package [fsm]: channels, wallet, commands and messages *)

Module fsm.

(** The role of the local agent in a channel; a channel record that is
    not in the store reads with the zero value. *)
Inductive Role : Set := NoRole | Guest | Host.

(** Modelled from the spec: the type [fsm.State] is not part of the
    sources at hand; these are the states of section 4.4, [Start]
    being the state of a channel that does not exist yet. *)
Inductive State : Set :=
| Start | SettingUp | ChannelProposed | AwaitingFunding | PaymentChannel
| AwaitingPaymentMerge | AwaitingClose | Closed | AwaitingCleanup
| AwaitingRatchet | AwaitingSettlement | AwaitingSettlementMintime.

Record Balance : Set :=
  { Asset : xdr.Asset; Amount : Z; Pending : bool; Authorized : bool }.

Definition zeroBalance : Balance :=
  {| Asset := xdr.AssetNative; Amount := 0; Pending := false; Authorized := false |}.

(** [fsm.WalletAcct].  [Balances] is a Go map: [None] is the nil map
    of a zero wallet, which reads as empty and panics when written. *)
Record WalletAcct : Type :=
  { NativeBalance : Z; Reserve : Z; Seqnum : Z; Cursor : string;
    Address : string; Balances : option (gmap string Balance) }.

Definition zeroWallet : WalletAcct :=
  {| NativeBalance := 0; Reserve := 0; Seqnum := 0; Cursor := "";
     Address := ""; Balances := None |}.

Record Channel : Set :=
  { ID : string; Role_ : Role; State_ : State;
    HostAmount : Z; GuestAmount : Z;
    CounterpartyAddress : string; RemoteURL : string; Passphrase : string;
    MaxRoundDuration : Z; FinalityDelay : Z;
    ChannelFeerate : Z; HostFeerate : Z;
    FundingTime : Z; PaymentTime : Z;
    KeyIndex : Z; RoundNumber : Z; LastMsgIndex : Z;
    HostAcct : string; GuestAcct : string; EscrowAcct : string;
    HostRatchetAcct : string; GuestRatchetAcct : string;
    GuestRatchetAcctSeqNum : Z; HostRatchetAcctSeqNum : Z;
    BaseSequenceNumber : Z }.

Definition zeroChannel : Channel :=
  {| ID := ""; Role_ := NoRole; State_ := Start;
     HostAmount := 0; GuestAmount := 0;
     CounterpartyAddress := ""; RemoteURL := ""; Passphrase := "";
     MaxRoundDuration := 0; FinalityDelay := 0;
     ChannelFeerate := 0; HostFeerate := 0;
     FundingTime := 0; PaymentTime := 0;
     KeyIndex := 0; RoundNumber := 0; LastMsgIndex := 0;
     HostAcct := ""; GuestAcct := ""; EscrowAcct := "";
     HostRatchetAcct := ""; GuestRatchetAcct := "";
     GuestRatchetAcctSeqNum := 0; HostRatchetAcctSeqNum := 0;
     BaseSequenceNumber := 0 |}.

Record Command : Set :=
  { Name : string; CmdAmount : Z; Recipient : string; Time : Z;
    AssetCode : string; Issuer : string }.

Definition CreateChannel : string := "CreateChannel".
Definition CleanUp : string := "CleanUp".

End fsm.

#[global] Instance fsm_Role_eq_dec : EqDecision fsm.Role.
Proof. solve_decision. Defined.

#[global] Instance fsm_State_eq_dec : EqDecision fsm.State.
Proof. solve_decision. Defined.

(** The messages of package [fsm], in a module of their own because
    their field names repeat those of [fsm.Channel]. *)
Module msg.

Record ChannelProposeMsg : Set :=
  { HostAcct : string; GuestAcct : string;
    HostRatchetAcct : string; GuestRatchetAcct : string;
    HostAmount : Z; MaxRoundDuration : Z; FinalityDelay : Z }.

(** [fsm.Message]: only the channel proposal is inspected by the
    agent; the other kinds travel in [Kind]. *)
Record Message : Set :=
  { ChannelID : string; MsgNum : Z;
    ChannelProposeMsg_ : option ChannelProposeMsg; Kind : string }.

Definition withMsgNum (n : Z) (m : Message) : Message :=
  {| ChannelID := ChannelID m; MsgNum := n;
     ChannelProposeMsg_ := ChannelProposeMsg_ m; Kind := Kind m |}.

End msg.


(** ** Package [update] and the agent's [Update] records *)

Module update.

Inductive Type_ : Set :=
| InitType | ConfigType | AccountType | TxSuccessType | TxFailureType
| WarningType | ChannelCmdType | ChannelMsgType | TimerType.

Record Config : Set :=
  { Username : string; Password : string; HorizonURL : string;
    MaxRoundDurMins : Z; FinalityDelayMins : Z;
    ChannelFeerate : Z; HostFeerate : Z; KeepAlive : bool }.

Record Account : Type :=
  { ID : string; Balance : Z;
    Balances : option (gmap string fsm.Balance); Reserve : Z }.

End update.

#[global] Instance update_Type_eq_dec : EqDecision update.Type_.
Proof. solve_decision. Defined.

(** [Update]: one record of the agent's audit log.  [UpdateNum] and
    [UpdateLedgerTime] are filled in by [putUpdate]. *)
Record Update : Type :=
  { Type_ : update.Type_;
    UpdateNum : Z;
    UpdateLedgerTime : Z;
    Config_ : option update.Config;
    Account : option update.Account;
    InputTx : option worizon.Tx;
    OpIndex : Z;
    InputCommand : option fsm.Command;
    InputMessage : option msg.Message;
    InputLedgerTime : Z;
    Warning : string;
    PendingSequence : string;
    Channel : option fsm.Channel }.

(** [&Update{Type: t}]: every other field has its zero value. *)
Definition newUpdate (t : update.Type_) : Update :=
  {| Type_ := t; UpdateNum := 0; UpdateLedgerTime := 0;
     Config_ := None; Account := None; InputTx := None; OpIndex := 0;
     InputCommand := None; InputMessage := None; InputLedgerTime := 0;
     Warning := ""; PendingSequence := ""; Channel := None |}.

Definition withConfig (c : update.Config) (u : Update) : Update :=
  {| Type_ := Type_ u; UpdateNum := UpdateNum u; UpdateLedgerTime := UpdateLedgerTime u;
     Config_ := Some c; Account := Account u; InputTx := InputTx u; OpIndex := OpIndex u;
     InputCommand := InputCommand u; InputMessage := InputMessage u;
     InputLedgerTime := InputLedgerTime u; Warning := Warning u;
     PendingSequence := PendingSequence u; Channel := Channel u |}.

Definition withAccount (a : update.Account) (u : Update) : Update :=
  {| Type_ := Type_ u; UpdateNum := UpdateNum u; UpdateLedgerTime := UpdateLedgerTime u;
     Config_ := Config_ u; Account := Some a; InputTx := InputTx u; OpIndex := OpIndex u;
     InputCommand := InputCommand u; InputMessage := InputMessage u;
     InputLedgerTime := InputLedgerTime u; Warning := Warning u;
     PendingSequence := PendingSequence u; Channel := Channel u |}.

Definition withInputTx (t : worizon.Tx) (i : Z) (u : Update) : Update :=
  {| Type_ := Type_ u; UpdateNum := UpdateNum u; UpdateLedgerTime := UpdateLedgerTime u;
     Config_ := Config_ u; Account := Account u; InputTx := Some t; OpIndex := i;
     InputCommand := InputCommand u; InputMessage := InputMessage u;
     InputLedgerTime := InputLedgerTime u; Warning := Warning u;
     PendingSequence := PendingSequence u; Channel := Channel u |}.

Definition withInputCommand (c : fsm.Command) (u : Update) : Update :=
  {| Type_ := Type_ u; UpdateNum := UpdateNum u; UpdateLedgerTime := UpdateLedgerTime u;
     Config_ := Config_ u; Account := Account u; InputTx := InputTx u; OpIndex := OpIndex u;
     InputCommand := Some c; InputMessage := InputMessage u;
     InputLedgerTime := InputLedgerTime u; Warning := Warning u;
     PendingSequence := PendingSequence u; Channel := Channel u |}.

Definition withInputMessage (m : msg.Message) (u : Update) : Update :=
  {| Type_ := Type_ u; UpdateNum := UpdateNum u; UpdateLedgerTime := UpdateLedgerTime u;
     Config_ := Config_ u; Account := Account u; InputTx := InputTx u; OpIndex := OpIndex u;
     InputCommand := InputCommand u; InputMessage := Some m;
     InputLedgerTime := InputLedgerTime u; Warning := Warning u;
     PendingSequence := PendingSequence u; Channel := Channel u |}.

Definition withInputLedgerTime (t : Z) (u : Update) : Update :=
  {| Type_ := Type_ u; UpdateNum := UpdateNum u; UpdateLedgerTime := UpdateLedgerTime u;
     Config_ := Config_ u; Account := Account u; InputTx := InputTx u; OpIndex := OpIndex u;
     InputCommand := InputCommand u; InputMessage := InputMessage u;
     InputLedgerTime := t; Warning := Warning u;
     PendingSequence := PendingSequence u; Channel := Channel u |}.

Definition withChannel (c : fsm.Channel) (u : Update) : Update :=
  {| Type_ := Type_ u; UpdateNum := UpdateNum u; UpdateLedgerTime := UpdateLedgerTime u;
     Config_ := Config_ u; Account := Account u; InputTx := InputTx u; OpIndex := OpIndex u;
     InputCommand := InputCommand u; InputMessage := InputMessage u;
     InputLedgerTime := InputLedgerTime u; Warning := Warning u;
     PendingSequence := PendingSequence u; Channel := Some c |}.

Definition stamped (n now : Z) (u : Update) : Update :=
  {| Type_ := Type_ u; UpdateNum := n; UpdateLedgerTime := now;
     Config_ := Config_ u; Account := Account u; InputTx := InputTx u; OpIndex := OpIndex u;
     InputCommand := InputCommand u; InputMessage := InputMessage u;
     InputLedgerTime := InputLedgerTime u; Warning := Warning u;
     PendingSequence := PendingSequence u; Channel := Channel u |}.

(** ** Package [message]: the outbound messages of one channel *)

Module message.

Record Message : Set :=
  { Msgs : list msg.Message; LastSeqNum : Z }.

(** [new(message.Message)] *)
Definition new : Message := {| Msgs := []; LastSeqNum := 0 |}.

(** Modelled from the spec: [Message.Add] is not part of the sources at
    hand.  Messages of a channel are indexed by sequence number and the
    numbers increase without gaps (sections 3 and 8.3): [Add] gives the
    message the next number, stores that number in the message (the
    pointer [&msg.MsgNum] of the call in [putMessage]) and appends it. *)
Definition Add (m : msg.Message) (s : Message) : Message * Z :=
  let n := wrap_u64 (LastSeqNum s + 1) in
  ({| Msgs := Msgs s ++ [msg.withMsgNum n m]; LastSeqNum := n |}, n).

(** Modelled from the spec: [Message.From] is not part of the sources at
    hand.  By the comment of [Agent.Messages] it yields the messages in
    the half-open interval [[a, b)], fewer than [b-a] when a bound is out
    of range; the method is called on whatever the store returns for
    the channel, nil included, for which it yields nothing. *)
Definition From (s : option Message) (a b : Z) : list msg.Message :=
  match s with
  | None => []
  | Some s => List.filter (fun m => (a <=? msg.MsgNum m) && (msg.MsgNum m <? b)) (Msgs s)
  end.

End message.


(** ** The persistent store *)

(** The tasks of the task basket: a signed envelope to submit for a
    channel or the wallet, or a message to deliver to a peer. *)
Inductive Task : Set :=
| TbTx (ChanID : string) (E : string)
| TbMsg (RemoteURL : string) (Msg : msg.Message).

Definition tbBucket : string := "tasks".
Definition walletBucket : string := "wallet".

Module db.

(** A bolt bucket: its entries in the order [ForEach] visits them,
    which is the byte order of the keys. *)
Definition Bucket (V : Type) : Type := list (string * V).

Fixpoint Get {V} (b : Bucket V) (k : string) : option V :=
  match b with
  | [] => None
  | (k', v) :: b' => if String.eqb k k' then Some v else Get b' k
  end.

Fixpoint Put {V} (b : Bucket V) (k : string) (v : V) : Bucket V :=
  match b with
  | [] => [(k, v)]
  | (k', v') :: b' =>
      match String.compare k k' with
      | Lt => (k, v) :: b
      | Eq => (k, v) :: b'
      | Gt => (k', v') :: Put b' k v
      end
  end.

(** [Bucket().ForEach(f)]: [f] on every key in order, up to the first
    error. *)
Fixpoint ForEach {V S} (b : Bucket V) (f : string -> V -> M S unit) : M S unit :=
  match b with
  | [] => mret tt
  | (k, v) :: b' => f k v;; ForEach b' f
  end.

(** The bucket [config]; a key that was never put reads as the zero
    value of its type. *)
Record Config : Set :=
  { Username : string; PwType : string; PwHash : string; HorizonURL : string;
    MaxRoundDurMins : Z; FinalityDelayMins : Z;
    ChannelFeerate : Z; HostFeerate : Z;
    KeepAlive : bool; Public : bool }.

Definition zeroConfig : Config :=
  {| Username := ""; PwType := ""; PwHash := ""; HorizonURL := "";
     MaxRoundDurMins := 0; FinalityDelayMins := 0;
     ChannelFeerate := 0; HostFeerate := 0;
     KeepAlive := false; Public := false |}.

(** The bucket [agent] with everything below it (section 6 of the
    spec, persisted layout). *)
Record Agent : Type :=
  { Config_ : Config; Ready : bool; EncryptedSeed : string;
    NextKeypathIndex : Z; PrimaryAcct : string;
    Wallet_ : option fsm.WalletAcct;
    Channels : Bucket fsm.Channel;
    Messages : Bucket message.Message;
    Updates : list Update }.

Definition emptyAgent : Agent :=
  {| Config_ := zeroConfig; Ready := false; EncryptedSeed := "";
     NextKeypathIndex := 0; PrimaryAcct := "";
     Wallet_ := None; Channels := []; Messages := []; Updates := [] |}.

(** The root of the database: the [agent] bucket and, beside it, the
    bucket of the task basket. *)
Record Root : Type :=
  { Agent_ : Agent; Tasks : list Task }.

(** [root.Agent().Wallet()] decodes the stored wallet into a fresh
    struct, the zero wallet when nothing is stored. *)
Definition Wallet (a : Agent) : fsm.WalletAcct := default fsm.zeroWallet (Wallet_ a).

(** [root.Agent().Channels().Get(id)], likewise. *)
Definition ChannelsGet (a : Agent) (id : string) : fsm.Channel :=
  default fsm.zeroChannel (Get (Channels a) id).

Definition setConfig (f : Config -> Config) (a : Agent) : Agent :=
  {| Config_ := f (Config_ a); Ready := Ready a; EncryptedSeed := EncryptedSeed a;
     NextKeypathIndex := NextKeypathIndex a; PrimaryAcct := PrimaryAcct a;
     Wallet_ := Wallet_ a; Channels := Channels a; Messages := Messages a;
     Updates := Updates a |}.

Definition PutReady (b : bool) (a : Agent) : Agent :=
  {| Config_ := Config_ a; Ready := b; EncryptedSeed := EncryptedSeed a;
     NextKeypathIndex := NextKeypathIndex a; PrimaryAcct := PrimaryAcct a;
     Wallet_ := Wallet_ a; Channels := Channels a; Messages := Messages a;
     Updates := Updates a |}.

Definition PutEncryptedSeed (s : string) (a : Agent) : Agent :=
  {| Config_ := Config_ a; Ready := Ready a; EncryptedSeed := s;
     NextKeypathIndex := NextKeypathIndex a; PrimaryAcct := PrimaryAcct a;
     Wallet_ := Wallet_ a; Channels := Channels a; Messages := Messages a;
     Updates := Updates a |}.

Definition PutNextKeypathIndex (i : Z) (a : Agent) : Agent :=
  {| Config_ := Config_ a; Ready := Ready a; EncryptedSeed := EncryptedSeed a;
     NextKeypathIndex := i; PrimaryAcct := PrimaryAcct a;
     Wallet_ := Wallet_ a; Channels := Channels a; Messages := Messages a;
     Updates := Updates a |}.

Definition PutPrimaryAcct (p : string) (a : Agent) : Agent :=
  {| Config_ := Config_ a; Ready := Ready a; EncryptedSeed := EncryptedSeed a;
     NextKeypathIndex := NextKeypathIndex a; PrimaryAcct := p;
     Wallet_ := Wallet_ a; Channels := Channels a; Messages := Messages a;
     Updates := Updates a |}.

Definition PutWallet (w : fsm.WalletAcct) (a : Agent) : Agent :=
  {| Config_ := Config_ a; Ready := Ready a; EncryptedSeed := EncryptedSeed a;
     NextKeypathIndex := NextKeypathIndex a; PrimaryAcct := PrimaryAcct a;
     Wallet_ := Some w; Channels := Channels a; Messages := Messages a;
     Updates := Updates a |}.

Definition setChannels (f : Bucket fsm.Channel -> Bucket fsm.Channel) (a : Agent) : Agent :=
  {| Config_ := Config_ a; Ready := Ready a; EncryptedSeed := EncryptedSeed a;
     NextKeypathIndex := NextKeypathIndex a; PrimaryAcct := PrimaryAcct a;
     Wallet_ := Wallet_ a; Channels := f (Channels a); Messages := Messages a;
     Updates := Updates a |}.

Definition setMessages (f : Bucket message.Message -> Bucket message.Message) (a : Agent) : Agent :=
  {| Config_ := Config_ a; Ready := Ready a; EncryptedSeed := EncryptedSeed a;
     NextKeypathIndex := NextKeypathIndex a; PrimaryAcct := PrimaryAcct a;
     Wallet_ := Wallet_ a; Channels := Channels a; Messages := f (Messages a);
     Updates := Updates a |}.

Definition setUpdates (f : list Update -> list Update) (a : Agent) : Agent :=
  {| Config_ := Config_ a; Ready := Ready a; EncryptedSeed := EncryptedSeed a;
     NextKeypathIndex := NextKeypathIndex a; PrimaryAcct := PrimaryAcct a;
     Wallet_ := Wallet_ a; Channels := Channels a; Messages := Messages a;
     Updates := f (Updates a) |}.

Definition PutUsername (s : string) (c : Config) : Config :=
  {| Username := s; PwType := PwType c; PwHash := PwHash c; HorizonURL := HorizonURL c;
     MaxRoundDurMins := MaxRoundDurMins c; FinalityDelayMins := FinalityDelayMins c;
     ChannelFeerate := ChannelFeerate c; HostFeerate := HostFeerate c;
     KeepAlive := KeepAlive c; Public := Public c |}.

Definition PutPwType (s : string) (c : Config) : Config :=
  {| Username := Username c; PwType := s; PwHash := PwHash c; HorizonURL := HorizonURL c;
     MaxRoundDurMins := MaxRoundDurMins c; FinalityDelayMins := FinalityDelayMins c;
     ChannelFeerate := ChannelFeerate c; HostFeerate := HostFeerate c;
     KeepAlive := KeepAlive c; Public := Public c |}.

Definition PutPwHash (s : string) (c : Config) : Config :=
  {| Username := Username c; PwType := PwType c; PwHash := s; HorizonURL := HorizonURL c;
     MaxRoundDurMins := MaxRoundDurMins c; FinalityDelayMins := FinalityDelayMins c;
     ChannelFeerate := ChannelFeerate c; HostFeerate := HostFeerate c;
     KeepAlive := KeepAlive c; Public := Public c |}.

Definition PutHorizonURL (s : string) (c : Config) : Config :=
  {| Username := Username c; PwType := PwType c; PwHash := PwHash c; HorizonURL := s;
     MaxRoundDurMins := MaxRoundDurMins c; FinalityDelayMins := FinalityDelayMins c;
     ChannelFeerate := ChannelFeerate c; HostFeerate := HostFeerate c;
     KeepAlive := KeepAlive c; Public := Public c |}.

Definition PutMaxRoundDurMins (n : Z) (c : Config) : Config :=
  {| Username := Username c; PwType := PwType c; PwHash := PwHash c; HorizonURL := HorizonURL c;
     MaxRoundDurMins := n; FinalityDelayMins := FinalityDelayMins c;
     ChannelFeerate := ChannelFeerate c; HostFeerate := HostFeerate c;
     KeepAlive := KeepAlive c; Public := Public c |}.

Definition PutFinalityDelayMins (n : Z) (c : Config) : Config :=
  {| Username := Username c; PwType := PwType c; PwHash := PwHash c; HorizonURL := HorizonURL c;
     MaxRoundDurMins := MaxRoundDurMins c; FinalityDelayMins := n;
     ChannelFeerate := ChannelFeerate c; HostFeerate := HostFeerate c;
     KeepAlive := KeepAlive c; Public := Public c |}.

Definition PutChannelFeerate (n : Z) (c : Config) : Config :=
  {| Username := Username c; PwType := PwType c; PwHash := PwHash c; HorizonURL := HorizonURL c;
     MaxRoundDurMins := MaxRoundDurMins c; FinalityDelayMins := FinalityDelayMins c;
     ChannelFeerate := n; HostFeerate := HostFeerate c;
     KeepAlive := KeepAlive c; Public := Public c |}.

Definition PutHostFeerate (n : Z) (c : Config) : Config :=
  {| Username := Username c; PwType := PwType c; PwHash := PwHash c; HorizonURL := HorizonURL c;
     MaxRoundDurMins := MaxRoundDurMins c; FinalityDelayMins := FinalityDelayMins c;
     ChannelFeerate := ChannelFeerate c; HostFeerate := n;
     KeepAlive := KeepAlive c; Public := Public c |}.

Definition PutKeepAlive (b : bool) (c : Config) : Config :=
  {| Username := Username c; PwType := PwType c; PwHash := PwHash c; HorizonURL := HorizonURL c;
     MaxRoundDurMins := MaxRoundDurMins c; FinalityDelayMins := FinalityDelayMins c;
     ChannelFeerate := ChannelFeerate c; HostFeerate := HostFeerate c;
     KeepAlive := b; Public := Public c |}.

Definition PutPublic (b : bool) (c : Config) : Config :=
  {| Username := Username c; PwType := PwType c; PwHash := PwHash c; HorizonURL := HorizonURL c;
     MaxRoundDurMins := MaxRoundDurMins c; FinalityDelayMins := FinalityDelayMins c;
     ChannelFeerate := ChannelFeerate c; HostFeerate := HostFeerate c;
     KeepAlive := KeepAlive c; Public := b |}.

End db.

(** ** The agent in memory *)

(** What the agent has launched with [go] or [allez]. *)
Inductive Goroutine : Set :=
| getTestnetFaucetFunds (acct : string)
| watchWalletAcct_ (acct cursor : string)
| taskbasketRun
| watchChannel (chanID : string)
| goDoCommand (chanID : string) (c : fsm.Command).

(** An input of the channel state machine. *)
Inductive Input : Set :=
| InCmd (c : fsm.Command)
| InMsg (m : msg.Message)
| InTime.

(** The functions a transaction registers with [OnCommit]. *)
Inductive Hook : Set :=
| evcondBroadcast
| AfterFunc (t : Z) (chanID : string).

(** The fields of the Go struct [Agent] that the code at hand mutates.
    [wallet] tells whether the channel [g.wallet] has been closed,
    [evcond] counts the broadcasts of the condition variable,
    [goroutines] and [timers] list what was launched and armed, and
    [steps] lists the inputs that were handed to the state machine. *)
Record Agent : Type :=
  { seed : option string;
    wclient : string;
    wallet : bool;
    acctsReady : gset string;
    tb : bool;
    goroutines : list Goroutine;
    timers : list (Z * string);
    evcond : nat;
    steps : list (string * Input) }.

Definition setSeed (s : option string) (g : Agent) : Agent :=
  {| seed := s; wclient := wclient g; wallet := wallet g; acctsReady := acctsReady g;
     tb := tb g; goroutines := goroutines g; timers := timers g;
     evcond := evcond g; steps := steps g |}.

Definition SetURL (u : string) (g : Agent) : Agent :=
  {| seed := seed g; wclient := u; wallet := wallet g; acctsReady := acctsReady g;
     tb := tb g; goroutines := goroutines g; timers := timers g;
     evcond := evcond g; steps := steps g |}.

Definition closeWallet (g : Agent) : Agent :=
  {| seed := seed g; wclient := wclient g; wallet := true; acctsReady := acctsReady g;
     tb := tb g; goroutines := goroutines g; timers := timers g;
     evcond := evcond g; steps := steps g |}.

Definition setAcctsReady (f : gset string -> gset string) (g : Agent) : Agent :=
  {| seed := seed g; wclient := wclient g; wallet := wallet g; acctsReady := f (acctsReady g);
     tb := tb g; goroutines := goroutines g; timers := timers g;
     evcond := evcond g; steps := steps g |}.

Definition setTb (g : Agent) : Agent :=
  {| seed := seed g; wclient := wclient g; wallet := wallet g; acctsReady := acctsReady g;
     tb := true; goroutines := goroutines g; timers := timers g;
     evcond := evcond g; steps := steps g |}.

(** [go f()] and [g.allez(f, desc)] *)
Definition allez (r : Goroutine) (g : Agent) : Agent :=
  {| seed := seed g; wclient := wclient g; wallet := wallet g; acctsReady := acctsReady g;
     tb := tb g; goroutines := goroutines g ++ [r]; timers := timers g;
     evcond := evcond g; steps := steps g |}.

Definition logStep (chanID : string) (i : Input) (g : Agent) : Agent :=
  {| seed := seed g; wclient := wclient g; wallet := wallet g; acctsReady := acctsReady g;
     tb := tb g; goroutines := goroutines g; timers := timers g;
     evcond := evcond g; steps := steps g ++ [(chanID, i)] |}.

(** A committed transaction runs its hooks. *)
Definition runHook (h : Hook) (g : Agent) : Agent :=
  match h with
  | evcondBroadcast =>
      {| seed := seed g; wclient := wclient g; wallet := wallet g; acctsReady := acctsReady g;
         tb := tb g; goroutines := goroutines g; timers := timers g;
         evcond := S (evcond g); steps := steps g |}
  | AfterFunc t chanID =>
      {| seed := seed g; wclient := wclient g; wallet := wallet g; acctsReady := acctsReady g;
         tb := tb g; goroutines := goroutines g; timers := timers g ++ [(t, chanID)];
         evcond := evcond g; steps := steps g |}
  end.

(** ** Transactions *)

(** The agent and its database. *)
Record World : Type :=
  { g : Agent; store : db.Root }.

(** An open write transaction: the database as the transaction sees it,
    the agent in memory, and the hooks registered so far. *)
Record TxSt : Type :=
  { root : db.Root; mem : Agent; hooks : list Hook }.

(** Modelled from the spec: package [db] is not part of the sources at
    hand.  Section 4.1: every mutation of the store happens inside one
    write transaction and [OnCommit] hooks run after the commit;
    sections 4.4 and 7: a closure that returns an error rolls the
    transaction back, so nothing of it is persisted.  What the closure
    did to the agent in memory is not undone. *)
Definition db_Update {A} (f : M TxSt A) : M World A := fun w =>
  match f {| root := store w; mem := g w; hooks := [] |} with
  | (Ok a, s) => (Ok a, {| g := fold_left (fun a h => runHook h a) (hooks s) (mem s);
                           store := root s |})
  | (Fail e, s) => (Fail e, {| g := mem s; store := store w |})
  | (Panic m, s) => (Panic m, {| g := mem s; store := store w |})
  end.

(** A read transaction sees the committed store. *)
Definition db_View {A} (f : db.Root -> A) : M World A := gets (fun w => f (store w)).

(** [func F() (err error)] called for its effect, the error dropped. *)
Definition ignoreErr {S} (m : M S unit) : M S unit := fun s =>
  match m s with
  | (Fail _, s') => (Ok tt, s')
  | r => r
  end.

Definition agent : M TxSt db.Agent := gets (fun s => db.Agent_ (root s)).

Definition modifyAgent (f : db.Agent -> db.Agent) : M TxSt unit :=
  modify (fun s => {| root := {| db.Agent_ := f (db.Agent_ (root s)); db.Tasks := db.Tasks (root s) |};
                      mem := mem s; hooks := hooks s |}).

Definition modifyMem (f : Agent -> Agent) : M TxSt unit :=
  modify (fun s => {| root := root s; mem := f (mem s); hooks := hooks s |}).

(** [root.Tx().OnCommit(h)] *)
Definition OnCommit (h : Hook) : M TxSt unit :=
  modify (fun s => {| root := root s; mem := mem s; hooks := hooks s ++ [h] |}).

(** [root.DeleteAgent()]: the bucket [agent] is deleted with all it
    holds; the next [root.Agent()] finds it empty. *)
Definition DeleteAgent : M TxSt unit := modifyAgent (fun _ => db.emptyAgent).

(** [g.tb.AddTx(tx, t)]: the task is added to the basket inside the
    transaction (section 4.2). *)
Definition tbAddTx (t : Task) : M TxSt unit :=
  modify (fun s => {| root := {| db.Agent_ := db.Agent_ (root s); db.Tasks := db.Tasks (root s) ++ [t] |};
                      mem := mem s; hooks := hooks s |}).


(** ** What the agent calls and is not defined in [agent.go] *)

(** What a step of the channel state machine gives back besides the
    new channel record: messages for the peer, signed envelopes for the
    ledger, times at which to wake up. *)
Record Output : Set :=
  { OutMsgs : list msg.Message; OutTxs : list string; OutTimers : list Z }.

(** The ledger client, the cryptography, the transaction builder and
    the channel state machine are used through their interfaces. *)
Class Externals : Type :=
  { (** [g.wclient.Now()] *)
    Now : Z;
    (** [g.wclient.ValidateTestnetURL(url)] *)
    ValidateTestnetURL : string -> option error;
    (** [g.wclient.LoadAccount(addr)], read for [Flags.AuthRequired] *)
    LoadAccount : string -> error + bool;
    (** [g.wclient.SequenceForAccount(addr)] *)
    SequenceForAccount : string -> error + Z;
    (** [g.FindAccount(fedAddr)]: the account and the Starlight URL *)
    FindAccount : string -> error + (string * string);
    (** [bcrypt.GenerateFromPassword] and [bcrypt.CompareHashAndPassword] *)
    GenerateFromPassword : string -> error + string;
    CompareHashAndPassword : string -> string -> option error;
    (** [sealBox(seed, password)] *)
    sealBox : option string -> string -> string;
    (** the address of [key.DeriveAccountPrimary(seed)] and of
        [key.DeriveAccount(seed, i)] *)
    DeriveAccountPrimary : option string -> string;
    DeriveAccount : option string -> Z -> string;
    (** [AccountID.SetAddress(addr)] *)
    SetAddress : string -> option error;
    (** [Asset.SetCredit(code, issuer)] and [Asset.String()] *)
    SetCredit : string -> string -> error + xdr.Asset;
    AssetString : xdr.Asset -> string;
    (** [b.Transaction] of a home-domain [SetOptions] (passphrase, fee,
        account, sequence number, domain) and [Sign] with the primary key *)
    homeDomainTx : string -> Z -> string -> Z -> string -> error + string;
    Sign : option string -> string -> error + string;
    (** the units of package [xlm] *)
    Stroop : Z;
    Millilumen : Z;
    (** what can go wrong in [g.startChannel] and [taskbasket.NewTx] *)
    startChannelErr : string -> db.Root -> option error;
    taskbasketNewTx : db.Root -> option error;
    (** [Updater.Cmd], [Updater.Msg] and [Updater.Time] of package [fsm]:
        seed, clock, channel and input to the new channel and the output *)
    Step : option string -> Z -> fsm.Channel -> Input -> error + (fsm.Channel * Output);
    (** [Channel.SetupAndFundingReserveAmount()] *)
    SetupAndFundingReserveAmount : fsm.Channel -> Z }.

(** [Config]: the options of the agent as the user supplies them.
    [KeepAlive] is a pointer to a boolean. *)
Record Config : Set :=
  { Username : string; Password : string; HorizonURL : string;
    OldPassword : string;
    MaxRoundDurMins : Z; FinalityDelayMins : Z;
    ChannelFeerate : Z; HostFeerate : Z;
    KeepAlive : option bool; Public : bool }.

#[global] Instance Config_eq_dec : EqDecision Config.
Proof. solve_decision. Defined.

(** [Config{}] *)
Definition zeroConfig : Config :=
  {| Username := ""; Password := ""; HorizonURL := ""; OldPassword := "";
     MaxRoundDurMins := 0; FinalityDelayMins := 0;
     ChannelFeerate := 0; HostFeerate := 0; KeepAlive := None; Public := false |}.

Definition withOldPassword (p : string) (c : Config) : Config :=
  {| Username := Username c; Password := Password c; HorizonURL := HorizonURL c;
     OldPassword := p;
     MaxRoundDurMins := MaxRoundDurMins c; FinalityDelayMins := FinalityDelayMins c;
     ChannelFeerate := ChannelFeerate c; HostFeerate := HostFeerate c;
     KeepAlive := KeepAlive c; Public := Public c |}.

(** [network.TestNetworkPassphrase] *)
Definition TestNetworkPassphrase : string := "Test SDF Network ; September 2015".

Definition defaultMaxRoundDurMins : Z := 60.
Definition defaultFinalityDelayMins : Z := 60.

(** [if cond { return err }] *)
Definition failIf {S} (cond : bool) (e : error) : M S unit :=
  if cond then fail e else mret tt.

(** [if x == 0 { x = d }] *)
Definition orDefault (x d : Z) : Z := if x =? 0 then d else x.

Definition printable (a : ascii) : bool :=
  let n := N_of_ascii a in (32 <=? n)%N && (n <=? 126)%N.

(** Modelled from the spec: [validateUsername] is not part of the
    sources at hand.  Section 4.9: a username is printable and holds
    no ['*']. *)
Definition validateUsername (name : string) : bool :=
  forallb (fun a => printable a && negb (Ascii.eqb a "*")) (list_ascii_of_string name).

Section Configuration.

Context `{Externals}.

Definition baseReserve : Z := 500 * Millilumen.
Definition defaultChannelFeerate : Z := 10 * Millilumen.
Definition defaultHostFeerate : Z := 100 * Stroop.

(** Modelled from the spec: [putUpdate] is not part of the sources at
    hand.  Section 4.5: an Update is appended to the log of the agent,
    and the broadcast that wakes the subscribers is a hook that runs
    after the commit.  The record gets the next number of the log and
    the time of the ledger client. *)
Definition putUpdate (ev : Update) : M TxSt unit :=
  a ← agent;
  let n := Z.of_nat (length (db.Updates a)) + 1 in
  modifyAgent (db.setUpdates (fun l => (l ++ [stamped n Now ev])%list));;
  OnCommit evcondBroadcast.

Definition isReadyConfigured (a : db.Agent) : bool :=
  negb (String.eqb (db.HorizonURL (db.Config_ a)) "").

Definition isReadyFunded (a : db.Agent) : bool :=
  0 <? fsm.Seqnum (db.Wallet a).

(** Modelled from the spec: [startChannel] is not part of the sources
    at hand.  Sections 4.7 and 4.9: a watcher is launched for the
    channel. *)
Definition startChannel (chanID : string) : M TxSt unit :=
  r ← gets root;
  check (startChannelErr chanID r);;
  modifyMem (allez (watchChannel chanID)).

(** [close(g.wallet)]; closing a closed channel panics. *)
Definition close_wallet : M TxSt unit :=
  closed ← gets (fun s => wallet (mem s));
  if closed : bool then panic "close of closed channel" else modifyMem closeWallet.

(** [start]: must be called from within an update transaction. *)
Definition start : M TxSt unit :=
  a ← agent;
  if negb (isReadyConfigured a) then mret tt else
  (if isReadyFunded a then close_wallet
   else modifyMem (allez (getTestnetFaucetFunds (db.PrimaryAcct a))));;
  modifyMem (SetURL (db.HorizonURL (db.Config_ a)));;
  let chanIDs := map fst (db.Channels a) in
  forRange (fun _ chanID => startChannel chanID) 0 chanIDs;;
  a ← agent;
  let primaryAcct := db.PrimaryAcct a in
  let w := db.Wallet a in
  modifyMem (allez (watchWalletAcct_ primaryAcct (fsm.Cursor w)));;
  r ← gets root;
  check (taskbasketNewTx r);;
  modifyMem setTb;;
  modifyMem (allez taskbasketRun).

(** [ConfigInit(c, hostURL)].  [rnd] is what [randRead] puts into the
    fresh seed. *)
Definition ConfigInit (c : Config) (hostURL : string) (rnd : string) : M World unit :=
  check (ValidateTestnetURL (HorizonURL c));;
  db_Update (
    a ← agent;
    failIf (isReadyConfigured a) errAlreadyConfigured;;
    modifyMem (setSeed (Some rnd));;
    let primaryAcct := DeriveAccountPrimary (Some rnd) in
    failIf (72 <? len (Password c)) (Wrap errInvalidPassword "too long (max 72 chars)");;
    failIf (String.eqb (Password c) "") (Wrap errInvalidPassword "empty password");;
    failIf (negb (validateUsername (Username c))) errInvalidUsername;;
    failIf (MaxRoundDurMins c <? 0) (Wrap errInvalidInput "negative max round duration");;
    failIf (FinalityDelayMins c <? 0) (Wrap errInvalidInput "negative finality delay");;
    failIf (ChannelFeerate c <? 0) (Wrap errInvalidInput "negative channel feerate");;
    failIf (HostFeerate c <? 0) (Wrap errInvalidInput "negative host feerate");;
    digest ← try (GenerateFromPassword (Password c));
    modifyAgent (db.setConfig (db.PutUsername (Username c)));;
    modifyAgent (db.setConfig (db.PutPwType "bcrypt"));;
    modifyAgent (db.setConfig (db.PutPwHash digest));;
    modifyAgent (db.setConfig (db.PutHorizonURL (HorizonURL c)));;
    modifyAgent (db.PutReady true);;
    modifyAgent (db.PutEncryptedSeed (sealBox (Some rnd) (Password c)));;
    modifyAgent (db.PutNextKeypathIndex 1);;
    modifyAgent (db.PutPrimaryAcct primaryAcct);;
    let maxRoundDurMins := orDefault (MaxRoundDurMins c) defaultMaxRoundDurMins in
    let finalityDelayMins := orDefault (FinalityDelayMins c) defaultFinalityDelayMins in
    let channelFeerate := orDefault (ChannelFeerate c) defaultChannelFeerate in
    let hostFeerate := orDefault (HostFeerate c) defaultHostFeerate in
    let keepAlive := default true (KeepAlive c) in
    modifyAgent (db.setConfig (db.PutMaxRoundDurMins maxRoundDurMins));;
    modifyAgent (db.setConfig (db.PutFinalityDelayMins finalityDelayMins));;
    modifyAgent (db.setConfig (db.PutChannelFeerate channelFeerate));;
    modifyAgent (db.setConfig (db.PutHostFeerate hostFeerate));;
    modifyAgent (db.setConfig (db.PutKeepAlive keepAlive));;
    modifyAgent (db.setConfig (db.PutPublic (Public c)));;
    let w := {| fsm.NativeBalance := 0; fsm.Reserve := 0; fsm.Seqnum := 0;
                fsm.Cursor := ""; fsm.Address := Username c +:+ "*" +:+ hostURL;
                fsm.Balances := Some ∅ |} in
    modifyAgent (db.PutWallet w);;
    modifyMem (SetURL (HorizonURL c));;
    putUpdate
      (withAccount {| update.ID := primaryAcct; update.Balance := 0;
                      update.Balances := None; update.Reserve := 0 |}
        (withConfig {| update.Username := Username c;
                       update.Password := "[redacted]";
                       update.HorizonURL := HorizonURL c;
                       update.MaxRoundDurMins := maxRoundDurMins;
                       update.FinalityDelayMins := finalityDelayMins;
                       update.ChannelFeerate := channelFeerate;
                       update.HostFeerate := hostFeerate;
                       update.KeepAlive := keepAlive |}
          (newUpdate update.InitType)));;
    start).

(** [ConfigEdit(c)] *)
Definition ConfigEdit (c : Config) : M World unit :=
  failIf (negb (String.eqb (Username c) "") || bool_decide (KeepAlive c <> None))
    errInvalidEdit;;
  let c1 := withOldPassword "" c in
  failIf (bool_decide (c1 = zeroConfig)) errEmptyConfigEdit;;
  failIf (72 <? len (Password c)) (Wrap errInvalidPassword "too long (max 72 chars)");;
  (if negb (String.eqb (HorizonURL c) "")
   then check (ValidateTestnetURL (HorizonURL c)) else mret tt);;
  failIf (MaxRoundDurMins c <? 0) (Wrap errInvalidInput "negative max round duration");;
  failIf (FinalityDelayMins c <? 0) (Wrap errInvalidInput "negative finality delay");;
  failIf (ChannelFeerate c <? 0) (Wrap errInvalidInput "negative channel feerate");;
  failIf (HostFeerate c <? 0) (Wrap errInvalidInput "negative host feerate");;
  db_Update (
    a ← agent;
    failIf (negb (isReadyConfigured a)) errNotConfigured;;
    if negb (String.eqb (Password c) "")
       && negb (String.eqb (db.PwType (db.Config_ a)) "bcrypt")
    then mret tt (* [return nil] *)
    else
    (if negb (String.eqb (Password c) "") then
       let digest := db.PwHash (db.Config_ a) in
       match CompareHashAndPassword digest (OldPassword c) with
       | Some err => fail (Sub errPasswordsDontMatch (Some err))
       | None =>
           digest ← try (GenerateFromPassword (Password c));
           modifyAgent (db.setConfig (db.PutPwType "bcrypt"));;
           modifyAgent (db.setConfig (db.PutPwHash digest));;
           sd ← gets (fun s => seed (mem s));
           modifyAgent (db.PutEncryptedSeed (sealBox sd (Password c)))
       end
     else mret tt);;
    (if negb (String.eqb (HorizonURL c) "") then
       modifyAgent (db.setConfig (db.PutHorizonURL (HorizonURL c)));;
       modifyMem (SetURL (HorizonURL c))
     else mret tt);;
    (if negb (MaxRoundDurMins c =? 0)
     then modifyAgent (db.setConfig (db.PutMaxRoundDurMins (MaxRoundDurMins c)))
     else mret tt);;
    (if negb (FinalityDelayMins c =? 0)
     then modifyAgent (db.setConfig (db.PutFinalityDelayMins (FinalityDelayMins c)))
     else mret tt);;
    (if negb (ChannelFeerate c =? 0)
     then modifyAgent (db.setConfig (db.PutChannelFeerate (ChannelFeerate c)))
     else mret tt);;
    (if negb (HostFeerate c =? 0)
     then modifyAgent (db.setConfig (db.PutHostFeerate (HostFeerate c)))
     else mret tt);;
    putUpdate
      (withConfig {| update.Username := Username c;
                     update.Password := "[redacted]";
                     update.HorizonURL := HorizonURL c;
                     update.MaxRoundDurMins := MaxRoundDurMins c;
                     update.FinalityDelayMins := FinalityDelayMins c;
                     update.ChannelFeerate := ChannelFeerate c;
                     update.HostFeerate := HostFeerate c;
                     update.KeepAlive := false |}
        (newUpdate update.ConfigType))).

End Configuration.


(** ** The wallet watcher *)

Definition withCursor (pt : string) (w : fsm.WalletAcct) : fsm.WalletAcct :=
  {| fsm.NativeBalance := fsm.NativeBalance w; fsm.Reserve := fsm.Reserve w;
     fsm.Seqnum := fsm.Seqnum w; fsm.Cursor := pt;
     fsm.Address := fsm.Address w; fsm.Balances := fsm.Balances w |}.

Definition withNativeBalance (n : Z) (w : fsm.WalletAcct) : fsm.WalletAcct :=
  {| fsm.NativeBalance := n; fsm.Reserve := fsm.Reserve w;
     fsm.Seqnum := fsm.Seqnum w; fsm.Cursor := fsm.Cursor w;
     fsm.Address := fsm.Address w; fsm.Balances := fsm.Balances w |}.

Definition withReserve (n : Z) (w : fsm.WalletAcct) : fsm.WalletAcct :=
  {| fsm.NativeBalance := fsm.NativeBalance w; fsm.Reserve := n;
     fsm.Seqnum := fsm.Seqnum w; fsm.Cursor := fsm.Cursor w;
     fsm.Address := fsm.Address w; fsm.Balances := fsm.Balances w |}.

Definition withSeqnum (n : Z) (w : fsm.WalletAcct) : fsm.WalletAcct :=
  {| fsm.NativeBalance := fsm.NativeBalance w; fsm.Reserve := fsm.Reserve w;
     fsm.Seqnum := n; fsm.Cursor := fsm.Cursor w;
     fsm.Address := fsm.Address w; fsm.Balances := fsm.Balances w |}.

Definition withBalances (b : option (gmap string fsm.Balance)) (w : fsm.WalletAcct) : fsm.WalletAcct :=
  {| fsm.NativeBalance := fsm.NativeBalance w; fsm.Reserve := fsm.Reserve w;
     fsm.Seqnum := fsm.Seqnum w; fsm.Cursor := fsm.Cursor w;
     fsm.Address := fsm.Address w; fsm.Balances := b |}.

(** [w.Balances[k] = v]; an assignment into a nil map panics. *)
Definition balancesPut {S} (k : string) (v : fsm.Balance) (w : fsm.WalletAcct) : M S fsm.WalletAcct :=
  match fsm.Balances w with
  | None => panic "assignment to entry in nil map"
  | Some m => mret (withBalances (Some (<[k := v]> m)) w)
  end.

(** [delete(w.Balances, k)]; deleting from a nil map does nothing. *)
Definition balancesDelete (k : string) (w : fsm.WalletAcct) : fsm.WalletAcct :=
  withBalances (delete k <$> fsm.Balances w) w.

(** [s[strings.Index(s, "*")+1:]]: what follows the first ['*'], all of
    [s] when there is none. *)
Fixpoint afterStar (s : string) : option string :=
  match s with
  | EmptyString => None
  | String a s' => if Ascii.eqb a "*" then Some s' else afterStar s'
  end.

Definition homeDomain (address : string) : string := default address (afterStar address).

Section Wallet.

Context `{Externals}.

(** The [update.Account] the watcher publishes for wallet [w]. *)
Definition accountOf (acctID : string) (w : fsm.WalletAcct) : update.Account :=
  {| update.ID := acctID;
     update.Balance := wrap_u64 (fsm.NativeBalance w);
     update.Balances := fsm.Balances w;
     update.Reserve := wrap_u64 (fsm.Reserve w) |}.

(** [g.addTxTask(tx, chanID, e)] *)
Definition addTxTask (chanID : string) (e : string) : M TxSt unit :=
  tbAddTx (TbTx chanID e).

(** [case xdr.OperationTypeCreateAccount] *)
Definition opCreateAccount (acctID : string) (htx : worizon.Transaction)
    (InputTx : worizon.Tx) (index : Z) (createAccount : xdr.CreateAccountOp) : M TxSt unit :=
  let createAccountAddr := xdr.Destination createAccount in
  ready ← gets (fun s => acctsReady (mem s));
  (if bool_decide (createAccountAddr ∈ ready)
   then modifyMem (setAcctsReady (fun r => r ∖ {[createAccountAddr]}))
   else mret tt);;
  if negb (String.eqb createAccountAddr acctID) then mret tt (* [continue] *) else
  let seqnum := wrap_i64 (wrap_u64 (wrap_u64 (worizon.Ledger htx) * 2 ^ 32)) in
  a ← agent;
  let w := db.Wallet a in
  let hostFeerate := db.HostFeerate (db.Config_ a) in
  let w := withNativeBalance
             (wrap_i64 (xdr.StartingBalance createAccount - hostFeerate - 2 * baseReserve)) w in
  let w := withReserve (wrap_i64 (2 * baseReserve)) w in
  let w := withSeqnum seqnum w in
  let w := withCursor (worizon.PT htx) w in
  modifyAgent (db.PutWallet w);;
  putUpdate (withInputTx InputTx index
               (withAccount (accountOf acctID w) (newUpdate update.AccountType)));;
  a ← agent;
  if db.Public (db.Config_ a) then
    let domain := homeDomain (fsm.Address w) in
    let w := withSeqnum (wrap_i64 (fsm.Seqnum w + 1)) w in
    sd ← gets (fun s => seed (mem s));
    match homeDomainTx TestNetworkPassphrase (wrap_u64 hostFeerate) acctID
            (wrap_u64 (fsm.Seqnum w)) domain with
    | inl err => fail (Wrap err "building home domain tx")
    | inr tx =>
        env ← try (Sign sd tx);
        ignoreErr (addTxTask walletBucket env)
    end
  else mret tt.

(** The asset of a payment as the watcher rebuilds it; [None] is the
    [continue] for a payment of an asset back to its issuer. *)
Definition paymentAsset (acctID : string) (a : xdr.Asset) : M TxSt (option xdr.Asset) :=
  match a with
  | xdr.AssetNative => mret (Some xdr.AssetNative)
  | xdr.AssetAlphaNum4 code issuer
  | xdr.AssetAlphaNum12 code issuer =>
      if String.eqb issuer acctID then mret None else
      match SetCredit code issuer with
      | inl err => fail (Sub err (Some (Sentinel errInvalidAsset)))
      | inr asset => mret (Some asset)
      end
  end.

(** [case xdr.OperationTypePayment].  The balance written for a
    non-native asset is the variable [currBalance] declared before the
    [if]; both branches of the [if] assign to the variable of the same
    name that the [if] itself declares, so what is written is the zero
    balance. *)
Definition opPayment (acctID : string) (htx : worizon.Transaction)
    (InputTx : worizon.Tx) (index : Z) (paymentOp : xdr.PaymentOp) : M TxSt unit :=
  if negb (String.eqb (xdr.PayDestination paymentOp) acctID) then mret tt (* [continue] *) else
  a ← agent;
  let w := db.Wallet a in
  let w := match xdr.PayAsset paymentOp with
           | xdr.AssetNative =>
               withNativeBalance (wrap_i64 (fsm.NativeBalance w + xdr.Amount paymentOp)) w
           | _ => w
           end in
  oasset ← paymentAsset acctID (xdr.PayAsset paymentOp);
  match oasset with
  | None => mret tt (* [continue] *)
  | Some asset =>
      w ← (if negb (xdr.isNative asset)
           then balancesPut (AssetString asset) fsm.zeroBalance w
           else mret w);
      let w := withCursor (worizon.PT htx) w in
      modifyAgent (db.PutWallet w);;
      putUpdate (withInputTx InputTx index
                   (withAccount (accountOf acctID w) (newUpdate update.AccountType)))
  end.

(** [case xdr.OperationTypeAccountMerge] *)
Definition opAccountMerge (acctID : string) (htx : worizon.Transaction)
    (InputTx : worizon.Tx) (index : Z) (op : xdr.Operation) (destination : string) : M TxSt unit :=
  (if String.eqb (xdr.Address (xdr.SourceAccount op)) acctID then
     DeleteAgent;;
     putUpdate (withInputTx InputTx index
                  (withAccount {| update.ID := acctID; update.Balance := 0;
                                  update.Balances := None; update.Reserve := 0 |}
                     (newUpdate update.AccountType)));;
     modifyAgent (db.PutReady true)
   else mret tt);;
  (if String.eqb destination acctID then
     mergeAmount ← match xdr.Results (worizon.Result InputTx) !! Z.to_nat index with
                   | Some (Some amount) => mret amount
                   | _ => panic "invalid memory address or nil pointer dereference"
                   end;
     a ← agent;
     let w := db.Wallet a in
     let w := withNativeBalance (wrap_i64 (fsm.NativeBalance w + mergeAmount)) w in
     let w := withCursor (worizon.PT htx) w in
     modifyAgent (db.PutWallet w);;
     putUpdate (withInputTx InputTx index
                  (withAccount (accountOf acctID w) (newUpdate update.AccountType)))
   else mret tt).

(** [case xdr.OperationTypeChangeTrust] *)
Definition opChangeTrust (acctID : string) (htx : worizon.Transaction)
    (InputTx : worizon.Tx) (index : Z) (op : xdr.Operation)
    (changeTrustOp : xdr.ChangeTrustOp) : M TxSt unit :=
  a ← agent;
  let w := db.Wallet a in
  if negb (String.eqb (xdr.Address (xdr.SourceAccount op)) (fsm.Address w))
  then mret tt (* [continue] *) else
  w ← (if xdr.Limit changeTrustOp =? 0 then
         let w := balancesDelete (AssetString (xdr.Line changeTrustOp)) w in
         let w := withNativeBalance (wrap_i64 (fsm.NativeBalance w + baseReserve)) w in
         mret (withReserve (wrap_i64 (fsm.Reserve w - baseReserve)) w)
       else
         match xdr.Line changeTrustOp with
         | xdr.AssetAlphaNum4 _ issuer
         | xdr.AssetAlphaNum12 _ issuer =>
             match LoadAccount issuer with
             | inl err => fail (Wrap err "getting issuer auth requirement")
             | inr authRequired =>
                 balancesPut (AssetString (xdr.Line changeTrustOp))
                   {| fsm.Asset := xdr.Line changeTrustOp; fsm.Amount := 0;
                      fsm.Pending := false; fsm.Authorized := negb authRequired |} w
             end
         | xdr.AssetNative => fail (New "native trustline not allowed")
         end);
  modifyAgent (db.PutWallet w);;
  putUpdate (withInputTx InputTx index
               (withAccount (accountOf acctID w) (newUpdate update.AccountType))).

(** [case xdr.OperationTypeAllowTrust].  The issuer of the asset is
    [*op.SourceAccount]; the balance written is the zero balance, as in
    [opPayment]. *)
Definition opAllowTrust (acctID : string) (htx : worizon.Transaction)
    (InputTx : worizon.Tx) (index : Z) (op : xdr.Operation)
    (allowTrustOp : xdr.AllowTrustOp) : M TxSt unit :=
  if negb (String.eqb (xdr.Trustor allowTrustOp) acctID) then mret tt (* [continue] *) else
  asset ← match xdr.TrustAsset allowTrustOp with
          | xdr.AllowCode4 assetCode
          | xdr.AllowCode12 assetCode =>
              match xdr.SourceAccount op with
              | None => panic "invalid memory address or nil pointer dereference"
              | Some source =>
                  match SetCredit assetCode source with
                  | inl err => fail (Sub err (Some (Sentinel errInvalidAsset)))
                  | inr asset => mret asset
                  end
              end
          | xdr.AllowNative => fail (New "no native trustline allowed")
          end;
  a ← agent;
  let w := db.Wallet a in
  w ← balancesPut (AssetString asset) fsm.zeroBalance w;
  modifyAgent (db.PutWallet w);;
  putUpdate (withInputTx InputTx index
               (withAccount {| update.ID := acctID;
                               update.Balance := wrap_u64 (fsm.NativeBalance w);
                               update.Balances := fsm.Balances w;
                               update.Reserve := 0 |}
                  (newUpdate update.AccountType))).

(** The body of [for index, op := range InputTx.Env.Tx.Operations]. *)
Definition walletOp (acctID : string) (htx : worizon.Transaction)
    (InputTx : worizon.Tx) (index : Z) (op : xdr.Operation) : M TxSt unit :=
  match xdr.Body op with
  | xdr.CreateAccount createAccount => opCreateAccount acctID htx InputTx index createAccount
  | xdr.Payment paymentOp => opPayment acctID htx InputTx index paymentOp
  | xdr.AccountMerge destination => opAccountMerge acctID htx InputTx index op destination
  | xdr.ChangeTrust changeTrustOp => opChangeTrust acctID htx InputTx index op changeTrustOp
  | xdr.AllowTrust allowTrustOp => opAllowTrust acctID htx InputTx index op allowTrustOp
  | xdr.OtherOp => mret tt
  end.

(** The function [watchWalletAcct] hands to [StreamTxs]: called for
    every transaction of the stream. *)
Definition walletTx (acctID : string) (htx : worizon.Transaction) : M World unit :=
  InputTx ← try (worizon.NewTx htx);
  if negb (xdr.TxSuccess (worizon.Result InputTx)) then mret tt (* ignore failed txs *) else
  ignoreErr (db_Update (
    (if String.eqb (xdr.TxSourceAccount (worizon.Env InputTx)) acctID then
       a ← agent;
       let w := withCursor (worizon.PT htx) (db.Wallet a) in
       modifyAgent (db.PutWallet w);;
       putUpdate (withInputTx InputTx 0 (newUpdate update.TxSuccessType))
     else mret tt);;
    forRange (walletOp acctID htx InputTx) 0 (xdr.Operations (worizon.Env InputTx)))).

(** [mustDeauthenticate] *)
Definition mustDeauthenticate : M World unit :=
  db_Update (modifyMem (setSeed None)).

(** The [select] at the head of [watchWalletAcct]: the case that is
    taken, if any.  [latch] tells whether [g.wallet] is closed, [done]
    whether [g.rootCtx] is; when both are, Go takes either case, and
    [pick] is its choice. *)
Inductive Selected : Set := TakeWallet | TakeDone | NoCase.

Definition selectWallet (latch done pick : bool) : Selected :=
  match latch, done with
  | true, false => TakeWallet
  | false, true => TakeDone
  | true, true => if pick then TakeWallet else TakeDone
  | false, false => NoCase
  end.

(** What has become of the goroutine [watchWalletAcct]: it is
    blocked in the [select]; it has returned, leaving a world; it is
    inside [StreamTxs] and has handled the transactions delivered so
    far; or it has panicked, and the process is gone. *)
Inductive Watch : Type :=
| Blocked
| Returned (w : World)
| Streaming (w : World)
| Crashed.

(** [watchWalletAcct(acctID, cursor)] on the transactions [txs] that
    the stream has delivered: [StreamTxs] calls [walletTx] on each in
    turn and returns at the first error, after which the agent enters
    watchtower mode and the goroutine returns.  [done] and [pick] are
    read by the [select]. *)
Definition watchWalletAcct (acctID : string) (done pick : bool)
    (txs : list worizon.Transaction) (w : World) : Watch :=
  match selectWallet (wallet (g w)) done pick with
  | NoCase => Blocked
  | TakeDone => Returned w
  | TakeWallet =>
      match forRange (fun _ htx => walletTx acctID htx) 0 txs w with
      | (Ok _, w') => Streaming w'
      | (Fail err, w') =>
          match mustDeauthenticate w' with
          | (Ok _, w'') => Returned w''
          | (Fail _, _) => Crashed (* [panic(err)] *)
          | (Panic _, _) => Crashed
          end
      | (Panic _, _) => Crashed
      end
  end.

End Wallet.


(** ** Channels: creation, commands, messages *)

(** [fsm.Updater]: the channel a step works on and what the step
    produced. *)
Record Updater : Set :=
  { C : fsm.Channel; Out : Output }.

Definition noOutput : Output := {| OutMsgs := []; OutTxs := []; OutTimers := [] |}.

(** [time.Minute], in nanoseconds. *)
Definition Minute : Z := 60 * 1000000000.

Definition withLastMsgIndex (n : Z) (c : fsm.Channel) : fsm.Channel :=
  {| fsm.ID := fsm.ID c; fsm.Role_ := fsm.Role_ c; fsm.State_ := fsm.State_ c;
     fsm.HostAmount := fsm.HostAmount c; fsm.GuestAmount := fsm.GuestAmount c;
     fsm.CounterpartyAddress := fsm.CounterpartyAddress c;
     fsm.RemoteURL := fsm.RemoteURL c; fsm.Passphrase := fsm.Passphrase c;
     fsm.MaxRoundDuration := fsm.MaxRoundDuration c;
     fsm.FinalityDelay := fsm.FinalityDelay c;
     fsm.ChannelFeerate := fsm.ChannelFeerate c; fsm.HostFeerate := fsm.HostFeerate c;
     fsm.FundingTime := fsm.FundingTime c; fsm.PaymentTime := fsm.PaymentTime c;
     fsm.KeyIndex := fsm.KeyIndex c; fsm.RoundNumber := fsm.RoundNumber c;
     fsm.LastMsgIndex := n;
     fsm.HostAcct := fsm.HostAcct c; fsm.GuestAcct := fsm.GuestAcct c;
     fsm.EscrowAcct := fsm.EscrowAcct c;
     fsm.HostRatchetAcct := fsm.HostRatchetAcct c;
     fsm.GuestRatchetAcct := fsm.GuestRatchetAcct c;
     fsm.GuestRatchetAcctSeqNum := fsm.GuestRatchetAcctSeqNum c;
     fsm.HostRatchetAcctSeqNum := fsm.HostRatchetAcctSeqNum c;
     fsm.BaseSequenceNumber := fsm.BaseSequenceNumber c |}.

(** The assignments to [updater.C] that [handleMsg] makes for a channel
    proposal. *)
Definition proposedTo (counterparty escrowAcct hostAcct guestAcct : string)
    (guestSeqNum hostSeqNum baseSeqNum : Z) (c : fsm.Channel) : fsm.Channel :=
  {| fsm.ID := fsm.ID c; fsm.Role_ := fsm.Guest; fsm.State_ := fsm.State_ c;
     fsm.HostAmount := fsm.HostAmount c; fsm.GuestAmount := fsm.GuestAmount c;
     fsm.CounterpartyAddress := counterparty;
     fsm.RemoteURL := fsm.RemoteURL c; fsm.Passphrase := fsm.Passphrase c;
     fsm.MaxRoundDuration := fsm.MaxRoundDuration c;
     fsm.FinalityDelay := fsm.FinalityDelay c;
     fsm.ChannelFeerate := fsm.ChannelFeerate c; fsm.HostFeerate := fsm.HostFeerate c;
     fsm.FundingTime := fsm.FundingTime c; fsm.PaymentTime := fsm.PaymentTime c;
     fsm.KeyIndex := fsm.KeyIndex c; fsm.RoundNumber := fsm.RoundNumber c;
     fsm.LastMsgIndex := fsm.LastMsgIndex c;
     fsm.HostAcct := hostAcct; fsm.GuestAcct := guestAcct;
     fsm.EscrowAcct := escrowAcct;
     fsm.HostRatchetAcct := fsm.HostRatchetAcct c;
     fsm.GuestRatchetAcct := fsm.GuestRatchetAcct c;
     fsm.GuestRatchetAcctSeqNum := guestSeqNum;
     fsm.HostRatchetAcctSeqNum := hostSeqNum;
     fsm.BaseSequenceNumber := baseSeqNum |}.

Section Channels.

Context `{Externals}.

(** The closure [checkChannelUnique] hands to [ForEach]; it works on
    the variable [chanID] of the enclosing function. *)
Definition eachChannel (chans : db.Agent) (a b : string)
    (curChanID : string) (_ : fsm.Channel) : M string unit :=
  let c := db.ChannelsGet chans curChanID in
  let p := fsm.HostAcct c in
  let q := fsm.GuestAcct c in
  if String.eqb a p && String.eqb b q || String.eqb a q && String.eqb b p then
    modify (fun _ => curChanID);;
    fail (Wrap errExists ("between host " +:+ p +:+ " and guest " +:+ q))
  else mret tt.

(** [checkChannelUnique(a, b)]: the channel ID and the error. *)
Definition checkChannelUnique (a b : string) : M World (string * option error) :=
  db_View (fun root =>
    let chans := db.Agent_ root in
    match db.ForEach (db.Channels chans) (eachChannel chans a b) "" with
    | (Fail err, chanID) => (chanID, Some err)
    | (_, chanID) => (chanID, None)
    end).

(** Modelled from the spec: [getChannel] is not part of the sources at
    hand.  Section 3: a channel is keyed by its ID; one that is not in
    the store is in state [Start]. *)
Definition getChannel (chanID : string) : M TxSt fsm.Channel :=
  a ← agent;
  mret (db.ChannelsGet a chanID).

(** Modelled from the spec: [putChannel], likewise, writes the record
    under its ID. *)
Definition putChannel (chanID : string) (c : fsm.Channel) : M TxSt unit :=
  modifyAgent (db.setChannels (fun b => db.Put b chanID c)).

(** [putMessage(root, c, msg)]; the number that [Add] stores through
    [&msg.MsgNum] is returned. *)
Definition putMessage (c : fsm.Channel) (m : msg.Message) : M TxSt Z :=
  a ← agent;
  let st := default message.new (db.Get (db.Messages a) (fsm.ID c)) in
  let '(st', n) := message.Add m st in
  modifyAgent (db.setMessages (fun b => db.Put b (fsm.ID c) st'));;
  OnCommit evcondBroadcast;;
  mret n.

(** [addMsgTask(root, c, msg)] *)
Definition addMsgTask (c : fsm.Channel) (m : msg.Message) : M TxSt unit :=
  if bool_decide (fsm.Role_ c = fsm.Guest) then
    n ← putMessage c m;
    putChannel (fsm.ID c) (withLastMsgIndex n c)
  else
    tbAddTx (TbMsg (fsm.RemoteURL c) m).

(** [Messages(chanID, a, b)] *)
Definition Messages (chanID : string) (a b : Z) : M World (list msg.Message) :=
  db_View (fun root =>
    let m := db.Get (db.Messages (db.Agent_ root)) chanID in
    ([] ++ message.From m a b)%list).

(** [lastMsgNum(db, chanID)] *)
Definition lastMsgNum (chanID : string) : M World Z :=
  db_View (fun root =>
    match db.Get (db.Messages (db.Agent_ root)) chanID with
    | Some m => message.LastSeqNum m
    | None => 0
    end).

(** [nextChannelKeyIndex(agent, bump)] *)
Definition nextChannelKeyIndex (bump : Z) : M TxSt Z :=
  a ← agent;
  let i := db.NextKeypathIndex a in
  modifyAgent (db.PutNextKeypathIndex (wrap_u32 (i + bump)));;
  mret i.

(** [scheduleTimer(tx, t, chanID)] *)
Definition scheduleTimer (t : Z) (chanID : string) : M TxSt unit :=
  OnCommit (AfterFunc t chanID).

(** [updater.Cmd(c)], [updater.Msg(m)], [updater.Time()]: the state
    machine takes a step on the channel of the updater. *)
Definition UpdaterStep (i : Input) (u : Updater) : M TxSt Updater :=
  modifyMem (logStep (fsm.ID (C u)) i);;
  sd ← gets (fun s => seed (mem s));
  '(c, out) ← try (Step sd Now (C u) i);
  mret {| C := c; Out := out |}.

Definition updateType (u : Update) : update.Type_ :=
  match InputCommand u, InputMessage u with
  | Some _, _ => update.ChannelCmdType
  | None, Some _ => update.ChannelMsgType
  | None, None => update.TimerType
  end.

(** Modelled from the spec: [doUpdateChannel] is not part of the sources
    at hand.  Section 4.5: fetch the channel, construct an Updater
    bound to it, apply the input; if that succeeds write the channel
    back, enqueue the tasks, arm the timers and append an Update that
    carries the input. *)
Definition doUpdateChannel (chanID : string)
    (f : Updater -> Update -> M TxSt (Updater * Update)) : M TxSt unit :=
  c ← getChannel chanID;
  '(u, ev) ← f {| C := c; Out := noOutput |} (newUpdate update.TimerType);
  putChannel chanID (C u);;
  forRange (fun _ e => addTxTask chanID e) 0 (OutTxs (Out u));;
  forRange (fun _ m => c' ← getChannel chanID; addMsgTask c' m) 0 (OutMsgs (Out u));;
  forRange (fun _ t => scheduleTimer t chanID) 0 (OutTimers (Out u));;
  c' ← getChannel chanID;
  putUpdate (withChannel c'
    {| Type_ := updateType ev; UpdateNum := UpdateNum ev;
       UpdateLedgerTime := UpdateLedgerTime ev; Config_ := Config_ ev;
       Account := Account ev; InputTx := InputTx ev; OpIndex := OpIndex ev;
       InputCommand := InputCommand ev; InputMessage := InputMessage ev;
       InputLedgerTime := InputLedgerTime ev; Warning := Warning ev;
       PendingSequence := PendingSequence ev; Channel := Channel ev |}).

(** Modelled from the spec: [updateChannel] runs [doUpdateChannel] in a
    write transaction of its own. *)
Definition updateChannel (chanID : string)
    (f : Updater -> Update -> M TxSt (Updater * Update)) : M World unit :=
  db_Update (doUpdateChannel chanID f).


(** [DoCreateChannel(guestFedAddr, hostAmount)] *)
Definition DoCreateChannel (guestFedAddr : string) (hostAmount : Z) : M World fsm.Channel :=
  failIf (String.eqb guestFedAddr "") errEmptyAddress;;
  failIf (hostAmount =? 0) errEmptyAmount;;
  hostAcctStr ← db_View (fun root => db.PrimaryAcct (db.Agent_ root));
  '(guestAcctStr, starlightURL) ←
    match FindAccount guestFedAddr with
    | inl err => fail (Wrap err ("finding account " +:+ guestFedAddr))
    | inr found => mret found
    end;
  failIf (String.eqb guestAcctStr hostAcctStr) errAcctsSame;;
  '(_, err) ← checkChannelUnique hostAcctStr guestAcctStr;
  check err;;
  db_Update (
    a ← agent;
    failIf (negb (db.Ready a)) errAgentClosing;;
    failIf (negb (isReadyFunded a)) errNotFunded;;
    let w := db.Wallet a in
    let w := withSeqnum (wrap_i64 (fsm.Seqnum w + 3)) w in
    match SetAddress guestAcctStr with
    | Some err => fail (Wrap (Sub errInvalidAddress (Some err)) "guest address")
    | None => mret tt
    end;;
    let guestAcct := guestAcctStr in
    channelKeyIndex ← nextChannelKeyIndex 3;
    sd ← gets (fun s => seed (mem s));
    let channelID := DeriveAccount sd channelKeyIndex in
    match SetAddress channelID with
    | Some err => fail (Wrap err "setting escrow address")
    | None => mret tt
    end;;
    let escrowAcct := channelID in
    let hostRatchetAcct := DeriveAccount sd (wrap_u32 (channelKeyIndex + 1)) in
    match SetAddress hostRatchetAcct with
    | Some err => fail (Wrap err "setting host ratchet address")
    | None => mret tt
    end;;
    let guestRatchetAcct := DeriveAccount sd (wrap_u32 (channelKeyIndex + 2)) in
    match SetAddress guestRatchetAcct with
    | Some err => fail (Wrap err "setting guest ratchet address")
    | None => mret tt
    end;;
    let fundingTime := Now in
    ch ← getChannel channelID;
    failIf (bool_decide (fsm.State_ ch <> fsm.Start)) (Wrap errExists channelID);;
    a ← agent;
    let ch :=
      {| fsm.ID := channelID; fsm.Role_ := fsm.Host; fsm.State_ := fsm.Start;
         fsm.HostAmount := hostAmount; fsm.GuestAmount := 0;
         fsm.CounterpartyAddress := guestFedAddr;
         fsm.RemoteURL := starlightURL; fsm.Passphrase := TestNetworkPassphrase;
         fsm.MaxRoundDuration := wrap_i64 (db.MaxRoundDurMins (db.Config_ a) * Minute);
         fsm.FinalityDelay := wrap_i64 (db.FinalityDelayMins (db.Config_ a) * Minute);
         fsm.ChannelFeerate := db.ChannelFeerate (db.Config_ a);
         fsm.HostFeerate := db.HostFeerate (db.Config_ a);
         fsm.FundingTime := fundingTime; fsm.PaymentTime := fundingTime;
         fsm.KeyIndex := channelKeyIndex; fsm.RoundNumber := 1; fsm.LastMsgIndex := 0;
         fsm.HostAcct := hostAcctStr; fsm.GuestAcct := guestAcct;
         fsm.EscrowAcct := escrowAcct;
         fsm.HostRatchetAcct := hostRatchetAcct;
         fsm.GuestRatchetAcct := guestRatchetAcct;
         fsm.GuestRatchetAcctSeqNum := 0; fsm.HostRatchetAcctSeqNum := 0;
         fsm.BaseSequenceNumber := 0 |} in
    match SetAddress hostAcctStr with
    | Some err => fail (Wrap err "setting host address")
    | None => mret tt
    end;;
    let newBalance := wrap_i64 (fsm.NativeBalance w - SetupAndFundingReserveAmount ch) in
    failIf (newBalance <? 0) (Wrap errInsufficientBalance "wallet balance");;
    let w := withNativeBalance newBalance w in
    putChannel channelID ch;;
    modifyAgent (db.PutWallet w);;
    doUpdateChannel (fsm.ID ch) (fun updater ev =>
      let c := {| fsm.Name := fsm.CreateChannel; fsm.CmdAmount := fsm.HostAmount ch;
                  fsm.Recipient := guestFedAddr; fsm.Time := 0;
                  fsm.AssetCode := ""; fsm.Issuer := "" |} in
      let ev := withInputCommand c ev in
      updater ← UpdaterStep (InCmd c) updater;
      mret (updater, ev));;
    mret ch).

End Channels.


(** ** The peer endpoint [/starlight/message] *)

(** [&fsm.Command{Name: "CleanUp"}] *)
Definition cleanUp : fsm.Command :=
  {| fsm.Name := "CleanUp"; fsm.CmdAmount := 0; fsm.Recipient := "";
     fsm.Time := 0; fsm.AssetCode := ""; fsm.Issuer := "" |}.

Section Peer.

Context `{Externals}.

(** [resolveChannelCreateConflict(chanID, propose)] *)
Definition resolveChannelCreateConflict (chanID : string)
    (propose : msg.ChannelProposeMsg) : M World unit :=
  db_Update (
    a ← agent;
    failIf (negb (db.Ready a)) errAgentClosing;;
    let proposedHostAddr := msg.HostAcct propose in
    let proposedGuestAddr := msg.GuestAcct propose in
    let parties := "host " +:+ proposedHostAddr +:+ ", guest " +:+ proposedGuestAddr in
    let c := db.ChannelsGet a chanID in
    match fsm.State_ c with
    | fsm.SettingUp =>
        fail (Wrap errChannelExistsRetriable ("setting up: " +:+ parties))
    | fsm.ChannelProposed =>
        if (msg.HostAmount propose <? fsm.HostAmount c)
           || ((msg.HostAmount propose =? fsm.HostAmount c)
               && String.ltb proposedHostAddr (fsm.HostAcct c))
        then
          fail (Wrap errExists ("channel proposed: " +:+ parties))
        else
          modifyMem (allez (goDoCommand chanID cleanUp));;
          fail (Wrap errChannelExistsRetriable ("channel proposed: " +:+ parties))
    | fsm.AwaitingCleanup =>
        fail (Wrap errChannelExistsRetriable ("awaiting cleanup: " +:+ parties))
    | _ =>
        fail (Wrap errExists parties)
    end).

(** [channelRole(chanID)] *)
Definition channelRole (chanID : string) : M World fsm.Role :=
  db_View (fun root => fsm.Role_ (db.ChannelsGet (db.Agent_ root) chanID)).

(** [getSequenceNumbers(chanID, guestRatchetAcct, hostRatchetAcct)]:
    base, guest and host sequence numbers. *)
Definition getSequenceNumbers (chanID guestRatchetAcct hostRatchetAcct : string)
    : error + (Z * Z * Z) :=
  match SetAddress chanID with
  | Some err => inl err
  | None =>
      match SequenceForAccount chanID with
      | inl err => inl err
      | inr base =>
          match SequenceForAccount guestRatchetAcct with
          | inl err => inl err
          | inr guest =>
              match SequenceForAccount hostRatchetAcct with
              | inl err => inl err
              | inr host => inr (base, guest, host)
              end
          end
      end
  end.

(** What [handleMsg] has looked up when it reaches the check of the
    role: the three sequence numbers, the escrow account and the
    account of the proposing host. *)
Record Lookups : Set :=
  { baseSeqNum : Z; guestSeqNum : Z; hostSeqNum : Z;
    escrowAcct : string; hostAccount : string }.

Definition noLookups : Lookups :=
  {| baseSeqNum := 0; guestSeqNum := 0; hostSeqNum := 0;
     escrowAcct := ""; hostAccount := "" |}.

(** The part of [handleMsg] under [if m.ChannelProposeMsg != nil];
    [None] is its [return] after the conflict was resolved. *)
Definition handlePropose (m : msg.Message) (propose : msg.ChannelProposeMsg)
    : M World (option Lookups) :=
  '(chanID, err) ← checkChannelUnique (msg.HostAcct propose) (msg.GuestAcct propose);
  match err with
  | Some _ =>
      resolveChannelCreateConflict chanID propose;;
      mret None
  | None =>
      match SetAddress (msg.ChannelID m) with
      | Some err => fail (Sub errInvalidChannelID (Some err))
      | None => mret tt
      end;;
      '(base, guest, host) ←
        match getSequenceNumbers (msg.ChannelID m) (msg.GuestRatchetAcct propose)
                (msg.HostRatchetAcct propose) with
        | inl err => fail (Sub errFetchingAccounts (Some err))
        | inr nums => mret nums
        end;
      let hostAccount :=
        match FindAccount (msg.HostAcct propose) with
        | inl _ => ""
        | inr (acct, _) => acct
        end in
      mret (Some {| baseSeqNum := base; guestSeqNum := guest; hostSeqNum := host;
                    escrowAcct := msg.ChannelID m; hostAccount := hostAccount |})
  end.

(** The closure [handleMsg] hands to [updateChannel]. *)
Definition applyMsg (m : msg.Message) (l : Lookups) (updater : Updater) (ev : Update)
    : M TxSt (Updater * Update) :=
  a ← agent;
  updater ←
    match msg.ChannelProposeMsg_ m with
    | Some propose =>
        let maxRoundDur := wrap_i64 (Minute * db.MaxRoundDurMins (db.Config_ a)) in
        let finalityDelay := wrap_i64 (Minute * db.FinalityDelayMins (db.Config_ a)) in
        failIf (negb (msg.MaxRoundDuration propose =? maxRoundDur))
          (Wrap errBadRequest "channel proposed with other max round dur");;
        failIf (negb (msg.FinalityDelay propose =? finalityDelay))
          (Wrap errBadRequest "channel proposed with other finality delay");;
        let counterparty :=
          if negb (String.eqb (hostAccount l) "") then hostAccount l
          else msg.HostAcct propose in
        mret {| C := proposedTo counterparty (escrowAcct l) (msg.HostAcct propose)
                       (db.PrimaryAcct a) (guestSeqNum l) (hostSeqNum l) (baseSeqNum l)
                       (C updater);
                Out := Out updater |}
    | None => mret updater
    end;
  let ev := withInputMessage m ev in
  updater ← UpdaterStep (InMsg m) updater;
  mret (updater, ev).

(** [handleMsg(w, req)].  [body] is what decoding the request body
    gives; an error result is the error written to the response. *)
Definition handleMsg (body : error + msg.Message) : M World unit :=
  match body with
  | inl err => fail (Sub ErrUnmarshaling (Some err))
  | inr m =>
      failIf (len (msg.ChannelID m) =? 0) (Sub errNoChannelSpecified None);;
      lookups ←
        match msg.ChannelProposeMsg_ m with
        | Some propose => handlePropose m propose
        | None => mret (Some noLookups)
        end;
      match lookups with
      | None => mret tt
      | Some l =>
          role ← channelRole (msg.ChannelID m);
          failIf (bool_decide (role = fsm.Host)) errRemoteGuestMessage;;
          updateChannel (msg.ChannelID m) (applyMsg m l)
      end
  end.

End Peer.


(** ** A small environment to run the agent in *)

(** Two users are known to the federation servers; passwords are
    digested and boxes are sealed by the identity, accounts are derived
    from the index alone, and the state machine leaves the channel as
    it is. *)
Definition testnet : Externals :=
  {| Now := 0;
     ValidateTestnetURL := fun _ => None;
     LoadAccount := fun _ => inr false;
     SequenceForAccount := fun _ => inr 0;
     FindAccount := fun fed =>
       if String.eqb fed "alice*a.example" then inr ("GALICE", "https://a.example")
       else if String.eqb fed "bob*b.example" then inr ("GBOB", "https://b.example")
       else inl (New "not found");
     GenerateFromPassword := fun pw => inr pw;
     CompareHashAndPassword := fun digest pw =>
       if String.eqb digest pw then None else Some (New "mismatch");
     sealBox := fun _ pw => pw;
     DeriveAccountPrimary := fun _ => "GALICE";
     DeriveAccount := fun _ i => if i =? 1 then "GESCROW" else "GRATCHET";
     SetAddress := fun _ => None;
     SetCredit := fun code issuer => inr (xdr.AssetAlphaNum4 code issuer);
     AssetString := fun a =>
       match a with
       | xdr.AssetNative => "native"
       | xdr.AssetAlphaNum4 code issuer => "credit_alphanum4/" +:+ code +:+ "/" +:+ issuer
       | xdr.AssetAlphaNum12 code issuer => "credit_alphanum12/" +:+ code +:+ "/" +:+ issuer
       end;
     homeDomainTx := fun _ _ _ _ domain => inr domain;
     Sign := fun _ tx => inr tx;
     Stroop := 1;
     Millilumen := 10000;
     startChannelErr := fun _ _ => None;
     taskbasketNewTx := fun _ => None;
     Step := fun _ _ c _ => inr (c, noOutput);
     SetupAndFundingReserveAmount := fun _ => 0 |}.

(** An agent that has just been started on an empty database. *)
Definition newAgent : Agent :=
  {| seed := None; wclient := ""; wallet := false; acctsReady := ∅; tb := false;
     goroutines := []; timers := []; evcond := 0; steps := [] |}.

Definition emptyWorld : World :=
  {| g := newAgent; store := {| db.Agent_ := db.emptyAgent; db.Tasks := [] |} |}.

(** ** Vocabulary of the properties *)

(** What [ConfigInit] refuses, in the order in which it checks. *)
Definition invalidPassword (c : Config) : Prop :=
  72 < len (Password c) \/ Password c = "".

Definition invalidUsername (c : Config) : Prop :=
  validateUsername (Username c) = false.

Definition invalidNumbers (c : Config) : Prop :=
  MaxRoundDurMins c < 0 \/ FinalityDelayMins c < 0
  \/ ChannelFeerate c < 0 \/ HostFeerate c < 0.

(** The configuration a user sends to [ConfigInit] in scenario S1 and
    the world it leaves behind on the test network. *)
Definition aliceConfig : Config :=
  {| Username := "alice"; Password := "hunter2";
     HorizonURL := "https://horizon-testnet.stellar.org"; OldPassword := "";
     MaxRoundDurMins := 0; FinalityDelayMins := 0;
     ChannelFeerate := 0; HostFeerate := 0; KeepAlive := None; Public := false |}.

Definition aliceWorld : World :=
  Eval vm_compute in
    (@ConfigInit testnet aliceConfig "a.example" "entropy" emptyWorld).2.

(** An edit that sets nothing but the flag [Public]. *)
Definition publicOnly : Config :=
  {| Username := ""; Password := ""; HorizonURL := ""; OldPassword := "";
     MaxRoundDurMins := 0; FinalityDelayMins := 0;
     ChannelFeerate := 0; HostFeerate := 0; KeepAlive := None; Public := true |}.

(** The fields [ConfigEdit] can change are all empty. *)
Definition emptyEdit (c : Config) : Prop :=
  Password c = "" /\ HorizonURL c = ""
  /\ MaxRoundDurMins c = 0 /\ FinalityDelayMins c = 0
  /\ ChannelFeerate c = 0 /\ HostFeerate c = 0.

(** The [Update] that [ConfigEdit c] publishes. *)
Definition editUpdate (c : Config) : Update :=
  withConfig {| update.Username := Username c;
                update.Password := "[redacted]";
                update.HorizonURL := HorizonURL c;
                update.MaxRoundDurMins := MaxRoundDurMins c;
                update.FinalityDelayMins := FinalityDelayMins c;
                update.ChannelFeerate := ChannelFeerate c;
                update.HostFeerate := HostFeerate c;
                update.KeepAlive := false |}
    (newUpdate update.ConfigType).

Definition withPassword (p : string) (c : Config) : Config :=
  {| Username := Username c; Password := p; HorizonURL := HorizonURL c;
     OldPassword := OldPassword c;
     MaxRoundDurMins := MaxRoundDurMins c; FinalityDelayMins := FinalityDelayMins c;
     ChannelFeerate := ChannelFeerate c; HostFeerate := HostFeerate c;
     KeepAlive := KeepAlive c; Public := Public c |}.

(** The primary account and the channels of the agent. *)
Definition primaryAcct (w : World) : string := db.PrimaryAcct (db.Agent_ (store w)).

Definition channels (w : World) : db.Bucket fsm.Channel :=
  db.Channels (db.Agent_ (store w)).

(** Channel [c] is between the accounts [a] and [b], in either order. *)
Definition between (a b : string) (c : fsm.Channel) : Prop :=
  (a = fsm.HostAcct c /\ b = fsm.GuestAcct c)
  \/ (a = fsm.GuestAcct c /\ b = fsm.HostAcct c).

(** The incoming proposal [p] comes before [q] in the order of host
    amount, then host address. *)
Definition precedes (p q : msg.ChannelProposeMsg) : bool :=
  (msg.HostAmount p <? msg.HostAmount q)
  || ((msg.HostAmount p =? msg.HostAmount q)
      && String.ltb (msg.HostAcct p) (msg.HostAcct q)).

(** The tie-break in the words of section 4.4 of the spec: the larger
    host amount wins and, on a tie, the lexicographically smaller host
    address; [specLoses p q] tells whether proposal [p] loses to [q]. *)
Definition specLoses (p q : msg.ChannelProposeMsg) : bool :=
  (msg.HostAmount p <? msg.HostAmount q)
  || ((msg.HostAmount p =? msg.HostAmount q)
      && String.ltb (msg.HostAcct q) (msg.HostAcct p)).

(** The agent of world [w] is ready and holds, under [id], the channel
    it proposed with [p], still in state [ChannelProposed]. *)
Definition proposed (w : World) (id : string) (p : msg.ChannelProposeMsg) : Prop :=
  db.Ready (db.Agent_ (store w)) = true
  /\ fsm.State_ (db.ChannelsGet (db.Agent_ (store w)) id) = fsm.ChannelProposed
  /\ fsm.HostAmount (db.ChannelsGet (db.Agent_ (store w)) id) = msg.HostAmount p
  /\ fsm.HostAcct (db.ChannelsGet (db.Agent_ (store w)) id) = msg.HostAcct p.

(** The cursor of the wallet and the log of updates in a database. *)
Definition cursor (r : db.Root) : string := fsm.Cursor (db.Wallet (db.Agent_ r)).

Definition updates (r : db.Root) : list Update := db.Updates (db.Agent_ r).






(** What holds of the result and the state when [m] returns normally
    from state [s]. *)
Definition after {S A} (m : M S A) (s : S) (P : A -> S -> Prop) : Prop :=
  match m s with
  | (Ok a, s') => P a s'
  | _ => True
  end.





(** The messages of a list are numbered [n], [n+1], ... in order. *)
Fixpoint numbersFrom (n : Z) (l : list msg.Message) : bool :=
  match l with
  | [] => true
  | m :: l' => (msg.MsgNum m =? n) && numbersFrom (n + 1) l'
  end.

(** The store of one channel as [message.Add] builds it from
    [message.new]: the messages are numbered from 1 without gaps, the
    last number is their count, and the count fits 64 bits. *)
Definition numbered (s : message.Message) : bool :=
  numbersFrom 1 (message.Msgs s)
  && (message.LastSeqNum s =? Z.of_nat (length (message.Msgs s)))
  && (Z.of_nat (length (message.Msgs s)) <? 2 ^ 64).

Definition wellNumbered (r : db.Root) : bool :=
  forallb (fun kv => numbered kv.2) (db.Messages (db.Agent_ r)).

(** A message of no particular kind. *)
Definition aMessage (chanID kind : string) : msg.Message :=
  {| msg.ChannelID := chanID; msg.MsgNum := 0;
     msg.ChannelProposeMsg_ := None; msg.Kind := kind |}.

(** ** Example transactions and worlds *)

Definition onlyOp (source : string) (body : xdr.OperationBody) : xdr.Operation :=
  {| xdr.SourceAccount := Some source; xdr.Body := body |}.

(** A successful transaction of one operation. *)
Definition ledgerTx (pt : string) (ledger : Z) (source : string)
    (body : xdr.OperationBody) (result : option Z) : worizon.Transaction :=
  {| worizon.PT := pt; worizon.Ledger := ledger;
     worizon.Decoded :=
       inr {| worizon.Env := {| xdr.TxSourceAccount := source;
                                xdr.Operations := [onlyOp source body] |};
              worizon.Result := {| xdr.TxSuccess := true; xdr.Results := [result] |} |} |}.

(** The faucet creates the account of alice. *)
Definition fundingTx : worizon.Transaction :=
  ledgerTx "41" 7 "GFAUCET"
    (xdr.CreateAccount {| xdr.Destination := "GALICE";
                          xdr.StartingBalance := 100000000000 |}) None.

(** An issuer authorizes alice to hold its asset. *)
Definition allowTrustTx : worizon.Transaction :=
  ledgerTx "42" 8 "GISSUER"
    (xdr.AllowTrust {| xdr.Trustor := "GALICE"; xdr.TrustAsset := xdr.AllowCode4 "USD";
                       xdr.Authorize := true |}) None.

(** Alice merges her account into the account of bob. *)
Definition mergeTx : worizon.Transaction :=
  ledgerTx "43" 9 "GALICE" (xdr.AccountMerge "GBOB") (Some 99999000000).


Definition aliceFunded : World :=
  Eval vm_compute in (@walletTx testnet "GALICE" fundingTx aliceWorld).2.

(** A channel of alice as host with bob, in a given state. *)
Definition aliceChannel (st : fsm.State) (hostAmount : Z) : fsm.Channel :=
  {| fsm.ID := "GESCROW"; fsm.Role_ := fsm.Host; fsm.State_ := st;
     fsm.HostAmount := hostAmount; fsm.GuestAmount := 0;
     fsm.CounterpartyAddress := "bob*b.example";
     fsm.RemoteURL := "https://b.example"; fsm.Passphrase := TestNetworkPassphrase;
     fsm.MaxRoundDuration := 60 * Minute; fsm.FinalityDelay := 60 * Minute;
     fsm.ChannelFeerate := 100000; fsm.HostFeerate := 100;
     fsm.FundingTime := 0; fsm.PaymentTime := 0;
     fsm.KeyIndex := 1; fsm.RoundNumber := 1; fsm.LastMsgIndex := 0;
     fsm.HostAcct := "GALICE"; fsm.GuestAcct := "GBOB"; fsm.EscrowAcct := "GESCROW";
     fsm.HostRatchetAcct := "GRATCHET"; fsm.GuestRatchetAcct := "GRATCHET";
     fsm.GuestRatchetAcctSeqNum := 0; fsm.HostRatchetAcctSeqNum := 0;
     fsm.BaseSequenceNumber := 0 |}.

(** The same seen from bob, host of a channel of his own with alice. *)
Definition bobChannel (st : fsm.State) (hostAmount : Z) : fsm.Channel :=
  {| fsm.ID := "GBOBESCROW"; fsm.Role_ := fsm.Host; fsm.State_ := st;
     fsm.HostAmount := hostAmount; fsm.GuestAmount := 0;
     fsm.CounterpartyAddress := "alice*a.example";
     fsm.RemoteURL := "https://a.example"; fsm.Passphrase := TestNetworkPassphrase;
     fsm.MaxRoundDuration := 60 * Minute; fsm.FinalityDelay := 60 * Minute;
     fsm.ChannelFeerate := 100000; fsm.HostFeerate := 100;
     fsm.FundingTime := 0; fsm.PaymentTime := 0;
     fsm.KeyIndex := 1; fsm.RoundNumber := 1; fsm.LastMsgIndex := 0;
     fsm.HostAcct := "GBOB"; fsm.GuestAcct := "GALICE"; fsm.EscrowAcct := "GBOBESCROW";
     fsm.HostRatchetAcct := "GBOBRATCHET"; fsm.GuestRatchetAcct := "GBOBRATCHET";
     fsm.GuestRatchetAcctSeqNum := 0; fsm.HostRatchetAcctSeqNum := 0;
     fsm.BaseSequenceNumber := 0 |}.

(** World [w] with channel [c] stored under its ID, and with the
    flag [ready] set to [b]. *)
Definition withChannelStored (c : fsm.Channel) (w : World) : World :=
  {| g := g w;
     store := {| db.Agent_ := db.setChannels (fun b => db.Put b (fsm.ID c) c)
                                (db.Agent_ (store w));
                 db.Tasks := db.Tasks (store w) |} |}.

Definition withReady (b : bool) (w : World) : World :=
  {| g := g w;
     store := {| db.Agent_ := db.PutReady b (db.Agent_ (store w));
                 db.Tasks := db.Tasks (store w) |} |}.

(** The proposal that opens channel [c]. *)
Definition proposalOf (c : fsm.Channel) : msg.ChannelProposeMsg :=
  {| msg.HostAcct := fsm.HostAcct c; msg.GuestAcct := fsm.GuestAcct c;
     msg.HostRatchetAcct := fsm.HostRatchetAcct c;
     msg.GuestRatchetAcct := fsm.GuestRatchetAcct c;
     msg.HostAmount := fsm.HostAmount c;
     msg.MaxRoundDuration := fsm.MaxRoundDuration c;
     msg.FinalityDelay := fsm.FinalityDelay c |}.

Definition proposeMessage (chanID : string) (c : fsm.Channel) : msg.Message :=
  {| msg.ChannelID := chanID; msg.MsgNum := 1;
     msg.ChannelProposeMsg_ := Some (proposalOf c); msg.Kind := "ChannelPropose" |}.

(** Bob's agent on the test network of his own. *)
Definition bobWorld : World :=
  Eval vm_compute in
    {| g := g aliceFunded;
       store := {| db.Agent_ := db.PutPrimaryAcct "GBOB" (db.Agent_ (store aliceFunded));
                   db.Tasks := [] |} |}.


(** The handler has written wallet and update: both facts hold. *)



(** Example worlds: alice and bob have each proposed a channel to the
    other with the same amount; alice has a closed channel with bob. *)
Definition aliceProposing : World :=
  Eval vm_compute in withChannelStored (aliceChannel fsm.ChannelProposed 50) aliceFunded.

Definition bobProposing : World :=
  Eval vm_compute in withChannelStored (bobChannel fsm.ChannelProposed 50) bobWorld.

Definition aliceProposal : msg.ChannelProposeMsg :=
  proposalOf (aliceChannel fsm.ChannelProposed 50).

Definition bobProposal : msg.ChannelProposeMsg :=
  proposalOf (bobChannel fsm.ChannelProposed 50).

Definition aliceClosed : World :=
  Eval vm_compute in withChannelStored (aliceChannel fsm.Closed 100) aliceFunded.

(** A message number lies in the half-open interval [[a, b)]. *)
Definition inRange (a b : Z) (m : msg.Message) : bool :=
  (a <=? msg.MsgNum m) && (msg.MsgNum m <? b).

(** Alice, guest of bob's channel, has queued three messages for him. *)
Definition aliceQueued : World :=
  Eval vm_compute in
    (db_Update
       (putMessage (bobChannel fsm.PaymentChannel 50) (aMessage "GBOBESCROW" "ChannelAccept");;
        putMessage (bobChannel fsm.PaymentChannel 50) (aMessage "GBOBESCROW" "PaymentPropose");;
        putMessage (bobChannel fsm.PaymentChannel 50) (aMessage "GBOBESCROW" "PaymentAccept"))
       aliceFunded).2.

(** * The rest of the agent: commands on the wallet, authentication,
      start-up and the federation endpoint *)

(** Modelled from the spec: [errEmptyAsset] and [errEmptyIssuer] are
    declared in a file of the package that is not among the sources at
    hand; like the other error values of the package they are made by
    [errors.New], and their text is taken to be their name. *)
Definition errEmptyAsset : error := New "errEmptyAsset".
Definition errEmptyIssuer : error := New "errEmptyIssuer".

(** The command names [fsm.AddAsset], [fsm.RemoveAsset] and [fsm.Pay]. *)
Definition cmdAddAsset : string := "AddAsset".
Definition cmdRemoveAsset : string := "RemoveAsset".
Definition cmdPay : string := "Pay".

(** [strconv.FormatInt(n, 10)] *)
Definition FormatInt (n : Z) : string :=
  DecimalString.NilZero.string_of_int (Z.to_int n).

(** What the wallet commands call and is not defined in [agent.go]. *)
Class Builders : Type :=
  { (** [openBox(encseed, password)]: the seed, nil when the box does
        not open *)
    openBox : string -> string -> option string;
    (** [b.Transaction] of a [b.Trust(code, issuer)] and of a
        [b.RemoveTrust(code, issuer)]: passphrase, source account,
        sequence number, code, issuer *)
    trustTx : string -> string -> Z -> string -> string -> error + string;
    removeTrustTx : string -> string -> Z -> string -> string -> error + string;
    (** the conversion [string(amount)] of an unsigned integer and
        [Amount.HorizonString()] *)
    runeString : Z -> string;
    HorizonString : Z -> string;
    (** [b.Transaction] of a [b.Payment]: passphrase, source account,
        sequence number, destination, code and issuer of a credit
        amount (none for a native amount), the amount as a string *)
    paymentTx : string -> string -> Z -> string -> option (string * string) -> string
                -> error + string;
    (** [*env.E] of the merge transaction that [DoCloseAccount] builds
        and signs, dropping the errors of both steps: seed, account,
        destination; [None] when [env.E] is nil *)
    mergeEnvelope : option string -> string -> string -> option string;
    (** [State.String()] of package [fsm] *)
    stateString : fsm.State -> string }.

Definition withPendingSequence (s : string) (u : Update) : Update :=
  {| Type_ := Type_ u; UpdateNum := UpdateNum u; UpdateLedgerTime := UpdateLedgerTime u;
     Config_ := Config_ u; Account := Account u; InputTx := InputTx u; OpIndex := OpIndex u;
     InputCommand := InputCommand u; InputMessage := InputMessage u;
     InputLedgerTime := InputLedgerTime u; Warning := Warning u;
     PendingSequence := s; Channel := Channel u |}.

Definition withWarning (s : string) (u : Update) : Update :=
  {| Type_ := Type_ u; UpdateNum := UpdateNum u; UpdateLedgerTime := UpdateLedgerTime u;
     Config_ := Config_ u; Account := Account u; InputTx := InputTx u; OpIndex := OpIndex u;
     InputCommand := InputCommand u; InputMessage := InputMessage u;
     InputLedgerTime := InputLedgerTime u; Warning := s;
     PendingSequence := PendingSequence u; Channel := Channel u |}.

Definition withAmount (n : Z) (b : fsm.Balance) : fsm.Balance :=
  {| fsm.Asset := fsm.Asset b; fsm.Amount := n;
     fsm.Pending := fsm.Pending b; fsm.Authorized := fsm.Authorized b |}.

Definition withAuthorized (a : bool) (b : fsm.Balance) : fsm.Balance :=
  {| fsm.Asset := fsm.Asset b; fsm.Amount := fsm.Amount b;
     fsm.Pending := fsm.Pending b; fsm.Authorized := a |}.

(** [w.Balances[k]] read with [ok]; a nil map reads as empty. *)
Definition balancesGet (k : string) (w : fsm.WalletAcct) : option fsm.Balance :=
  match fsm.Balances w with
  | None => None
  | Some m => m !! k
  end.

Section Commands.

Context `{Externals} `{Builders}.

(** [AddAsset(assetCode, issuer)] *)
Definition AddAsset (assetCode issuer : string) : M World unit :=
  failIf (String.eqb assetCode "") errEmptyAsset;;
  failIf (String.eqb issuer "") errEmptyIssuer;;
  db_Update (
    a ← agent;
    failIf (negb (db.Ready a)) errAgentClosing;;
    let w := db.Wallet a in
    let hostFeerate := db.HostFeerate (db.Config_ a) in
    failIf (fsm.NativeBalance w <? wrap_i64 (hostFeerate + baseReserve))
      (Wrap errInsufficientBalance "fees and reserve to add non-native asset");;
    match SetAddress issuer with
    | Some err => fail (Sub errInvalidAddress (Some err))
    | None => mret tt
    end;;
    asset ← match SetCredit assetCode issuer with
            | inl err => fail (Sub errInvalidAsset (Some err))
            | inr asset => mret asset
            end;
    w ← balancesPut (AssetString asset)
          {| fsm.Asset := asset; fsm.Amount := 0;
             fsm.Pending := true; fsm.Authorized := false |} w;
    let w := withNativeBalance
               (wrap_i64 (fsm.NativeBalance w - wrap_i64 (baseReserve + hostFeerate))) w in
    let w := withReserve (wrap_i64 (fsm.Reserve w + baseReserve)) w in
    let w := withSeqnum (wrap_i64 (fsm.Seqnum w + 1)) w in
    modifyAgent (db.PutWallet w);;
    btx ← try (trustTx TestNetworkPassphrase (fsm.Address w) (wrap_u64 (fsm.Seqnum w))
                 assetCode issuer);
    sd ← gets (fun s => seed (mem s));
    env ← try (Sign sd btx);
    let time := Now in
    putUpdate
      (withPendingSequence (FormatInt (fsm.Seqnum w))
         (withInputCommand
            {| fsm.Name := cmdAddAsset; fsm.CmdAmount := 0; fsm.Recipient := "";
               fsm.Time := time; fsm.AssetCode := assetCode; fsm.Issuer := issuer |}
            (withAccount {| update.ID := fsm.Address w; update.Balance := 0;
                            update.Balances := fsm.Balances w; update.Reserve := 0 |}
               (newUpdate update.AccountType))));;
    addTxTask walletBucket env).

(** [RemoveAsset(assetCode, issuer)] *)
Definition RemoveAsset (assetCode issuer : string) : M World unit :=
  failIf (String.eqb assetCode "") errEmptyAsset;;
  failIf (String.eqb issuer "") errEmptyIssuer;;
  db_Update (
    a ← agent;
    failIf (negb (db.Ready a)) errAgentClosing;;
    let w := db.Wallet a in
    let hostFeerate := db.HostFeerate (db.Config_ a) in
    failIf (fsm.NativeBalance w <? hostFeerate)
      (Wrap errInsufficientBalance "fees to remove non-native asset");;
    match SetAddress issuer with
    | Some err => fail (Sub errInvalidAddress (Some err))
    | None => mret tt
    end;;
    asset ← match SetCredit assetCode issuer with
            | inl err => fail (Sub errInvalidAsset (Some err))
            | inr asset => mret asset
            end;
    currBalance ← match balancesGet (AssetString asset) w with
                  | None => fail (Sentinel errInvalidAsset)
                  | Some currBalance => mret currBalance
                  end;
    failIf (negb (fsm.Amount currBalance =? 0))
      (New "cannot remove trustline with nonzero balance");;
    let currBalance := withAuthorized false currBalance in
    w ← balancesPut (AssetString asset) currBalance w;
    let w := withNativeBalance (wrap_i64 (fsm.NativeBalance w - hostFeerate)) w in
    let w := withSeqnum (wrap_i64 (fsm.Seqnum w + 1)) w in
    modifyAgent (db.PutWallet w);;
    btx ← try (removeTrustTx TestNetworkPassphrase (fsm.Address w) (wrap_u64 (fsm.Seqnum w))
                 assetCode issuer);
    sd ← gets (fun s => seed (mem s));
    env ← try (Sign sd btx);
    let time := Now in
    putUpdate
      (withPendingSequence (FormatInt (fsm.Seqnum w))
         (withInputCommand
            {| fsm.Name := cmdRemoveAsset; fsm.CmdAmount := 0; fsm.Recipient := "";
               fsm.Time := time; fsm.AssetCode := assetCode; fsm.Issuer := issuer |}
            (withAccount {| update.ID := fsm.Address w; update.Balance := 0;
                            update.Balances := fsm.Balances w; update.Reserve := 0 |}
               (newUpdate update.AccountType))));;
    addTxTask walletBucket env).

(** The branch of [DoWalletPay] for a payment in a non-native asset:
    the wallet after the payment and the amount as the builder gets
    it. *)
Definition payAsset (amount : Z) (assetCode issuer hostAcct : string) (hostFeerate : Z)
    (w : fsm.WalletAcct) : M TxSt (fsm.WalletAcct * (option (string * string) * string)) :=
  failIf (fsm.NativeBalance w <=? hostFeerate)
    (Wrap errInsufficientBalance "XLM balance for host fee");;
  match SetAddress issuer with
  | Some err => fail (Wrap (Sub err (Some (Sentinel errInvalidAddress))) "invalid issuer account")
  | None => mret tt
  end;;
  asset ← match SetCredit assetCode issuer with
          | inl err => fail (Sub err (Some (Sentinel errInvalidAsset)))
          | inr asset => mret asset
          end;
  w ← (if negb (String.eqb issuer hostAcct) then
         let assetStr := AssetString asset in
         match balancesGet assetStr w with
         | Some currBalance =>
             failIf (fsm.Amount currBalance <=? amount)
               (Wrap errInsufficientBalance "asset amount for payment");;
             failIf (negb (fsm.Authorized currBalance))
               (New ("unauthorized trustline for " +:+ assetStr));;
             balancesPut assetStr
               (withAmount (wrap_u64 (fsm.Amount currBalance - amount)) currBalance) w
         | None =>
             fail (Wrap errInvalidAsset
                     ("no trustline exists for asset " +:+ assetCode
                      +:+ ", issuer " +:+ issuer))
         end
       else mret w);
  let w := withNativeBalance (wrap_i64 (fsm.NativeBalance w - hostFeerate)) w in
  mret (w, (Some (assetCode, issuer), runeString amount)).

(** The branch for a payment in lumens; [xlm.Amount(amount)] converts
    the unsigned amount to [int64]. *)
Definition payNative (amount : Z) (hostFeerate : Z)
    (w : fsm.WalletAcct) : M TxSt (fsm.WalletAcct * (option (string * string) * string)) :=
  failIf (fsm.NativeBalance w <=? wrap_i64 (wrap_i64 amount + hostFeerate))
    (Wrap errInsufficientBalance "XLM amount for payment and fees");;
  let w := withNativeBalance
             (wrap_i64 (fsm.NativeBalance w - wrap_i64 (wrap_i64 amount + hostFeerate))) w in
  mret (w, (None, HorizonString (wrap_i64 amount))).

(** [DoWalletPay(dest, amount, assetCode, issuer)] *)
Definition DoWalletPay (dest : string) (amount : Z) (assetCode issuer : string)
    : M World unit :=
  failIf (String.eqb dest "") errEmptyAddress;;
  failIf (amount =? 0) errEmptyAmount;;
  failIf (String.eqb assetCode "" && negb (String.eqb issuer "")) errEmptyAsset;;
  failIf (negb (String.eqb assetCode "") && String.eqb issuer "") errEmptyIssuer;;
  db_Update (
    a ← agent;
    failIf (negb (db.Ready a)) errAgentClosing;;
    let w := db.Wallet a in
    let hostAcct := db.PrimaryAcct a in
    let hostFeerate := db.HostFeerate (db.Config_ a) in
    '(w, paymentOp) ←
      (if negb (String.eqb assetCode "") && negb (String.eqb issuer "")
       then payAsset amount assetCode issuer hostAcct hostFeerate w
       else payNative amount hostFeerate w);
    let w := withSeqnum (wrap_i64 (fsm.Seqnum w + 1)) w in
    modifyAgent (db.PutWallet w);;
    btx ← try (paymentTx TestNetworkPassphrase hostAcct (wrap_u64 (fsm.Seqnum w)) dest
                 paymentOp.1 paymentOp.2);
    sd ← gets (fun s => seed (mem s));
    env ← try (Sign sd btx);
    let time := Now in
    putUpdate
      (withPendingSequence (FormatInt (fsm.Seqnum w))
         (withInputLedgerTime time
            (withInputCommand
               {| fsm.Name := cmdPay; fsm.CmdAmount := wrap_i64 amount;
                  fsm.Recipient := dest; fsm.Time := time;
                  fsm.AssetCode := assetCode; fsm.Issuer := issuer |}
               (withAccount (accountOf hostAcct w) (newUpdate update.AccountType)))));;
    addTxTask walletBucket env).

(** [DoCloseAccount(dest)] *)
Definition DoCloseAccount (dest : string) : M World unit :=
  db_Update (
    a ← agent;
    failIf (negb (db.Ready a)) errAgentClosing;;
    let chanIDs := map fst (db.Channels a) in
    forRange (fun _ chanID =>
                let ch := db.ChannelsGet a chanID in
                failIf (bool_decide (fsm.State_ ch <> fsm.Closed))
                  (New ("channel " +:+ chanID +:+ " in non-closed state "
                        +:+ stateString (fsm.State_ ch))))
      0 chanIDs;;
    modifyAgent (db.PutReady false);;
    a ← agent;
    let hostAcct := db.PrimaryAcct a in
    sd ← gets (fun s => seed (mem s));
    match mergeEnvelope sd hostAcct dest with
    | None => panic "invalid memory address or nil pointer dereference"
    | Some env => ignoreErr (addTxTask walletBucket env)
    end).

(** [Configured()] *)
Definition Configured : M World bool :=
  db_View (fun root => isReadyConfigured (db.Agent_ root)).

(** What the read transaction of [Authenticate] leaves in [ok] and
    [seed]. *)
Definition checkPassword (name password : string) (w : World) : bool * option string :=
  let a := db.Agent_ (store w) in
  if negb (isReadyConfigured a) then (false, None)
  else if negb (String.eqb name (db.Username (db.Config_ a))) then (false, None)
  else if negb (String.eqb (db.PwType (db.Config_ a)) "bcrypt") then (false, None)
  else
    (match CompareHashAndPassword (db.PwHash (db.Config_ a)) password with
     | None => true
     | Some _ => false
     end,
     seed (g w)).

(** [Authenticate(name, password)] *)
Definition Authenticate (name password : string) : M World bool :=
  if negb (validateUsername name) then mret false else
  '(ok, sd) ← gets (checkPassword name password);
  (if ok && bool_decide (sd = None) then
     db_Update (
       cur ← gets (fun s => seed (mem s));
       match cur with
       | Some _ => mret tt (* already decrypted *)
       | None =>
           a ← agent;
           modifyMem (setSeed (openBox (db.EncryptedSeed a) password))
       end)
   else mret tt);;
  mret ok.

(** The answer of the federation endpoint: [http.Error] with a text
    and a status, or the JSON object. *)
Inductive FedResponse : Set :=
| FedError (text : string) (status : Z)
| FedFound (stellar_address account_id : string).

(** [handleFed(w, req)]: [type_] and [q] are the query parameters of
    the request, [host] is [req.Host]. *)
Definition handleFed (type_ q host : string) : M World FedResponse :=
  if negb (String.eqb type_ "name") then mret (FedError "not implemented" 501) else
  '(name, acct) ← db_View (fun root =>
                    (db.Username (db.Config_ (db.Agent_ root)),
                     db.PrimaryAcct (db.Agent_ root)));
  if negb (String.eqb q (name +:+ "*" +:+ host)) then mret (FedError "not found" 404)
  else mret (FedFound (q +:+ "*" +:+ host) acct).

(** Go's [int], at its width on the 64-bit platforms: [counter++]
    wraps around like [int64]. *)
Definition wrap_int (z : Z) : Z := wrap_i64 z.

(** The loop of [getTestnetFaucetFunds].  [outcomes] are the errors
    of the successive requests to the faucet, as far as they have
    returned; the result tells whether the loop has ended. *)
Fixpoint faucetLoop (outcomes : list (option error)) (counter : Z) : M World bool :=
  (if counter =? 1 then
     ignoreErr (db_Update (putUpdate
       (withWarning "could not retrieve testnet faucet funds, will retry until successful"
          (newUpdate update.WarningType))))
   else mret tt);;
  match outcomes with
  | [] => mret false
  | Some _ :: rest => faucetLoop rest (wrap_int (counter + 1))
  | None :: _ => mret true
  end.

(** [close(g.wallet)] outside a transaction; closing a closed
    channel panics. *)
Definition closeWalletNow : M World unit := fun w =>
  if wallet (g w) then (Panic "close of closed channel", w)
  else (Ok tt, {| g := closeWallet (g w); store := store w |}).

(** [getTestnetFaucetFunds(acctID)]; the deferred [close(g.wallet)]
    runs when the loop has ended. *)
Definition getTestnetFaucetFunds' (acctID : string) (outcomes : list (option error))
    : M World bool :=
  done ← faucetLoop outcomes 0;
  (if done : bool then closeWalletNow else mret tt);;
  mret done.

(** [StartAgent(ctx, boltDB)] on a database that holds [r]. *)
Definition StartAgent (r : db.Root) : res World :=
  match db_Update start {| g := newAgent; store := r |} with
  | (Ok _, w) => Ok w
  | (Fail err, _) => Fail err
  | (Panic m, _) => Panic m
  end.

End Commands.

(** The wallet commands on the test network: boxes open with the
    password they were sealed with, which is their content, and the
    builders spell out what they are given. *)
Definition testBuilders : Builders :=
  {| openBox := fun box pw => if String.eqb box pw then Some "entropy" else None;
     trustTx := fun _ source _ code issuer => inr ("trust " +:+ code +:+ "/" +:+ issuer);
     removeTrustTx := fun _ source _ code issuer =>
       inr ("remove trust " +:+ code +:+ "/" +:+ issuer);
     runeString := fun _ => "?";
     HorizonString := FormatInt;
     paymentTx := fun _ source _ dest _ amount => inr ("pay " +:+ dest +:+ " " +:+ amount);
     mergeEnvelope := fun _ source dest => Some ("merge " +:+ source +:+ " into " +:+ dest);
     stateString := fun _ => "" |}.

(** ** Vocabulary of the further properties *)

(** A step of a transaction that leaves the agent in memory alone. *)
Definition inStore {A} (m : M TxSt A) : Prop :=
  forall s, mem (m s).2 = mem s.

(** A call that, when it returns an error, has changed nothing:
    neither the store nor the agent in memory. *)
Definition atomic {A} (m : M World A) : Prop :=
  forall w e w', m w = (Fail e, w') -> w' = w.

(** The wallet of the agent. *)
Definition walletOf (w : World) : fsm.WalletAcct := db.Wallet (db.Agent_ (store w)).

Definition hostFeerateOf (w : World) : Z := db.HostFeerate (db.Config_ (db.Agent_ (store w))).

(** A number fits Go's [int64]. *)
Definition int64 (z : Z) : Prop := - 2 ^ 63 <= z < 2 ^ 63.

(** Alice has asked for a trustline for the dollars of an issuer. *)
Definition dollars : xdr.Asset := xdr.AssetAlphaNum4 "USD" "GISSUER".

Definition aliceTrusting : World :=
  Eval vm_compute in (@AddAsset testnet testBuilders "USD" "GISSUER" aliceFunded).2.

(** A step of a transaction that writes nothing to the store,
    registers no hook and leaves the seed alone. *)
Definition quiet {A} (m : M TxSt A) : Prop :=
  forall s, let s' := (m s).2 in
            root s' = root s /\ seed (mem s') = seed (mem s) /\ hooks s' = hooks s.

(** The [Update] of type [Init] and the bucket [agent] as a successful
    [ConfigInit] leaves it: [digest] is the hash of the password,
    [rnd] the fresh seed. *)
Definition initUpdate `{Externals} (c : Config) (rnd : string) : Update :=
  withAccount {| update.ID := DeriveAccountPrimary (Some rnd); update.Balance := 0;
                 update.Balances := None; update.Reserve := 0 |}
    (withConfig {| update.Username := Username c;
                   update.Password := "[redacted]";
                   update.HorizonURL := HorizonURL c;
                   update.MaxRoundDurMins :=
                     orDefault (MaxRoundDurMins c) defaultMaxRoundDurMins;
                   update.FinalityDelayMins :=
                     orDefault (FinalityDelayMins c) defaultFinalityDelayMins;
                   update.ChannelFeerate :=
                     orDefault (ChannelFeerate c) defaultChannelFeerate;
                   update.HostFeerate := orDefault (HostFeerate c) defaultHostFeerate;
                   update.KeepAlive := default true (KeepAlive c) |}
       (newUpdate update.InitType)).

Definition initialized `{Externals} (c : Config) (hostURL rnd digest : string)
    (a : db.Agent) : db.Agent :=
  {| db.Config_ :=
       {| db.Username := Username c; db.PwType := "bcrypt"; db.PwHash := digest;
          db.HorizonURL := HorizonURL c;
          db.MaxRoundDurMins := orDefault (MaxRoundDurMins c) defaultMaxRoundDurMins;
          db.FinalityDelayMins := orDefault (FinalityDelayMins c) defaultFinalityDelayMins;
          db.ChannelFeerate := orDefault (ChannelFeerate c) defaultChannelFeerate;
          db.HostFeerate := orDefault (HostFeerate c) defaultHostFeerate;
          db.KeepAlive := default true (KeepAlive c);
          db.Public := Public c |};
     db.Ready := true;
     db.EncryptedSeed := sealBox (Some rnd) (Password c);
     db.NextKeypathIndex := 1;
     db.PrimaryAcct := DeriveAccountPrimary (Some rnd);
     db.Wallet_ := Some {| fsm.NativeBalance := 0; fsm.Reserve := 0; fsm.Seqnum := 0;
                           fsm.Cursor := ""; fsm.Address := Username c +:+ "*" +:+ hostURL;
                           fsm.Balances := Some ∅ |};
     db.Channels := db.Channels a;
     db.Messages := db.Messages a;
     db.Updates := (db.Updates a
                    ++ [stamped (Z.of_nat (length (db.Updates a)) + 1) Now
                          (initUpdate c rnd)])%list |}.

(** The edit that changes the password and nothing else. *)
Definition passwordEdit (old new : string) : Config :=
  {| Username := ""; Password := new; HorizonURL := ""; OldPassword := old;
     MaxRoundDurMins := 0; FinalityDelayMins := 0;
     ChannelFeerate := 0; HostFeerate := 0; KeepAlive := None; Public := false |}.

(** The stored configuration of the agent. *)
Definition configOf (w : World) : db.Config := db.Config_ (db.Agent_ (store w)).

(** Some request to the faucet has succeeded. *)
Definition succeeded (outcomes : list (option error)) : bool :=
  existsb (fun o => match o with None => true | Some _ => false end) outcomes.

(** The first request to the faucet has failed. *)
Definition firstFailed (outcomes : list (option error)) : bool :=
  match outcomes with
  | Some _ :: _ => true
  | _ => false
  end.

(** The warning of [getTestnetFaucetFunds]. *)
Definition faucetWarning : Update :=
  withWarning "could not retrieve testnet faucet funds, will retry until successful"
    (newUpdate update.WarningType).

(** World [w] after [putUpdate ev] in a transaction of its own. *)
Definition afterUpdate `{Externals} (ev : Update) (w : World) : World :=
  {| g := runHook evcondBroadcast (g w);
     store := {| db.Agent_ :=
                   db.setUpdates
                     (fun l => (l ++ [stamped (Z.of_nat (length l) + 1) Now ev])%list)
                     (db.Agent_ (store w));
                 db.Tasks := db.Tasks (store w) |} |}.

(** The transaction can be decoded. *)
Definition decodable (htx : worizon.Transaction) : Prop :=
  exists tx, worizon.NewTx htx = inr tx.

(** A transaction under way on world [w]. *)
Definition openTx (w : World) : TxSt := {| root := store w; mem := g w; hooks := [] |}.

(** The decoded transaction of one operation. *)
Definition txOf (source : string) (body : xdr.OperationBody) (result : option Z)
    : worizon.Tx :=
  {| worizon.Env := {| xdr.TxSourceAccount := source;
                       xdr.Operations := [onlyOp source body] |};
     worizon.Result := {| xdr.TxSuccess := true; xdr.Results := [result] |} |}.

(** Bob pays alice 500 stroops. *)
Definition incomingLumens : xdr.OperationBody :=
  xdr.Payment {| xdr.PayDestination := "GALICE"; xdr.PayAsset := xdr.AssetNative;
                 xdr.Amount := 500 |}.

Definition incomingTx : worizon.Transaction :=
  ledgerTx "44" 10 "GBOB" incomingLumens None.

(** The text holds a star. *)
Definition hasStar (s : string) : bool :=
  existsb (Ascii.eqb "*") (list_ascii_of_string s).

(** The ledger confirms the trustline for dollars that alice has asked
    for: the operation is hers, under her account ID. *)
Definition trustOp : xdr.OperationBody :=
  xdr.ChangeTrust {| xdr.Line := dollars; xdr.Limit := 1000 |}.

Definition trustChangeTx : worizon.Transaction :=
  ledgerTx "45" 11 "GALICE" trustOp None.

(** Alice, all of whose channels are closed, has asked to close her
    account and merge it into the account of bob. *)
Definition aliceClosing : World :=
  Eval vm_compute in (@DoCloseAccount testBuilders "GBOB" aliceClosed).2.

(** A transaction of the ledger that cannot be decoded. *)
Definition garbledTx : worizon.Transaction :=
  {| worizon.PT := "43"; worizon.Ledger := 9; worizon.Decoded := inl (New "bad xdr") |}.

(** Alice has paid bob 1000 stroops, and the ledger confirms it. *)
Definition alicePaid : World :=
  Eval vm_compute in (@DoWalletPay testnet testBuilders "GBOB" 1000 "" "" aliceFunded).2.

Definition outgoingTx : worizon.Transaction :=
  ledgerTx "46" 12 "GALICE"
    (xdr.Payment {| xdr.PayDestination := "GBOB"; xdr.PayAsset := xdr.AssetNative;
                    xdr.Amount := 1000 |}) None.

(** The faucet has funded alice at the first request and has closed
    the latch [g.wallet]; the ledger has not told her agent yet. *)
Definition aliceLatched : World :=
  Eval vm_compute in (@getTestnetFaucetFunds' testnet "GALICE" [None] aliceWorld).2.

(** The watcher of alice has then seen her account created. *)
Definition aliceWatching : World :=
  Eval vm_compute in (@walletTx testnet "GALICE" fundingTx aliceLatched).2.

(** Alice has merged her account into the account of bob, and then
    configures her agent anew. *)
Definition aliceMerged : World :=
  Eval vm_compute in (@walletTx testnet "GALICE" mergeTx aliceWatching).2.

Definition aliceAgain : World :=
  Eval vm_compute in
    (@ConfigInit testnet aliceConfig "a.example" "entropy" aliceMerged).2.

(** * Properties *)

(** ** Reasoning about transactions *)

(** A sequence whose first action returns goes on with the rest; one
    whose first action fails or panics stops there. *)
Lemma bind_Ok {S A B} (m : M S A) (f : A -> M S B) s a s' :
  m s = (Ok a, s') -> (m ≫= f) s = f a s'.
Proof. unfold mbind, M_bind. intros ->. reflexivity. Qed.

Lemma bind_Fail {S A B} (m : M S A) (f : A -> M S B) s e s' :
  m s = (Fail e, s') -> (m ≫= f) s = (Fail e, s').
Proof. unfold mbind, M_bind. intros ->. reflexivity. Qed.

Lemma bind_Panic {S A B} (m : M S A) (f : A -> M S B) s msg s' :
  m s = (Panic msg, s') -> (m ≫= f) s = (Panic msg, s').
Proof. unfold mbind, M_bind. intros ->. reflexivity. Qed.

(** A write transaction that fails leaves the store as it was. *)
Lemma db_Update_Fail {A} (f : M TxSt A) (w : World) e w' :
  db_Update f w = (Fail e, w') -> store w' = store w.
Proof.
  unfold db_Update.
  destruct (f _) as [[a|e'|msg] s]; intros [= <- <-]; reflexivity.
Qed.

Lemma db_Update_eq_Fail {A} (f : M TxSt A) (w : World) e s :
  f {| root := store w; mem := g w; hooks := [] |} = (Fail e, s) ->
  db_Update f w = (Fail e, {| g := mem s; store := store w |}).
Proof. unfold db_Update. intros ->. reflexivity. Qed.

Lemma db_Update_eq_Ok {A} (f : M TxSt A) (w : World) a s :
  f {| root := store w; mem := g w; hooks := [] |} = (Ok a, s) ->
  db_Update f w
  = (Ok a, {| g := fold_left (fun a h => runHook h a) (hooks s) (mem s);
              store := root s |}).
Proof. unfold db_Update. intros ->. reflexivity. Qed.

(** One step of symbolic execution: the first action of a sequence is
    run, the rest is left folded. *)
Ltac step :=
  first [ match goal with
          | H : ?m ?s = (Ok ?a, ?s') |- context [(?m ≫= ?f) ?s] =>
              rewrite (bind_Ok m f s a s' H)
          | H : ?m ?s = (Fail ?e, ?s') |- context [(?m ≫= ?f) ?s] =>
              rewrite (bind_Fail m f s e s' H)
          end
        | erewrite bind_Fail by reflexivity
        | erewrite bind_Ok by reflexivity ];
  cbv beta zeta; cbn [root mem hooks store g].

(** Use what the context knows about a test the execution reached. *)
Ltac known :=
  match goal with
  | H : _ = true |- _ => rewrite H
  | H : _ = false |- _ => rewrite H
  | H : _ = None |- _ => rewrite H
  | H : _ = Some _ |- _ => rewrite H
  | H : _ = inl _ |- _ => rewrite H
  | H : _ = inr _ |- _ => rewrite H
  end.

Ltac steps := repeat (step || known).

(** The transaction on the left fails after some steps. *)
Ltac tx_fails :=
  etransitivity;
  [ apply db_Update_eq_Fail; steps; reflexivity | reflexivity ].

(** ** Configuration *)

(** Whatever makes [ConfigInit] return an error, the store is as it
    was before the call. *)
Lemma ConfigInit_failure_writes_nothing `{Externals} c hostURL rnd w e w' :
  ConfigInit c hostURL rnd w = (Fail e, w') -> store w' = store w.
Proof.
  unfold ConfigInit.
  destruct (ValidateTestnetURL (HorizonURL c)) as [err|] eqn:Hurl.
  - step. intros [= <- <-]. reflexivity.
  - step. apply db_Update_Fail.
Qed.

(** The username check reads as the spec has it: every character is
    printable and none is a star. *)
Lemma validateUsername_spec (name : string) :
  validateUsername name = true <->
  forall a, In a (list_ascii_of_string name) -> printable a = true /\ a <> "*"%char.
Proof.
  unfold validateUsername. rewrite forallb_forall.
  split; intros Hall a Ha; specialize (Hall a Ha).
  - apply andb_true_iff in Hall as [Hp Hs]. split; [exact Hp|].
    intros ->. discriminate.
  - destruct Hall as [Hp Hs]. rewrite Hp. simpl.
    destruct (Ascii.eqb_spec a "*"); [contradiction | reflexivity].
Qed.

(** A check of [ConfigInit] fails: the run and the error it gives. *)
Ltac refused :=
  eexists; split; [tx_fails|];
  repeat split; intros; cbn [Root]; try reflexivity;
  exfalso; intuition (try lia; try congruence).

(** C5: on an agent that is not configured yet and with a ledger URL
    that is accepted, [ConfigInit] refuses a password that is empty or
    longer than 72 bytes with [errInvalidPassword], then a username that
    is not printable or holds a star with [errInvalidUsername], then a
    negative duration or fee rate with [errInvalidInput].  In each case
    the store is left exactly as it was; of the agent in memory only the
    seed differs, which is drawn before the checks. *)
Theorem ConfigInit_rejects_invalid_config `{Externals}
    (c : Config) (hostURL rnd : string) (w : World) :
  ValidateTestnetURL (HorizonURL c) = None ->
  isReadyConfigured (db.Agent_ (store w)) = false ->
  invalidPassword c \/ invalidUsername c \/ invalidNumbers c ->
  exists e,
    ConfigInit c hostURL rnd w
      = (Fail e, {| g := setSeed (Some rnd) (g w); store := store w |})
    /\ (invalidPassword c -> Root e = Sentinel errInvalidPassword)
    /\ (~ invalidPassword c -> invalidUsername c -> Root e = Sentinel errInvalidUsername)
    /\ (~ invalidPassword c -> ~ invalidUsername c -> Root e = Sentinel errInvalidInput).
Proof.
  intros Hurl Hcfg Hbad.
  unfold invalidPassword, invalidUsername, invalidNumbers in *.
  unfold ConfigInit. rewrite Hurl. step.
  destruct (Z.ltb_spec 72 (len (Password c))); [solve [refused]|].
  destruct (String.eqb_spec (Password c) ""); [solve [refused]|].
  destruct (validateUsername (Username c)) eqn:Hname; cbn [negb]; [|solve [refused]].
  destruct (Z.ltb_spec (MaxRoundDurMins c) 0); [solve [refused]|].
  destruct (Z.ltb_spec (FinalityDelayMins c) 0); [solve [refused]|].
  destruct (Z.ltb_spec (ChannelFeerate c) 0); [solve [refused]|].
  destruct (Z.ltb_spec (HostFeerate c) 0); [solve [refused]|].
  exfalso. destruct Hbad as [[?|?]|[?|?]]; try lia; congruence.
Qed.

(** Scenario S2 of the spec: user alice, empty password. *)
Lemma ConfigInit_rejects_invalid_config_witness :
  invalidPassword (withPassword "" aliceConfig)
  /\ exists e,
       @ConfigInit testnet (withPassword "" aliceConfig) "a.example" "entropy" emptyWorld
         = (Fail e, {| g := setSeed (Some "entropy") (g emptyWorld);
                       store := store emptyWorld |})
       /\ Root e = Sentinel errInvalidPassword.
Proof.
  assert (Hpw : invalidPassword (withPassword "" aliceConfig)) by (right; reflexivity).
  split; [exact Hpw|].
  destruct (@ConfigInit_rejects_invalid_config testnet (withPassword "" aliceConfig)
              "a.example" "entropy" emptyWorld eq_refl eq_refl (or_introl Hpw))
    as (e & Hrun & Hp & _).
  exists e. split; [exact Hrun | exact (Hp Hpw)].
Defined.

(** ** Channels between the same parties *)

(** A key that [Get] finds is in the bucket. *)
Lemma db_Get_In {V} (b : db.Bucket V) k v : db.Get b k = Some v -> In (k, v) b.
Proof.
  induction b as [|[k' v'] b IH]; simpl; [discriminate|].
  destruct (String.eqb_spec k k') as [->|Hne].
  - intros [= ->]. left. reflexivity.
  - intros Hg. right. apply IH, Hg.
Qed.

(** The test of [checkChannelUnique] reads as [between]. *)
Lemma sameParties_between a b c :
  (String.eqb a (fsm.HostAcct c) && String.eqb b (fsm.GuestAcct c)
   || String.eqb a (fsm.GuestAcct c) && String.eqb b (fsm.HostAcct c)) = true
  <-> between a b c.
Proof.
  unfold between.
  rewrite orb_true_iff, !andb_true_iff, !String.eqb_eq. reflexivity.
Qed.

(** [ForEach] stops at the first channel between [a] and [b]. *)
Lemma ForEach_conflict chans a b (l : db.Bucket fsm.Channel) (st : string) :
  (exists k v, In (k, v) l /\ between a b (db.ChannelsGet chans k)) ->
  exists k e,
    db.ForEach l (eachChannel chans a b) st = (Fail e, k)
    /\ Root e = Sentinel errExists
    /\ between a b (db.ChannelsGet chans k)
    /\ exists v, In (k, v) l.
Proof.
  revert st. induction l as [|[k0 v0] l IH]; intros st (k & v & Hin & Hb).
  - destruct Hin.
  - cbn [db.ForEach].
    destruct (String.eqb a (fsm.HostAcct (db.ChannelsGet chans k0))
                && String.eqb b (fsm.GuestAcct (db.ChannelsGet chans k0))
              || String.eqb a (fsm.GuestAcct (db.ChannelsGet chans k0))
                 && String.eqb b (fsm.HostAcct (db.ChannelsGet chans k0))) eqn:Hsame.
    + exists k0. eexists. split; [|split; [|split]].
      * erewrite bind_Fail; [reflexivity|]. unfold eachChannel. rewrite Hsame.
        erewrite bind_Ok by reflexivity. reflexivity.
      * reflexivity.
      * apply sameParties_between, Hsame.
      * exists v0. left. reflexivity.
    + destruct Hin as [[= -> ->]|Hin].
      { apply sameParties_between in Hb. congruence. }
      destruct (IH st) as (k' & e & Hrun & Hroot & Hb' & v' & Hin').
      { exists k, v. split; assumption. }
      exists k', e. split; [|split; [|split]]; try assumption.
      * erewrite bind_Ok; [exact Hrun|]. unfold eachChannel. rewrite Hsame. reflexivity.
      * exists v'. right. exact Hin'.
Qed.

(** [checkChannelUnique] finds a stored channel between the parties. *)
Lemma checkChannelUnique_conflict (w : World) a b id c :
  db.Get (channels w) id = Some c -> between a b c ->
  exists k e,
    checkChannelUnique a b w = (Ok (k, Some e), w)
    /\ Root e = Sentinel errExists
    /\ between a b (db.ChannelsGet (db.Agent_ (store w)) k).
Proof.
  intros Hget Hb.
  destruct (ForEach_conflict (db.Agent_ (store w)) a b (channels w) "") as (k & e & Hrun & Hroot & Hb' & _).
  { exists id, c. split; [apply db_Get_In, Hget|].
    unfold db.ChannelsGet. unfold channels in Hget. rewrite Hget. exact Hb. }
  exists k, e. split; [|split; assumption].
  unfold checkChannelUnique, db_View, gets. unfold channels in Hrun. rewrite Hrun. reflexivity.
Qed.

(** C10: when the federation address of the guest resolves to the
    primary account of the agent itself, [DoCreateChannel] returns an
    error and leaves the agent and its store exactly as they were; the
    error is [errAcctsSame] unless the address is empty or the amount
    zero, which are refused before the address is resolved. *)
Theorem DoCreateChannel_rejects_own_account `{Externals}
    (guestFedAddr : string) (hostAmount : Z) (starlightURL : string) (w : World) :
  FindAccount guestFedAddr = inr (primaryAcct w, starlightURL) ->
  exists e,
    DoCreateChannel guestFedAddr hostAmount w = (Fail e, w)
    /\ (guestFedAddr <> "" -> hostAmount <> 0 -> e = Sentinel errAcctsSame).
Proof.
  intros Hfind. unfold DoCreateChannel.
  destruct (String.eqb_spec guestFedAddr "") as [->|Hfed].
  { eexists. split; [step; reflexivity|]. intros; congruence. }
  destruct (Z.eqb_spec hostAmount 0) as [->|Hamt].
  { eexists. split; [steps; reflexivity|]. intros; congruence. }
  eexists. split; [|reflexivity].
  steps. rewrite String.eqb_refl. step. reflexivity.
Qed.

(** Alice asks for a channel with her own address. *)
Lemma DoCreateChannel_rejects_own_account_witness :
  @FindAccount testnet "alice*a.example" = inr (primaryAcct aliceWorld, "https://a.example")
  /\ @DoCreateChannel testnet "alice*a.example" 100 aliceWorld
      = (Fail (Sentinel errAcctsSame), aliceWorld).
Proof.
  assert (Hf : @FindAccount testnet "alice*a.example"
               = inr (primaryAcct aliceWorld, "https://a.example")) by reflexivity.
  split; [exact Hf|].
  destruct (@DoCreateChannel_rejects_own_account testnet "alice*a.example" 100
              "https://a.example" aliceWorld Hf) as (e & Hrun & He).
  rewrite Hrun. rewrite He; [reflexivity | discriminate | discriminate].
Defined.

(** [DoCreateChannel] stops at a channel between the same parties. *)
Lemma DoCreateChannel_conflict `{Externals}
    (guestFedAddr : string) (hostAmount : Z) (guestAcct starlightURL : string)
    (w : World) (id : string) (c : fsm.Channel) :
  guestFedAddr <> "" -> hostAmount <> 0 ->
  FindAccount guestFedAddr = inr (guestAcct, starlightURL) ->
  guestAcct <> primaryAcct w ->
  db.Get (channels w) id = Some c ->
  between (primaryAcct w) guestAcct c ->
  exists e,
    DoCreateChannel guestFedAddr hostAmount w = (Fail e, w)
    /\ Root e = Sentinel errExists.
Proof.
  intros Hfed Hamt Hfind Hself Hget Hb.
  destruct (checkChannelUnique_conflict w _ _ id c Hget Hb) as (k & e & Hrun & Hroot & _).
  exists e. split; [|exact Hroot].
  unfold DoCreateChannel.
  apply String.eqb_neq in Hfed. apply Z.eqb_neq in Hamt. apply String.eqb_neq in Hself.
  steps. fold (primaryAcct w). steps. reflexivity.
Qed.

(** [resolveChannelCreateConflict] always returns an error; it writes
    nothing, hands nothing to the state machine, and at most launches
    the clean-up of a channel in state [ChannelProposed]. *)
Lemma resolve_fails (chanID : string) (propose : msg.ChannelProposeMsg) (w : World) :
  let c := db.ChannelsGet (db.Agent_ (store w)) chanID in
  exists e w',
    resolveChannelCreateConflict chanID propose w = (Fail e, w')
    /\ store w' = store w
    /\ steps (g w') = steps (g w)
    /\ (db.Ready (db.Agent_ (store w)) = false ->
        Root e = Sentinel errAgentClosing /\ w' = w)
    /\ (db.Ready (db.Agent_ (store w)) = true ->
        (Root e = Sentinel errExists /\ w' = w)
        \/ (Root e = Sentinel errChannelExistsRetriable /\ w' = w)
        \/ (Root e = Sentinel errChannelExistsRetriable
            /\ fsm.State_ c = fsm.ChannelProposed
            /\ w' = {| g := allez (goDoCommand chanID cleanUp) (g w); store := store w |})).
Proof.
  intros c. subst c. unfold resolveChannelCreateConflict.
  destruct w as [gw sw]; cbn [store g] in *.
  destruct (db.Ready (db.Agent_ sw)) eqn:Hready.
  2:{ do 2 eexists. split; [tx_fails|]. cbn. repeat split; try discriminate; reflexivity. }
  destruct (fsm.State_ (db.ChannelsGet (db.Agent_ sw) chanID)) eqn:Hst;
    try (do 2 eexists;
         split; [etransitivity;
                 [apply db_Update_eq_Fail; steps; rewrite Hst; steps; reflexivity
                 |reflexivity]|];
         cbn; repeat split; try discriminate; intros _; auto; fail).
  destruct ((msg.HostAmount propose <? fsm.HostAmount (db.ChannelsGet (db.Agent_ sw) chanID))
     || (msg.HostAmount propose =? fsm.HostAmount (db.ChannelsGet (db.Agent_ sw) chanID)) &&
        (msg.HostAcct propose <? fsm.HostAcct (db.ChannelsGet (db.Agent_ sw) chanID))%string) eqn:Hlose.
  - do 2 eexists.
    split; [etransitivity;
            [apply db_Update_eq_Fail; steps; rewrite Hst; steps; reflexivity|reflexivity]|].
    cbn. repeat split; try discriminate; intros _; auto.
  - do 2 eexists.
    split; [etransitivity;
            [apply db_Update_eq_Fail; steps; rewrite Hst; steps; reflexivity|reflexivity]|].
    cbn. repeat split; try discriminate; intros _.
    right. right. auto.
Qed.





(** ** The wallet watcher *)





(** The last action of the handler has run. *)
Ltac returned := unfold mret, M_ret, modify, fail, panic; cbv beta iota; try exact I.











Section Stream.

Context `{Externals}.
Variable le : string -> string -> Prop.
Hypothesis le_refl : forall x, le x x.
Hypothesis le_trans : forall x y z, le x y -> le y z -> le x z.


End Stream.

(** ** Proposals in conflict *)

(** What [resolveChannelCreateConflict] does about a proposal that
    meets a channel in state [ChannelProposed]. *)
Lemma resolve_ChannelProposed (chanID : string)
    (propose : msg.ChannelProposeMsg) (w : World) :
  db.Ready (db.Agent_ (store w)) = true ->
  fsm.State_ (db.ChannelsGet (db.Agent_ (store w)) chanID) = fsm.ChannelProposed ->
  let c := db.ChannelsGet (db.Agent_ (store w)) chanID in
  let local := (msg.HostAmount propose <? fsm.HostAmount c)
               || ((msg.HostAmount propose =? fsm.HostAmount c)
                   && String.ltb (msg.HostAcct propose) (fsm.HostAcct c)) in
  exists e,
    resolveChannelCreateConflict chanID propose w
    = (Fail e, if local then w
               else {| g := allez (goDoCommand chanID cleanUp) (g w); store := store w |})
    /\ Root e = Sentinel (if local then errExists else errChannelExistsRetriable).
Proof.
  intros Hready Hst c local. subst c local.
  unfold resolveChannelCreateConflict. destruct w as [gw sw]; cbn [store g] in *.
  destruct (_ || _) eqn:Hlocal.
  - eexists. split;
      [etransitivity;
         [apply db_Update_eq_Fail; steps; rewrite Hst; steps; reflexivity | reflexivity]
      | reflexivity].
  - eexists. split;
      [etransitivity;
         [apply db_Update_eq_Fail; steps; rewrite Hst; steps; reflexivity | reflexivity]
      | reflexivity].
Qed.

(** On distinct strings, and on proposals of distinct hosts, the
    strict order is total. *)
Lemma ltb_total (a b : string) :
  a <> b -> String.ltb a b = negb (String.ltb b a).
Proof.
  intros Hne. unfold String.ltb. rewrite (String.compare_antisym b a).
  destruct (String.compare a b) eqn:Hc; cbn; try reflexivity.
  apply String.compare_eq_iff in Hc. contradiction.
Qed.

Lemma precedes_total (p q : msg.ChannelProposeMsg) :
  msg.HostAcct p <> msg.HostAcct q -> precedes p q = negb (precedes q p).
Proof.
  intros Hne. unfold precedes. rewrite (ltb_total _ _ Hne).
  destruct (Z.ltb_spec (msg.HostAmount p) (msg.HostAmount q));
    destruct (Z.ltb_spec (msg.HostAmount q) (msg.HostAmount p));
    destruct (Z.eqb_spec (msg.HostAmount p) (msg.HostAmount q));
    destruct (Z.eqb_spec (msg.HostAmount q) (msg.HostAmount p));
    cbn; try lia; try reflexivity.
Qed.

(** C1 (amended): two ready agents have each proposed a channel to
    the other and each receives the proposal of the other while its
    own channel is in state [ChannelProposed].  The proposal that comes
    first in the order of host amount, then host address, loses: the
    larger amount wins and, on equal amounts, the lexicographically
    larger host address.  The loser is refused with [errExists] by the
    agent of the winner, which changes nothing; the winner is told
    [errChannelExistsRetriable] by the agent of the loser, which
    launches [CleanUp] on its own channel.  Which of the two it is
    depends on the two amounts and the two addresses only. *)
Theorem proposal_conflict_has_one_winner
    (wA wB : World) (idA idB : string) (pA pB : msg.ChannelProposeMsg) :
  proposed wA idA pA -> proposed wB idB pB ->
  msg.HostAcct pA <> msg.HostAcct pB ->
  let atA := resolveChannelCreateConflict idA pB wA in
  let atB := resolveChannelCreateConflict idB pA wB in
  let cleaning id w := {| g := allez (goDoCommand id cleanUp) (g w); store := store w |} in
  if precedes pB pA
  then failedWith atA errExists /\ atA.2 = wA
       /\ failedWith atB errChannelExistsRetriable /\ atB.2 = cleaning idB wB
  else failedWith atB errExists /\ atB.2 = wB
       /\ failedWith atA errChannelExistsRetriable /\ atA.2 = cleaning idA wA.
Proof.
  intros (HreadyA & HstA & HamtA & HhostA) (HreadyB & HstB & HamtB & HhostB) Hne.
  intros atA atB cleaning. subst atA atB cleaning.
  destruct (resolve_ChannelProposed idA pB wA HreadyA HstA) as (eA & HrunA & HrootA).
  destruct (resolve_ChannelProposed idB pA wB HreadyB HstB) as (eB & HrunB & HrootB).
  rewrite HamtA, HhostA in HrunA, HrootA. rewrite HamtB, HhostB in HrunB, HrootB.
  fold (precedes pB pA) in HrunA, HrootA. fold (precedes pA pB) in HrunB, HrootB.
  rewrite (precedes_total pA pB Hne) in HrunB, HrootB.
  rewrite HrunA, HrunB. unfold failedWith. cbn [fst snd].
  destruct (precedes pB pA); cbn [negb] in *; repeat split; eauto.
Qed.

(** Scenario S4 of the spec, both amounts 50: alice's proposal is the
    one that is refused. *)
Lemma proposal_conflict_has_one_winner_witness :
  proposed aliceProposing "GESCROW" aliceProposal
  /\ proposed bobProposing "GBOBESCROW" bobProposal
  /\ msg.HostAcct aliceProposal <> msg.HostAcct bobProposal
  /\ precedes bobProposal aliceProposal = false
  /\ failedWith (resolveChannelCreateConflict "GBOBESCROW" aliceProposal bobProposing)
       errExists
  /\ failedWith (resolveChannelCreateConflict "GESCROW" bobProposal aliceProposing)
       errChannelExistsRetriable.
Proof.
  assert (HA : proposed aliceProposing "GESCROW" aliceProposal) by (repeat split).
  assert (HB : proposed bobProposing "GBOBESCROW" bobProposal) by (repeat split).
  assert (Hne : msg.HostAcct aliceProposal <> msg.HostAcct bobProposal) by discriminate.
  pose proof (proposal_conflict_has_one_winner aliceProposing bobProposing
                "GESCROW" "GBOBESCROW" aliceProposal bobProposal HA HB Hne) as Hwin.
  cbv zeta in Hwin.
  change (precedes bobProposal aliceProposal) with false in Hwin.
  destruct Hwin as (HatB & _ & HatA & _).
  repeat split; try assumption.
Defined.

(** C1 fails as stated: alice and bob propose to each other with the
    same amount and alice has the smaller address, so by the spec her
    proposal does not lose; yet bob's agent refuses it with
    [errExists], and her own agent answers bob's proposal with the
    retriable error and launches the clean-up of her channel. *)
Lemma smaller_host_address_loses_tie :
  msg.HostAmount aliceProposal = msg.HostAmount bobProposal
  /\ String.ltb (msg.HostAcct aliceProposal) (msg.HostAcct bobProposal) = true
  /\ specLoses aliceProposal bobProposal = false
  /\ failedWith (resolveChannelCreateConflict "GBOBESCROW" aliceProposal bobProposing)
       errExists
  /\ failedWith (resolveChannelCreateConflict "GESCROW" bobProposal aliceProposing)
       errChannelExistsRetriable
  /\ goroutines (g (resolveChannelCreateConflict "GESCROW" bobProposal aliceProposing).2)
     = (goroutines (g aliceProposing) ++ [goDoCommand "GESCROW" cleanUp])%list.
Proof.
  repeat split; try reflexivity.
  - eexists. split; [vm_compute; reflexivity | reflexivity].
  - eexists. split; [vm_compute; reflexivity | reflexivity].
Qed.

(** Go's [len(s) == 0] is the test for the empty string. *)
Lemma len_zero (s : string) : (len s =? 0) = String.eqb s "".
Proof. destruct s; reflexivity. Qed.

(** A channel proposal between the parties of a stored channel is
    answered with an error and nothing is written. *)
Lemma handleMsg_conflict `{Externals} (m : msg.Message) (propose : msg.ChannelProposeMsg)
    (w : World) (id : string) (c : fsm.Channel) :
  msg.ChannelID m <> "" ->
  msg.ChannelProposeMsg_ m = Some propose ->
  db.Get (channels w) id = Some c ->
  between (msg.HostAcct propose) (msg.GuestAcct propose) c ->
  exists e w',
    handleMsg (inr m) w = (Fail e, w')
    /\ store w' = store w
    /\ (if db.Ready (db.Agent_ (store w))
        then Root e = Sentinel errExists \/ Root e = Sentinel errChannelExistsRetriable
        else Root e = Sentinel errAgentClosing).
Proof.
  intros Hid Hp Hget Hb.
  destruct (checkChannelUnique_conflict w _ _ id c Hget Hb) as (k & e0 & Hcheck & _ & _).
  destruct (resolve_fails k propose w) as (e & w' & Hres & Hstore & _ & Hnot & Hready).
  exists e, w'. split; [|split; [exact Hstore|]].
  - unfold handleMsg. rewrite len_zero. apply String.eqb_neq in Hid. rewrite Hid. step.
    rewrite Hp. unfold handlePropose.
    erewrite bind_Fail; [reflexivity|].
    rewrite (bind_Ok _ _ _ _ _ Hcheck). cbv beta iota.
    erewrite bind_Fail; [reflexivity | exact Hres].
  - destruct (db.Ready (db.Agent_ (store w))).
    + destruct (Hready eq_refl) as [[Hr _]|[[Hr _]|(Hr & _)]]; auto.
    + apply (Hnot eq_refl).
Qed.

(** C2 (amended): while the store holds a channel record between two
    accounts, in either order and in whatever state, [Closed]
    included, no new channel between them is created.
    [DoCreateChannel] returns [errExists] and changes nothing; a
    [ChannelPropose] message is answered with [errExists] or
    [errChannelExistsRetriable] by a ready agent and with
    [errAgentClosing] by one that is closing, and the store is left as
    it was. *)
Theorem existing_channel_blocks_new_channel `{Externals}
    (w : World) (id : string) (c : fsm.Channel) :
  db.Get (channels w) id = Some c ->
  (forall guestFedAddr hostAmount guestAcct starlightURL,
     guestFedAddr <> "" -> hostAmount <> 0 ->
     FindAccount guestFedAddr = inr (guestAcct, starlightURL) ->
     guestAcct <> primaryAcct w ->
     between (primaryAcct w) guestAcct c ->
     exists e,
       DoCreateChannel guestFedAddr hostAmount w = (Fail e, w)
       /\ Root e = Sentinel errExists)
  /\ (forall m propose,
        msg.ChannelID m <> "" ->
        msg.ChannelProposeMsg_ m = Some propose ->
        between (msg.HostAcct propose) (msg.GuestAcct propose) c ->
        exists e w',
          handleMsg (inr m) w = (Fail e, w')
          /\ store w' = store w
          /\ (if db.Ready (db.Agent_ (store w))
              then Root e = Sentinel errExists \/ Root e = Sentinel errChannelExistsRetriable
              else Root e = Sentinel errAgentClosing)).
Proof.
  intros Hget. split.
  - intros guestFedAddr hostAmount guestAcct starlightURL Hfed Hamt Hfind Hself Hb.
    eapply DoCreateChannel_conflict; eassumption.
  - intros m propose Hid Hp Hb.
    eapply handleMsg_conflict; eassumption.
Qed.

(** Alice holds a closed channel with bob: neither she nor bob can
    open another. *)
Lemma existing_channel_blocks_new_channel_witness :
  db.Get (channels aliceClosed) "GESCROW" = Some (aliceChannel fsm.Closed 100)
  /\ failedWith (@DoCreateChannel testnet "bob*b.example" 100 aliceClosed) errExists
  /\ failedWith
       (@handleMsg testnet
          (inr (proposeMessage "GBOBESCROW" (bobChannel fsm.ChannelProposed 50))) aliceClosed)
       errExists.
Proof.
  assert (Hget : db.Get (channels aliceClosed) "GESCROW"
                 = Some (aliceChannel fsm.Closed 100)) by reflexivity.
  destruct (@existing_channel_blocks_new_channel testnet aliceClosed "GESCROW"
              (aliceChannel fsm.Closed 100) Hget) as [Hcreate Hpropose].
  split; [exact Hget|]. split.
  - destruct (Hcreate "bob*b.example" 100 "GBOB" "https://b.example") as (e & Hrun & Hroot);
      [discriminate | discriminate | reflexivity | discriminate | left; split; reflexivity |].
    exists e. rewrite Hrun. split; [reflexivity | exact Hroot].
  - destruct (Hpropose (proposeMessage "GBOBESCROW" (bobChannel fsm.ChannelProposed 50))
                (proposalOf (bobChannel fsm.ChannelProposed 50)))
      as (e & w' & Hrun & _ & Hroot);
      [discriminate | reflexivity | right; split; reflexivity |].
    exists e. rewrite Hrun. split; [reflexivity|].
    change (db.Ready (db.Agent_ (store aliceClosed))) with true in Hroot.
    destruct Hroot as [Hr|Hr]; [exact Hr|].
    exfalso. revert Hrun Hr. vm_compute. intros [= <- _]. discriminate.
Defined.

(** C2 fails as stated: the only channel alice holds with bob is
    closed, yet [DoCreateChannel] fails with [errExists], where without
    that record it succeeds; and an agent that is closing answers a
    conflicting proposal with [errAgentClosing]. *)
Lemma closed_channel_blocks_new_channel :
  map (fun kv => fsm.State_ kv.2) (channels aliceClosed) = [fsm.Closed]
  /\ failedWith (@DoCreateChannel testnet "bob*b.example" 100 aliceClosed) errExists
  /\ (exists ch, (@DoCreateChannel testnet "bob*b.example" 100 aliceFunded).1 = Ok ch)
  /\ failedWith
       (@handleMsg testnet
          (inr (proposeMessage "GBOBESCROW" (bobChannel fsm.ChannelProposed 50)))
          (withReady false aliceProposing))
       errAgentClosing.
Proof.
  split; [reflexivity|]. split; [|split].
  - eexists. split; [vm_compute; reflexivity | reflexivity].
  - eexists. vm_compute. reflexivity.
  - eexists. split; [vm_compute; reflexivity | reflexivity].
Qed.



(** ** The merge of the primary account *)




(** ** Editing the configuration *)

(** An edit that names a username or a keep-alive flag fails with
    [errInvalidEdit] and changes nothing. *)
Lemma ConfigEdit_invalid_edit `{Externals} (c : Config) (w : World) :
  Username c <> "" \/ KeepAlive c <> None ->
  ConfigEdit c w = (Fail (Sentinel errInvalidEdit), w).
Proof.
  intros Hbad. unfold ConfigEdit.
  assert (Hc : negb (String.eqb (Username c) "") || bool_decide (KeepAlive c <> None) = true).
  { destruct (String.eqb_spec (Username c) ""); simpl; [|reflexivity].
    destruct Hbad as [?|Hk]; [contradiction|].
    apply bool_decide_eq_true_2, Hk. }
  rewrite Hc. step. reflexivity.
Qed.

(** An edit in which every field but the old password has its zero
    value fails with [errEmptyConfigEdit] and changes nothing. *)
Lemma ConfigEdit_empty_edit `{Externals} (c : Config) (w : World) :
  Username c = "" -> KeepAlive c = None -> emptyEdit c -> Public c = false ->
  ConfigEdit c w = (Fail (Sentinel errEmptyConfigEdit), w).
Proof.
  intros Hu Hk (Hp & Hh & Hm & Hf & Hc & Hhf) Hpub. unfold ConfigEdit.
  rewrite Hu, Hk. step.
  rewrite bool_decide_eq_true_2; [step; reflexivity|].
  destruct c; simpl in *; subst; reflexivity.
Qed.

(** C6, at the input where the code departs from it: the edit
    [publicOnly] leaves every field that can be edited empty, yet on a
    configured agent [ConfigEdit] does not return [errEmptyConfigEdit]:
    it succeeds, appends an Update of type Config to the log and
    broadcasts. *)
Theorem ConfigEdit_accepts_public_only `{Externals} (w : World) :
  isReadyConfigured (db.Agent_ (store w)) = true ->
  emptyEdit publicOnly
  /\ ConfigEdit publicOnly w
     = (Ok tt,
        {| g := runHook evcondBroadcast (g w);
           store :=
             {| db.Agent_ :=
                  db.setUpdates
                    (fun l => (l ++ [stamped (Z.of_nat (length l) + 1) Now
                                       (editUpdate publicOnly)])%list)
                    (db.Agent_ (store w));
                db.Tasks := db.Tasks (store w) |} |}).
Proof.
  intros Hcfg. split; [repeat split|].
  unfold ConfigEdit. steps.
  etransitivity; [apply db_Update_eq_Ok|].
  - steps. cbn. unfold putUpdate, OnCommit. steps. reflexivity.
  - reflexivity.
Qed.

(** On alice's agent the edit succeeds and the log grows by one. *)
Lemma ConfigEdit_accepts_public_only_witness :
  isReadyConfigured (db.Agent_ (store aliceWorld)) = true
  /\ (@ConfigEdit testnet publicOnly aliceWorld).1 = Ok tt
  /\ length (db.Updates (db.Agent_ (store (@ConfigEdit testnet publicOnly aliceWorld).2)))
     = S (length (db.Updates (db.Agent_ (store aliceWorld)))).
Proof.
  assert (Hc : isReadyConfigured (db.Agent_ (store aliceWorld)) = true) by reflexivity.
  split; [exact Hc|].
  destruct (@ConfigEdit_accepts_public_only testnet aliceWorld Hc) as [_ Hrun].
  rewrite Hrun. split; reflexivity.
Defined.

(** ** The cursor of the wallet *)






(** ** The messages of a channel *)

(** Of messages numbered from [n] on, at most [b - max a n] lie in
    the interval. *)
Lemma numbersFrom_count (a b : Z) (l : list msg.Message) :
  forall n, numbersFrom n l = true ->
    Z.of_nat (length (List.filter (inRange a b) l)) <= Z.max 0 (b - Z.max a n).
Proof.
  induction l as [|m l IH]; intros n Hnum; cbn [List.filter length numbersFrom] in *.
  - lia.
  - apply andb_true_iff in Hnum as [Hm Hrest]. apply Z.eqb_eq in Hm.
    specialize (IH (n + 1) Hrest). unfold inRange at 1. rewrite Hm.
    destruct (Z.leb_spec a n); destruct (Z.ltb_spec n b); cbn [andb length]; lia.
Qed.

(** What [filter] keeps passes the test. *)
Lemma filter_Forall {A} (f : A -> bool) (l : list A) :
  List.Forall (fun x => f x = true) (List.filter f l).
Proof.
  induction l as [|x l IH]; cbn; [constructor|].
  destruct (f x) eqn:Hf; [constructor; assumption | assumption].
Qed.

(** In a well-numbered store every message list is numbered. *)
Lemma wellNumbered_Get (r : db.Root) (id : string) (s : message.Message) :
  wellNumbered r = true ->
  db.Get (db.Messages (db.Agent_ r)) id = Some s -> numbered s = true.
Proof.
  unfold wellNumbered. rewrite forallb_forall. intros Hall Hget.
  apply (Hall (id, s)), db_Get_In, Hget.
Qed.

(** C9: on a store whose messages are numbered as [message.Add]
    numbers them, [Messages chanID a b] returns, without changing
    anything, messages whose numbers all lie in [[a, b)]; there are at
    most [b - a] of them, the difference computed as Go computes it on
    [uint64]; and for a channel ID the store does not know the result
    is empty. *)
Theorem Messages_within_bounds (chanID : string) (a b : Z) (w : World) :
  wellNumbered (store w) = true ->
  0 <= a < 2 ^ 64 -> 0 <= b < 2 ^ 64 ->
  exists msgs,
    Messages chanID a b w = (Ok msgs, w)
    /\ List.Forall (fun m => a <= msg.MsgNum m < b) msgs
    /\ Z.of_nat (length msgs) <= wrap_u64 (b - a)
    /\ (db.Get (db.Messages (db.Agent_ (store w))) chanID = None -> msgs = []).
Proof.
  intros Hwell Ha Hb.
  exists (message.From (db.Get (db.Messages (db.Agent_ (store w))) chanID) a b).
  split; [reflexivity|].
  assert (Hwrap : 0 <= wrap_u64 (b - a)) by (unfold wrap_u64; apply Z.mod_pos_bound; lia).
  destruct (db.Get (db.Messages (db.Agent_ (store w))) chanID) as [s|] eqn:Hget;
    cbn [message.From].
  - split; [|split; [|discriminate]].
    + eapply List.Forall_impl; [|apply filter_Forall]. cbn beta.
      intros m Hm. apply andb_true_iff in Hm as [H1 H2]. lia.
    + pose proof (wellNumbered_Get _ _ _ Hwell Hget) as Hnum. unfold numbered in Hnum.
      apply andb_true_iff in Hnum as [Hnum _]. apply andb_true_iff in Hnum as [Hnum _].
      pose proof (numbersFrom_count a b _ 1 Hnum) as Hcount.
      fold (inRange a b).
      change (fun m : msg.Message => (a <=? msg.MsgNum m) && (msg.MsgNum m <? b))
        with (inRange a b).
      destruct (Z.le_gt_cases a b).
      * unfold wrap_u64. rewrite Z.mod_small by lia. lia.
      * lia.
  - split; [constructor|]. split; [cbn; lia | reflexivity].
Qed.

(** A numbered list stays numbered under the next number. *)
Lemma numbersFrom_snoc (n : Z) (l : list msg.Message) (m : msg.Message) :
  numbersFrom n l = true -> msg.MsgNum m = n + Z.of_nat (length l) ->
  numbersFrom n (l ++ [m]) = true.
Proof.
  revert n. induction l as [|x l IH]; intros n Hnum Hm; cbn [app numbersFrom length] in *.
  - rewrite Hm, Z.add_0_r, Z.eqb_refl. reflexivity.
  - apply andb_true_iff in Hnum as [Hx Hrest]. rewrite Hx. cbn [andb].
    apply IH; [exact Hrest | lia].
Qed.

(** [message.Add] keeps a list numbered while its length fits 64 bits. *)
Lemma Add_numbered (m : msg.Message) (s : message.Message) :
  numbered s = true -> Z.of_nat (length (message.Msgs s)) + 1 < 2 ^ 64 ->
  numbered (message.Add m s).1 = true.
Proof.
  unfold numbered, message.Add. intros Hnum Hfit. cbn [fst message.Msgs message.LastSeqNum].
  apply andb_true_iff in Hnum as [Hnum _]. apply andb_true_iff in Hnum as [Hnum Hlast].
  apply Z.eqb_eq in Hlast. rewrite Hlast.
  unfold wrap_u64. rewrite Z.mod_small by lia.
  rewrite length_app. cbn [length].
  rewrite numbersFrom_snoc; [| exact Hnum | cbn; lia].
  cbn [andb]. apply andb_true_iff. split; [apply Z.eqb_eq | apply Z.ltb_lt]; lia.
Qed.

(** [Put] keeps what holds of every entry, if it holds of the new one. *)
Lemma Put_forallb {V} (P : string * V -> bool) (b : db.Bucket V) k v :
  forallb P b = true -> P (k, v) = true -> forallb P (db.Put b k v) = true.
Proof.
  intros Hb Hv. induction b as [|[k' v'] b IH]; cbn [db.Put forallb] in *.
  - rewrite Hv. reflexivity.
  - apply andb_true_iff in Hb as [Hh Ht].
    destruct (String.compare k k'); cbn [forallb]; rewrite ?Hv, ?Hh, ?Ht; auto.
Qed.

(** [putMessage], the one writer of the bucket, keeps the store
    well-numbered. *)
Lemma putMessage_wellNumbered (c : fsm.Channel) (m : msg.Message) (s : TxSt) :
  wellNumbered (root s) = true ->
  (forall st, db.Get (db.Messages (db.Agent_ (root s))) (fsm.ID c) = Some st ->
              Z.of_nat (length (message.Msgs st)) + 1 < 2 ^ 64) ->
  after (putMessage c m) s (fun _ s' => wellNumbered (root s') = true).
Proof.
  intros Hwell Hfit. unfold after, putMessage. step.
  destruct (message.Add m _) as [st' n] eqn:Hadd.
  unfold OnCommit. steps. returned.
  unfold wellNumbered. cbn [root db.Agent_ db.Messages db.setMessages].
  apply Put_forallb; [exact Hwell|]. cbn [snd].
  change st' with (st', n).1. rewrite <- Hadd.
  destruct (db.Get (db.Messages (db.Agent_ (root s))) (fsm.ID c)) as [st|] eqn:Hget;
    cbn [default].
  - apply Add_numbered; [eapply wellNumbered_Get; eassumption | apply Hfit; reflexivity].
  - apply Add_numbered; [reflexivity | cbn; lia].
Qed.

(** Of alice's three messages, two lie in [[2, 4)]. *)
Lemma Messages_within_bounds_witness :
  wellNumbered (store aliceQueued) = true
  /\ (0 <= 2 < 2 ^ 64) /\ (0 <= 4 < 2 ^ 64)
  /\ exists msgs,
       Messages "GBOBESCROW" 2 4 aliceQueued = (Ok msgs, aliceQueued)
       /\ map msg.MsgNum msgs = [2; 3]
       /\ Z.of_nat (length msgs) <= wrap_u64 (4 - 2).
Proof.
  assert (Hwell : wellNumbered (store aliceQueued) = true) by reflexivity.
  assert (Ha : 0 <= 2 < 2 ^ 64) by (split; [discriminate | reflexivity]).
  assert (Hb : 0 <= 4 < 2 ^ 64) by (split; [discriminate | reflexivity]).
  split; [exact Hwell|]. split; [exact Ha|]. split; [exact Hb|].
  destruct (Messages_within_bounds "GBOBESCROW" 2 4 aliceQueued Hwell Ha Hb)
    as (msgs & Hrun & _ & Hlen & _).
  exists msgs. split; [exact Hrun|]. split; [|exact Hlen].
  revert Hrun. vm_compute. intros [= <-]. reflexivity.
Defined.

(** * Further properties *)

(** ** Steps that stay inside the store *)

Lemma inStore_ret {A} (a : A) : inStore (mret a).
Proof. intros s. reflexivity. Qed.

Lemma inStore_fail {A} (e : error) : inStore (fail (A := A) e).
Proof. intros s. reflexivity. Qed.

Lemma inStore_panic {A} (msg : string) : inStore (panic (A := A) msg).
Proof. intros s. reflexivity. Qed.

Lemma inStore_gets {A} (f : TxSt -> A) : inStore (gets f).
Proof. intros s. reflexivity. Qed.

Lemma inStore_bind {A B} (m : M TxSt A) (f : A -> M TxSt B) :
  inStore m -> (forall a, inStore (f a)) -> inStore (m ≫= f).
Proof.
  intros Hm Hf s. unfold mbind, M_bind. specialize (Hm s).
  destruct (m s) as [[a|e|msg] s1]; cbn [snd] in *; [rewrite Hf|..]; exact Hm.
Qed.

Lemma inStore_failIf (c : bool) (e : error) : inStore (failIf c e).
Proof. destruct c; intros s; reflexivity. Qed.

Lemma inStore_try {A} (r : error + A) : inStore (try r).
Proof. destruct r; intros s; reflexivity. Qed.

Lemma inStore_modifyAgent (f : db.Agent -> db.Agent) : inStore (modifyAgent f).
Proof. intros s. reflexivity. Qed.

Lemma inStore_OnCommit (h : Hook) : inStore (OnCommit h).
Proof. intros s. reflexivity. Qed.

Lemma inStore_tbAddTx (t : Task) : inStore (tbAddTx t).
Proof. intros s. reflexivity. Qed.

Lemma inStore_balancesPut k v w : inStore (balancesPut k v w).
Proof. unfold balancesPut. destruct (fsm.Balances w); intros s; reflexivity. Qed.

Lemma inStore_ignoreErr (m : M TxSt unit) : inStore m -> inStore (ignoreErr m).
Proof.
  intros Hm s. unfold ignoreErr. specialize (Hm s).
  destruct (m s) as [[a|e|msg] s1]; exact Hm.
Qed.

Lemma inStore_putUpdate `{Externals} (ev : Update) : inStore (putUpdate ev).
Proof. intros s. reflexivity. Qed.

Lemma inStore_forRange {A} (body : Z -> A -> M TxSt unit) (l : list A) :
  (forall i x, inStore (body i x)) -> forall i, inStore (forRange body i l).
Proof.
  intros Hbody. induction l as [|x l IH]; intros i; cbn [forRange].
  - apply inStore_ret.
  - apply inStore_bind; [apply Hbody | intros _; apply IH].
Qed.

(** Take a transaction apart into steps that stay inside the store. *)
Ltac in_store :=
  repeat lazymatch goal with
  | |- inStore (mret _) => apply inStore_ret
  | |- inStore (fail _) => apply inStore_fail
  | |- inStore (panic _) => apply inStore_panic
  | |- inStore (gets _) => apply inStore_gets
  | |- inStore agent => apply inStore_gets
  | |- inStore (failIf _ _) => apply inStore_failIf
  | |- inStore (try _) => apply inStore_try
  | |- inStore (modifyAgent _) => apply inStore_modifyAgent
  | |- inStore (OnCommit _) => apply inStore_OnCommit
  | |- inStore (tbAddTx _) => apply inStore_tbAddTx
  | |- inStore (balancesPut _ _ _) => apply inStore_balancesPut
  | |- inStore (putUpdate _) => apply inStore_putUpdate
  | |- inStore (ignoreErr _) => apply inStore_ignoreErr
  | |- inStore (forRange _ _ _) => apply inStore_forRange; intros
  | |- inStore (_ ≫= _) => apply inStore_bind; [|intros; cbv beta]
  | |- inStore (match ?x with _ => _ end) => destruct x
  end.

(** A transaction that stays inside the store is rolled back without
    a trace. *)
Lemma db_Update_atomic {A} (f : M TxSt A) : inStore f -> atomic (db_Update f).
Proof.
  intros Hf w e w'. unfold db_Update.
  specialize (Hf {| root := store w; mem := g w; hooks := [] |}).
  destruct (f _) as [[a|e'|msg] s]; intros [= <- <-].
  cbn [snd mem] in Hf. rewrite Hf. destruct w; reflexivity.
Qed.

Lemma atomic_failIf {A} (c : bool) (e : error) (k : M World A) :
  atomic k -> atomic (failIf c e;; k).
Proof.
  intros Hk w e' w'. destruct c; cbn.
  - intros [= <- <-]. reflexivity.
  - apply Hk.
Qed.

Section CommandsAtomic.

Context `{Externals} `{Builders}.

Lemma AddAsset_atomic assetCode issuer : atomic (AddAsset assetCode issuer).
Proof.
  unfold AddAsset. do 2 apply atomic_failIf. apply db_Update_atomic.
  unfold agent, addTxTask. in_store.
Qed.

Lemma RemoveAsset_atomic assetCode issuer : atomic (RemoveAsset assetCode issuer).
Proof.
  unfold RemoveAsset. do 2 apply atomic_failIf. apply db_Update_atomic.
  unfold agent, addTxTask. in_store.
Qed.

Lemma DoWalletPay_atomic dest amount assetCode issuer :
  atomic (DoWalletPay dest amount assetCode issuer).
Proof.
  unfold DoWalletPay. do 4 apply atomic_failIf. apply db_Update_atomic.
  unfold agent, addTxTask, payAsset, payNative. in_store.
Qed.

Lemma DoCloseAccount_atomic dest : atomic (DoCloseAccount dest).
Proof.
  unfold DoCloseAccount. apply db_Update_atomic.
  unfold agent, addTxTask. in_store.
Qed.

(** A command on the wallet that returns an error has changed
    nothing: no balance, no sequence number, no task for the ledger,
    no update for the user, and nothing of the agent in memory.  (With
    [atomic] spelled out: from [cmd w = (Fail e, w')] follows
    [w' = w].) *)
Theorem wallet_commands_fail_without_trace
    (assetCode issuer dest : string) (amount : Z) :
  atomic (AddAsset assetCode issuer)
  /\ atomic (RemoveAsset assetCode issuer)
  /\ atomic (DoWalletPay dest amount assetCode issuer)
  /\ atomic (DoCloseAccount dest).
Proof.
  split; [apply AddAsset_atomic|].
  split; [apply RemoveAsset_atomic|].
  split; [apply DoWalletPay_atomic | apply DoCloseAccount_atomic].
Qed.

End CommandsAtomic.

(** Closed facts about the example worlds are settled by evaluation. *)
Ltac evaluated :=
  vm_compute; repeat split; first [reflexivity | discriminate].

(** Alice cannot pay bob more than she has. *)
Lemma wallet_commands_fail_without_trace_witness :
  exists e,
    @DoWalletPay testnet testBuilders "GBOB" 1000000000000 "" "" aliceFunded
    = (Fail e, aliceFunded).
Proof.
  destruct (@DoWalletPay testnet testBuilders "GBOB" 1000000000000 "" "" aliceFunded)
    as [[[]|e|msg] w'] eqn:Hrun.
  - vm_compute in Hrun. discriminate.
  - exists e.
    destruct (@wallet_commands_fail_without_trace testnet testBuilders
                "" "" "GBOB" 1000000000000) as (_ & _ & Hpay & _).
    rewrite (Hpay _ _ _ Hrun). reflexivity.
  - vm_compute in Hrun. discriminate.
Defined.
(** ** Arithmetic in range *)

Lemma wrap_i64_small (z : Z) : int64 z -> wrap_i64 z = z.
Proof. unfold int64, wrap_i64. intros Hz. rewrite Z.mod_small; lia. Qed.

Lemma wrap_u64_small (z : Z) : 0 <= z < 2 ^ 64 -> wrap_u64 z = z.
Proof. unfold wrap_u64. intros Hz. apply Z.mod_small, Hz. Qed.

(** ** Payments from the wallet *)

Section Pay.
Context `{Externals} `{Builders}.

(** A payment in lumens needs a balance above amount plus host fee:
    a balance that just covers both is refused, and nothing changes.
    Otherwise the wallet is debited by amount and fee at once, before
    the ledger has seen the payment, and stays positive; the sequence
    number moves on by one, the signed transaction joins the tasks and
    one update of type [account] tells the user the pending
    sequence number. *)
Theorem DoWalletPay_native
    (dest : string) (amount : Z) (w : World) (btx env : string) :
  let wal := walletOf w in
  let fee := hostFeerateOf w in
  dest <> "" -> 0 < amount -> 0 <= fee -> amount + fee < 2 ^ 63 ->
  db.Ready (db.Agent_ (store w)) = true ->
  int64 (fsm.NativeBalance wal) -> 0 <= fsm.Seqnum wal < 2 ^ 63 - 1 ->
  paymentTx TestNetworkPassphrase (primaryAcct w) (fsm.Seqnum wal + 1) dest None
    (HorizonString amount) = inr btx ->
  Sign (seed (g w)) btx = inr env ->
  if fsm.NativeBalance wal <=? amount + fee
  then exists e,
         DoWalletPay dest amount "" "" w = (Fail e, w)
         /\ Root e = Sentinel errInsufficientBalance
  else exists w' u,
         DoWalletPay dest amount "" "" w = (Ok tt, w')
         /\ walletOf w'
            = withSeqnum (fsm.Seqnum wal + 1)
                (withNativeBalance (fsm.NativeBalance wal - amount - fee) wal)
         /\ 0 < fsm.NativeBalance (walletOf w')
         /\ db.Tasks (store w') = (db.Tasks (store w) ++ [TbTx walletBucket env])%list
         /\ updates (store w') = (updates (store w) ++ [u])%list
         /\ Type_ u = update.AccountType
         /\ PendingSequence u = FormatInt (fsm.Seqnum wal + 1).
Proof.
  intros wal fee Hdest Hamt Hfee Hsum Hready Hbal Hseq Hbuild Hsign.
  subst wal fee. unfold walletOf, hostFeerateOf, primaryAcct in *.
  unfold DoWalletPay.
  apply String.eqb_neq in Hdest. rewrite Hdest.
  assert (Hz : (amount =? 0) = false) by (apply Z.eqb_neq; lia). rewrite Hz.
  cbn [String.eqb negb andb]. steps.
  unfold int64 in *.
  destruct (Z.leb_spec (fsm.NativeBalance (db.Wallet (db.Agent_ (store w))))
              (amount + db.HostFeerate (db.Config_ (db.Agent_ (store w))))) as [Hle|Hgt].
  - eexists. split.
    + etransitivity; [apply db_Update_eq_Fail|].
      * steps. unfold payNative.
        rewrite (wrap_i64_small amount) by (unfold int64; lia).
        rewrite (wrap_i64_small (amount + _)) by (unfold int64; lia).
        apply Z.leb_le in Hle. rewrite Hle. steps. reflexivity.
      * destruct w; reflexivity.
    + reflexivity.
  - do 2 eexists. split.
    + etransitivity; [apply db_Update_eq_Ok|reflexivity].
      steps. unfold payNative.
      rewrite (wrap_i64_small amount) by (unfold int64; lia).
      rewrite (wrap_i64_small (amount + _)) by (unfold int64; lia).
      apply Z.leb_gt in Hgt. rewrite Hgt. steps.
      cbn [fsm.Seqnum withSeqnum withNativeBalance fst snd].
      rewrite (wrap_i64_small (_ + 1)) by (unfold int64; lia).
      rewrite wrap_u64_small by lia.
      steps.
      unfold putUpdate, OnCommit, addTxTask, tbAddTx. steps. reflexivity.
    + cbn.
      rewrite wrap_i64_small by (unfold int64; lia).
      rewrite Z.sub_add_distr.
      repeat split; try reflexivity. lia.
Qed.
End Pay.

(** Alice, funded by the faucet, pays bob 1000 stroops. *)
Lemma DoWalletPay_native_witness :
  exists w',
    @DoWalletPay testnet testBuilders "GBOB" 1000 "" "" aliceFunded = (Ok tt, w')
    /\ fsm.NativeBalance (walletOf aliceFunded) = 99989999900
    /\ fsm.NativeBalance (walletOf w') = 99989998800
    /\ fsm.Seqnum (walletOf w') = fsm.Seqnum (walletOf aliceFunded) + 1.
Proof.
  pose proof (@DoWalletPay_native testnet testBuilders "GBOB" 1000 aliceFunded
                "pay GBOB 1000" "pay GBOB 1000") as Hpay.
  cbv zeta in Hpay.
  specialize (Hpay ltac:(discriminate) ltac:(evaluated) ltac:(evaluated) ltac:(evaluated)
                   ltac:(evaluated) ltac:(evaluated) ltac:(evaluated)
                   ltac:(evaluated) ltac:(evaluated)).
  change (fsm.NativeBalance (walletOf aliceFunded) <=? 1000 + hostFeerateOf aliceFunded)
    with false in Hpay.
  destruct Hpay as (w' & u & Hrun & Hwal & _).
  exists w'. split; [exact Hrun|]. rewrite Hwal. evaluated.
Defined.

(** A payment in an asset the agent does not issue needs an
    authorized trustline that holds more than the amount. *)
Theorem DoWalletPay_asset_needs_trustline `{Externals} `{Builders}
    (dest : string) (amount : Z) (assetCode issuer : string) (asset : xdr.Asset)
    (w : World) :
  dest <> "" -> amount <> 0 -> assetCode <> "" -> issuer <> "" ->
  db.Ready (db.Agent_ (store w)) = true ->
  hostFeerateOf w < fsm.NativeBalance (walletOf w) ->
  SetAddress issuer = None -> SetCredit assetCode issuer = inr asset ->
  issuer <> primaryAcct w ->
  match balancesGet (AssetString asset) (walletOf w) with
  | None =>
      exists e, DoWalletPay dest amount assetCode issuer w = (Fail e, w)
                /\ Root e = Sentinel errInvalidAsset
  | Some held =>
      (fsm.Amount held <= amount ->
       exists e, DoWalletPay dest amount assetCode issuer w = (Fail e, w)
                 /\ Root e = Sentinel errInsufficientBalance)
      /\ (amount < fsm.Amount held -> fsm.Authorized held = false ->
          DoWalletPay dest amount assetCode issuer w
          = (Fail (New ("unauthorized trustline for " +:+ AssetString asset)), w))
  end.
Proof.
  intros Hdest Hamt Hcode Hissuer Hready Hfee Haddr Hcredit Hown.
  unfold walletOf, hostFeerateOf, primaryAcct in *.
  apply String.eqb_neq in Hdest, Hcode, Hissuer, Hown.
  apply Z.eqb_neq in Hamt. apply Z.leb_gt in Hfee.
  assert (Hrun : forall e,
    payAsset amount assetCode issuer (db.PrimaryAcct (db.Agent_ (store w)))
      (db.HostFeerate (db.Config_ (db.Agent_ (store w)))) (db.Wallet (db.Agent_ (store w)))
      {| root := store w; mem := g w; hooks := [] |}
    = (Fail e, {| root := store w; mem := g w; hooks := [] |}) ->
    DoWalletPay dest amount assetCode issuer w = (Fail e, w)).
  { intros e Hpay. unfold DoWalletPay. rewrite Hdest, Hamt, Hcode, Hissuer. cbn [negb andb].
    steps.
    etransitivity;
      [ apply db_Update_eq_Fail; steps; cbn [negb andb]; steps; reflexivity
      | destruct w; reflexivity ]. }
  destruct (balancesGet _ _) as [held|] eqn:Hheld.
  - split.
    + intros Hle. apply Z.leb_le in Hle. eexists. split.
      * apply Hrun. unfold payAsset. steps. reflexivity.
      * reflexivity.
    + intros Hgt Hauth. apply Z.leb_gt in Hgt.
      apply Hrun. unfold payAsset. steps. cbn [negb]. steps. reflexivity.
  - eexists. split.
    + apply Hrun. unfold payAsset. steps. reflexivity.
    + reflexivity.
Qed.

(** Alice holds no dollars of the issuer. *)
Lemma DoWalletPay_asset_needs_trustline_witness :
  exists e,
    @DoWalletPay testnet testBuilders "GBOB" 5 "USD" "GISSUER" aliceFunded
    = (Fail e, aliceFunded)
    /\ Root e = Sentinel errInvalidAsset.
Proof.
  pose proof (@DoWalletPay_asset_needs_trustline testnet testBuilders
                "GBOB" 5 "USD" "GISSUER" (xdr.AssetAlphaNum4 "USD" "GISSUER") aliceFunded
                ltac:(discriminate) ltac:(discriminate) ltac:(discriminate)
                ltac:(discriminate) ltac:(evaluated) ltac:(evaluated)
                ltac:(reflexivity) ltac:(reflexivity) ltac:(discriminate)) as Hpay.
  assert (Hnone : balancesGet (@AssetString testnet (xdr.AssetAlphaNum4 "USD" "GISSUER"))
                    (walletOf aliceFunded) = None) by (vm_compute; reflexivity).
  rewrite Hnone in Hpay. exact Hpay.
Defined.

(** ** Trustlines *)

Section Assets.
Context `{Externals} `{Builders}.

(** [AddAsset] moves the base reserve from the balance to the reserve
    and pays the fee; the new trustline is pending. *)
Theorem AddAsset_reserves_and_marks_pending
    (assetCode issuer : string) (asset : xdr.Asset) (held : gmap string fsm.Balance)
    (btx env : string) (w : World) :
  let wal := walletOf w in
  let fee := hostFeerateOf w in
  assetCode <> "" -> issuer <> "" ->
  db.Ready (db.Agent_ (store w)) = true ->
  0 <= fee -> 0 <= baseReserve -> fee + baseReserve < 2 ^ 63 ->
  int64 (fsm.NativeBalance wal) -> int64 (fsm.Reserve wal) ->
  int64 (fsm.Reserve wal + baseReserve) ->
  0 <= fsm.Seqnum wal < 2 ^ 63 - 1 ->
  SetAddress issuer = None -> SetCredit assetCode issuer = inr asset ->
  fsm.Balances wal = Some held ->
  trustTx TestNetworkPassphrase (fsm.Address wal) (fsm.Seqnum wal + 1) assetCode issuer
  = inr btx ->
  Sign (seed (g w)) btx = inr env ->
  if fsm.NativeBalance wal <? fee + baseReserve
  then exists e,
         AddAsset assetCode issuer w = (Fail e, w)
         /\ Root e = Sentinel errInsufficientBalance
  else exists w' u,
         AddAsset assetCode issuer w = (Ok tt, w')
         /\ fsm.Balances (walletOf w')
            = Some (<[AssetString asset :=
                        {| fsm.Asset := asset; fsm.Amount := 0;
                           fsm.Pending := true; fsm.Authorized := false |}]> held)
         /\ fsm.NativeBalance (walletOf w') = fsm.NativeBalance wal - baseReserve - fee
         /\ 0 <= fsm.NativeBalance (walletOf w')
         /\ fsm.Reserve (walletOf w') = fsm.Reserve wal + baseReserve
         /\ fsm.Seqnum (walletOf w') = fsm.Seqnum wal + 1
         /\ db.Tasks (store w') = (db.Tasks (store w) ++ [TbTx walletBucket env])%list
         /\ updates (store w') = (updates (store w) ++ [u])%list
         /\ Type_ u = update.AccountType
         /\ PendingSequence u = FormatInt (fsm.Seqnum wal + 1).
Proof.
  intros wal fee Hcode Hissuer Hready Hfee Hbase Hsum Hbal Hres Hres' Hseq
         Haddr Hcredit Hheld Hbuild Hsign.
  subst wal fee. unfold walletOf, hostFeerateOf in *.
  apply String.eqb_neq in Hcode, Hissuer.
  unfold AddAsset. rewrite Hcode, Hissuer. steps.
  destruct (Z.ltb_spec (fsm.NativeBalance (db.Wallet (db.Agent_ (store w))))
              (db.HostFeerate (db.Config_ (db.Agent_ (store w))) + baseReserve)) as [Hlt|Hge].
  - eexists. split.
    + etransitivity;
        [ apply db_Update_eq_Fail; steps;
          rewrite (wrap_i64_small (_ + baseReserve)) by (unfold int64; lia);
          apply Z.ltb_lt in Hlt; rewrite Hlt; steps; reflexivity
        | destruct w; reflexivity ].
    + reflexivity.
  - do 2 eexists. split.
    + etransitivity; [apply db_Update_eq_Ok|reflexivity].
      steps.
      rewrite (wrap_i64_small (_ + baseReserve)) by (unfold int64; lia).
      apply Z.ltb_ge in Hge. rewrite Hge. steps.
      unfold balancesPut. rewrite Hheld. steps.
      cbn [fsm.Seqnum fsm.NativeBalance fsm.Reserve fsm.Address fsm.Balances
           withSeqnum withNativeBalance withReserve withBalances].
      rewrite (wrap_i64_small (_ + 1)) by (unfold int64; lia).
      rewrite wrap_u64_small by lia.
      steps. unfold putUpdate, OnCommit, addTxTask, tbAddTx. steps. reflexivity.
    + cbn. unfold int64 in *.
      rewrite (wrap_i64_small (baseReserve + _)) by (unfold int64; lia).
      rewrite !wrap_i64_small by (unfold int64; lia).
      repeat split; try reflexivity; lia.
Qed.

(** [RemoveAsset] takes a trustline that holds nothing; it pays the
    fee and marks the trustline unauthorized, and leaves the entry
    and the reserve in place. *)
Theorem RemoveAsset_needs_empty_trustline
    (assetCode issuer : string) (asset : xdr.Asset) (held : gmap string fsm.Balance)
    (btx env : string) (w : World) :
  let wal := walletOf w in
  let fee := hostFeerateOf w in
  assetCode <> "" -> issuer <> "" ->
  db.Ready (db.Agent_ (store w)) = true ->
  0 <= fee <= fsm.NativeBalance wal -> int64 (fsm.NativeBalance wal) ->
  0 <= fsm.Seqnum wal < 2 ^ 63 - 1 ->
  SetAddress issuer = None -> SetCredit assetCode issuer = inr asset ->
  fsm.Balances wal = Some held ->
  removeTrustTx TestNetworkPassphrase (fsm.Address wal) (fsm.Seqnum wal + 1) assetCode issuer
  = inr btx ->
  Sign (seed (g w)) btx = inr env ->
  match held !! AssetString asset with
  | None => RemoveAsset assetCode issuer w = (Fail (Sentinel errInvalidAsset), w)
  | Some line =>
      if fsm.Amount line =? 0
      then exists w' u,
             RemoveAsset assetCode issuer w = (Ok tt, w')
             /\ fsm.Balances (walletOf w')
                = Some (<[AssetString asset := withAuthorized false line]> held)
             /\ fsm.NativeBalance (walletOf w') = fsm.NativeBalance wal - fee
             /\ fsm.Reserve (walletOf w') = fsm.Reserve wal
             /\ fsm.Seqnum (walletOf w') = fsm.Seqnum wal + 1
             /\ db.Tasks (store w') = (db.Tasks (store w) ++ [TbTx walletBucket env])%list
             /\ updates (store w') = (updates (store w) ++ [u])%list
             /\ Type_ u = update.AccountType
      else RemoveAsset assetCode issuer w
           = (Fail (New "cannot remove trustline with nonzero balance"), w)
  end.
Proof.
  intros wal fee Hcode Hissuer Hready Hfee Hbal Hseq Haddr Hcredit Hheld Hbuild Hsign.
  subst wal fee. unfold walletOf, hostFeerateOf in *.
  apply String.eqb_neq in Hcode, Hissuer.
  assert (Hpays : (fsm.NativeBalance (db.Wallet (db.Agent_ (store w)))
                   <? db.HostFeerate (db.Config_ (db.Agent_ (store w)))) = false)
    by (apply Z.ltb_ge; lia).
  unfold RemoveAsset. rewrite Hcode, Hissuer. steps.
  destruct (held !! AssetString asset) as [line|] eqn:Hline.
  - destruct (fsm.Amount line =? 0) eqn:Hzero.
    + do 2 eexists. split.
      * etransitivity; [apply db_Update_eq_Ok|reflexivity].
        steps. unfold balancesGet. rewrite Hheld, Hline. steps. cbn [negb]. steps.
        unfold balancesPut. rewrite Hheld. steps.
        cbn [fsm.Seqnum fsm.NativeBalance fsm.Reserve fsm.Address fsm.Balances
             withSeqnum withNativeBalance withReserve withBalances].
        rewrite (wrap_i64_small (_ + 1)) by (unfold int64; lia).
        rewrite wrap_u64_small by lia.
        steps. unfold putUpdate, OnCommit, addTxTask, tbAddTx. steps. reflexivity.
      * cbn. unfold int64 in *.
        rewrite !wrap_i64_small by (unfold int64; lia).
        repeat split; reflexivity.
    + etransitivity;
        [ apply db_Update_eq_Fail; steps; unfold balancesGet; rewrite Hheld, Hline;
          steps; cbn [negb]; steps; reflexivity
        | destruct w; reflexivity ].
  - etransitivity;
      [ apply db_Update_eq_Fail; steps; unfold balancesGet; rewrite Hheld, Hline;
        steps; reflexivity
      | destruct w; reflexivity ].
Qed.

End Assets.

(** Alice adds the dollars of the issuer, and removes them again. *)
Lemma AddAsset_reserves_and_marks_pending_witness :
  exists w',
    @AddAsset testnet testBuilders "USD" "GISSUER" aliceFunded = (Ok tt, w')
    /\ fsm.NativeBalance (walletOf aliceFunded) = 99989999900
    /\ fsm.NativeBalance (walletOf w') = 99984999800
    /\ fsm.Reserve (walletOf w') = 15000000.
Proof.
  pose proof (@AddAsset_reserves_and_marks_pending testnet testBuilders
                "USD" "GISSUER" dollars ∅ "trust USD/GISSUER" "trust USD/GISSUER" aliceFunded)
    as Hadd.
  cbv zeta in Hadd.
  specialize (Hadd ltac:(discriminate) ltac:(discriminate) ltac:(evaluated)
                   ltac:(evaluated) ltac:(evaluated) ltac:(evaluated) ltac:(evaluated)
                   ltac:(evaluated) ltac:(evaluated) ltac:(evaluated)
                   ltac:(reflexivity) ltac:(reflexivity) ltac:(vm_compute; reflexivity)
                   ltac:(evaluated) ltac:(evaluated)).
  change (fsm.NativeBalance (walletOf aliceFunded)
          <? hostFeerateOf aliceFunded + @baseReserve testnet) with false in Hadd.
  destruct Hadd as (w' & u & Hrun & _ & Hbal & _ & Hres & _).
  exists w'. split; [exact Hrun|]. rewrite Hbal, Hres. evaluated.
Defined.

Lemma RemoveAsset_needs_empty_trustline_witness :
  exists w',
    @RemoveAsset testnet testBuilders "USD" "GISSUER" aliceTrusting = (Ok tt, w')
    /\ fsm.NativeBalance (walletOf w') = 99984999700
    /\ (fsm.Authorized <$> balancesGet (@AssetString testnet dollars) (walletOf w'))
       = Some false.
Proof.
  pose proof (@RemoveAsset_needs_empty_trustline testnet testBuilders
                "USD" "GISSUER" dollars
                {[ @AssetString testnet dollars :=
                     {| fsm.Asset := dollars; fsm.Amount := 0;
                        fsm.Pending := true; fsm.Authorized := false |} ]}
                "remove trust USD/GISSUER" "remove trust USD/GISSUER" aliceTrusting)
    as Hrem.
  cbv zeta in Hrem.
  specialize (Hrem ltac:(discriminate) ltac:(discriminate) ltac:(evaluated)
                   ltac:(evaluated) ltac:(evaluated) ltac:(evaluated)
                   ltac:(reflexivity) ltac:(reflexivity) ltac:(vm_compute; reflexivity)
                   ltac:(evaluated) ltac:(evaluated)).
  rewrite lookup_singleton_eq in Hrem. cbn [fsm.Amount Z.eqb] in Hrem.
  destruct Hrem as (w' & u & Hrun & Hheld & Hbal & _).
  exists w'. split; [exact Hrun|]. split.
  - rewrite Hbal. evaluated.
  - unfold balancesGet. rewrite Hheld. rewrite lookup_insert_eq. reflexivity.
Defined.

(** ** What the wallet watcher writes *)

Section Watcher.
Context `{Externals}.

(** Lumens that arrive, by payment or by the merge of another
    account, are added to the balance; the rest of the wallet stays,
    but for the cursor. *)
Theorem incoming_lumens_are_credited
    (acctID : string) (htx : worizon.Transaction) (tx : worizon.Tx)
    (index : Z) (op : xdr.Operation) (amount : Z) (s : TxSt) :
  let wal := db.Wallet (db.Agent_ (root s)) in
  xdr.Body op = xdr.Payment {| xdr.PayDestination := acctID;
                               xdr.PayAsset := xdr.AssetNative;
                               xdr.Amount := amount |}
  \/ (xdr.Body op = xdr.AccountMerge acctID
      /\ xdr.Address (xdr.SourceAccount op) <> acctID
      /\ xdr.Results (worizon.Result tx) !! Z.to_nat index = Some (Some amount)) ->
  int64 (fsm.NativeBalance wal + amount) ->
  exists s' u,
    walletOp acctID htx tx index op s = (Ok tt, s')
    /\ db.Wallet (db.Agent_ (root s'))
       = withCursor (worizon.PT htx)
           (withNativeBalance (fsm.NativeBalance wal + amount) wal)
    /\ updates (root s') = (updates (root s) ++ [u])%list
    /\ Type_ u = update.AccountType
    /\ (update.Balance <$> Account u) = Some (wrap_u64 (fsm.NativeBalance wal + amount))
    /\ db.Tasks (root s') = db.Tasks (root s)
    /\ mem s' = mem s.
Proof.
  intros wal Hop Hfit. subst wal. unfold walletOp.
  destruct Hop as [Hpay|(Hmerge & Hsrc & Hres)].
  - rewrite Hpay. unfold opPayment. cbn [xdr.PayDestination xdr.PayAsset xdr.Amount].
    rewrite String.eqb_refl. cbn [negb]. unfold paymentAsset. steps.
    cbn [xdr.isNative negb]. steps. unfold putUpdate, OnCommit. steps.
    rewrite wrap_i64_small by exact Hfit.
    do 2 eexists. split; [reflexivity|]. cbn. repeat split; reflexivity.
  - rewrite Hmerge. unfold opAccountMerge.
    apply String.eqb_neq in Hsrc. rewrite Hsrc, String.eqb_refl. steps.
    unfold putUpdate, OnCommit. steps.
    rewrite wrap_i64_small by exact Hfit.
    do 2 eexists. split; [reflexivity|]. cbn. repeat split; reflexivity.
Qed.

(** A payment in another asset, and the authorization of a trustline,
    write the zero balance for the asset: what the wallet held of it
    and what the operation carries is lost. *)
Theorem asset_operations_write_zero_balance
    (acctID : string) (htx : worizon.Transaction) (tx : worizon.Tx)
    (index : Z) (op : xdr.Operation) (code issuer : string) (asset : xdr.Asset)
    (held : gmap string fsm.Balance) (s : TxSt) :
  let wal := db.Wallet (db.Agent_ (root s)) in
  (exists amount,
     (xdr.Body op = xdr.Payment {| xdr.PayDestination := acctID;
                                   xdr.PayAsset := xdr.AssetAlphaNum4 code issuer;
                                   xdr.Amount := amount |}
      \/ xdr.Body op = xdr.Payment {| xdr.PayDestination := acctID;
                                      xdr.PayAsset := xdr.AssetAlphaNum12 code issuer;
                                      xdr.Amount := amount |})
     /\ issuer <> acctID)
  \/ (exists authorize,
        (xdr.Body op = xdr.AllowTrust {| xdr.Trustor := acctID;
                                         xdr.TrustAsset := xdr.AllowCode4 code;
                                         xdr.Authorize := authorize |}
         \/ xdr.Body op = xdr.AllowTrust {| xdr.Trustor := acctID;
                                            xdr.TrustAsset := xdr.AllowCode12 code;
                                            xdr.Authorize := authorize |})
        /\ xdr.SourceAccount op = Some issuer) ->
  SetCredit code issuer = inr asset -> xdr.isNative asset = false ->
  fsm.Balances wal = Some held ->
  exists s',
    walletOp acctID htx tx index op s = (Ok tt, s')
    /\ fsm.Balances (db.Wallet (db.Agent_ (root s')))
       = Some (<[AssetString asset := fsm.zeroBalance]> held)
    /\ fsm.NativeBalance (db.Wallet (db.Agent_ (root s'))) = fsm.NativeBalance wal.
Proof.
  intros wal Hop Hcredit Hnative Hheld. subst wal. unfold walletOp.
  destruct Hop as [(amount & Hpay & Hissuer)|(authorize & Hallow & Hsrc)].
  - apply String.eqb_neq in Hissuer.
    destruct Hpay as [Hpay|Hpay]; rewrite Hpay; unfold opPayment;
      cbn [xdr.PayDestination xdr.PayAsset xdr.Amount];
      rewrite String.eqb_refl; cbn [negb]; unfold paymentAsset; steps;
      cbn [negb]; unfold balancesPut; rewrite Hheld; steps;
      unfold putUpdate, OnCommit; steps;
      (eexists; split; [reflexivity|]; cbn; split; reflexivity).
  - destruct Hallow as [Hallow|Hallow]; rewrite Hallow; unfold opAllowTrust;
      cbn [xdr.Trustor xdr.TrustAsset xdr.Authorize];
      rewrite String.eqb_refl; cbn [negb]; rewrite Hsrc; steps;
      unfold balancesPut; rewrite Hheld; steps;
      unfold putUpdate, OnCommit; steps;
      (eexists; split; [reflexivity|]; cbn; split; reflexivity).
Qed.

(** The wallet's address, as [ConfigInit] writes it, holds a star. *)
Lemma hasStar_address (user host : string) : hasStar (user +:+ "*" +:+ host) = true.
Proof.
  unfold hasStar. change ("*" +:+ host) with (String "*"%char host).
  induction user as [|a user IH]; simpl.
  - reflexivity.
  - rewrite IH. apply orb_true_r.
Qed.

(** The watcher compares the source of a [ChangeTrust] with
    [w.Address], which [ConfigInit] sets to the federation address
    [Username*hostURL].  An account ID of the ledger holds no star, so
    the two never agree: the operation is skipped, whatever its limit,
    and nothing is written.  A trustline that [AddAsset] has marked
    pending stays pending, and the reserve that [RemoveAsset] has left
    in place stays reserved. *)
Theorem ChangeTrust_of_an_account_is_skipped
    (acctID : string) (htx : worizon.Transaction) (tx : worizon.Tx)
    (index : Z) (op : xdr.Operation) (changeTrustOp : xdr.ChangeTrustOp)
    (user host : string) (s : TxSt) :
  xdr.Body op = xdr.ChangeTrust changeTrustOp ->
  fsm.Address (db.Wallet (db.Agent_ (root s))) = user +:+ "*" +:+ host ->
  hasStar (xdr.Address (xdr.SourceAccount op)) = false ->
  walletOp acctID htx tx index op s = (Ok tt, s).
Proof.
  intros Hbody Haddr Hstar.
  unfold walletOp. rewrite Hbody. unfold opChangeTrust, agent. step.
  replace (String.eqb _ _) with false; [reflexivity|].
  symmetry. apply String.eqb_neq. intros Heq.
  rewrite Heq, Haddr, hasStar_address in Hstar. discriminate.
Qed.

(** The creation of the account on the ledger funds the wallet: the
    balance is the starting balance less the fee and two base
    reserves, the sequence number is the ledger number shifted by 32
    bits, and from then on the agent counts as funded.  A public agent
    also queues the transaction that sets its home domain, with a
    sequence number the wallet does not record. *)
Theorem CreateAccount_funds_the_wallet
    (acctID : string) (htx : worizon.Transaction) (tx : worizon.Tx)
    (index : Z) (op : xdr.Operation) (starting : Z) (s : TxSt) :
  let a := db.Agent_ (root s) in
  let wal := db.Wallet a in
  let fee := db.HostFeerate (db.Config_ a) in
  let funded :=
    withCursor (worizon.PT htx)
      (withSeqnum (worizon.Ledger htx * 2 ^ 32)
         (withReserve (2 * baseReserve)
            (withNativeBalance (starting - fee - 2 * baseReserve) wal))) in
  xdr.Body op = xdr.CreateAccount {| xdr.Destination := acctID;
                                     xdr.StartingBalance := starting |} ->
  0 < worizon.Ledger htx < 2 ^ 31 ->
  int64 (starting - fee - 2 * baseReserve) -> int64 (2 * baseReserve) ->
  (db.Public (db.Config_ a) = false ->
   exists s',
     walletOp acctID htx tx index op s = (Ok tt, s')
     /\ db.Wallet (db.Agent_ (root s')) = funded
     /\ isReadyFunded (db.Agent_ (root s')) = true
     /\ db.Tasks (root s') = db.Tasks (root s))
  /\ (db.Public (db.Config_ a) = true ->
      forall btx env,
        0 <= fee < 2 ^ 63 ->
        homeDomainTx TestNetworkPassphrase fee acctID (worizon.Ledger htx * 2 ^ 32 + 1)
          (homeDomain (fsm.Address wal)) = inr btx ->
        Sign (seed (mem s)) btx = inr env ->
        exists s',
          walletOp acctID htx tx index op s = (Ok tt, s')
          /\ db.Wallet (db.Agent_ (root s')) = funded
          /\ isReadyFunded (db.Agent_ (root s')) = true
          /\ db.Tasks (root s') = (db.Tasks (root s) ++ [TbTx walletBucket env])%list).
Proof.
  intros a wal fee funded Hop Hledger Hbal Hres. subst a wal fee funded.
  unfold walletOp. rewrite Hop. unfold opCreateAccount.
  cbn [xdr.Destination xdr.StartingBalance].
  assert (Hseq : wrap_i64 (wrap_u64 (wrap_u64 (worizon.Ledger htx) * 2 ^ 32))
                 = worizon.Ledger htx * 2 ^ 32).
  { rewrite (wrap_u64_small (worizon.Ledger htx)) by lia.
    rewrite wrap_u64_small by lia. apply wrap_i64_small. unfold int64. lia. }
  split.
  - intros Hpublic. step.
    destruct (bool_decide (acctID ∈ acctsReady (mem s))); step;
      rewrite String.eqb_refl; cbn [negb]; steps;
      rewrite Hseq, (wrap_i64_small _ Hbal), (wrap_i64_small _ Hres);
      unfold putUpdate, OnCommit; steps;
      cbn [db.Agent_ db.Config_ db.setUpdates db.PutWallet]; rewrite Hpublic;
      (eexists; split; [reflexivity|]; unfold isReadyFunded; cbn;
       repeat split; try reflexivity; apply Z.ltb_lt; lia).
  - intros Hpublic btx env Hfee Hbuild Hsign. step.
    destruct (bool_decide (acctID ∈ acctsReady (mem s))); step;
      rewrite String.eqb_refl; cbn [negb]; steps;
      rewrite Hseq, (wrap_i64_small _ Hbal), (wrap_i64_small _ Hres);
      unfold putUpdate, OnCommit; steps;
      cbn [db.Agent_ db.Config_ db.setUpdates db.PutWallet]; rewrite Hpublic; step;
      cbn [fsm.Seqnum fsm.Address withSeqnum withCursor withReserve withNativeBalance
           mem];
      rewrite (wrap_i64_small (_ + 1)) by (unfold int64; lia);
      rewrite (wrap_u64_small (db.HostFeerate _)) by (unfold int64 in *; lia);
      rewrite wrap_u64_small by lia;
      rewrite Hbuild; steps; cbn [seed setAcctsReady]; steps;
      unfold ignoreErr, addTxTask, tbAddTx, modify;
      (eexists; split; [reflexivity|]; unfold isReadyFunded; cbn;
       repeat split; try reflexivity; apply Z.ltb_lt; lia).
Qed.

End Watcher.

(** Bob pays alice 500 stroops. *)
Lemma incoming_lumens_are_credited_witness :
  exists s',
    @walletOp testnet "GALICE" incomingTx (txOf "GBOB" incomingLumens None) 0
      (onlyOp "GBOB" incomingLumens) (openTx aliceFunded) = (Ok tt, s')
    /\ fsm.NativeBalance (walletOf aliceFunded) = 99989999900
    /\ fsm.NativeBalance (db.Wallet (db.Agent_ (root s'))) = 99990000400
    /\ fsm.Cursor (db.Wallet (db.Agent_ (root s'))) = "44".
Proof.
  pose proof (@incoming_lumens_are_credited testnet "GALICE" incomingTx
                (txOf "GBOB" incomingLumens None) 0 (onlyOp "GBOB" incomingLumens) 500
                (openTx aliceFunded)) as Hin.
  cbv zeta in Hin.
  specialize (Hin ltac:(left; reflexivity) ltac:(evaluated)).
  destruct Hin as (s' & u & Hrun & Hwal & _).
  exists s'. split; [exact Hrun|]. rewrite Hwal. evaluated.
Defined.

(** The issuer authorizes the trustline alice has asked for: the entry
    that is written is not authorized. *)
Lemma asset_operations_write_zero_balance_witness :
  exists s',
    @walletOp testnet "GALICE" allowTrustTx
      (txOf "GISSUER" (xdr.AllowTrust {| xdr.Trustor := "GALICE";
                                         xdr.TrustAsset := xdr.AllowCode4 "USD";
                                         xdr.Authorize := true |}) None) 0
      (onlyOp "GISSUER" (xdr.AllowTrust {| xdr.Trustor := "GALICE";
                                           xdr.TrustAsset := xdr.AllowCode4 "USD";
                                           xdr.Authorize := true |}))
      (openTx aliceTrusting) = (Ok tt, s')
    /\ balancesGet (@AssetString testnet dollars) (db.Wallet (db.Agent_ (root s')))
       = Some fsm.zeroBalance
    /\ fsm.Authorized fsm.zeroBalance = false.
Proof.
  pose proof (@asset_operations_write_zero_balance testnet "GALICE" allowTrustTx
                (txOf "GISSUER" (xdr.AllowTrust {| xdr.Trustor := "GALICE";
                                                   xdr.TrustAsset := xdr.AllowCode4 "USD";
                                                   xdr.Authorize := true |}) None) 0
                (onlyOp "GISSUER" (xdr.AllowTrust {| xdr.Trustor := "GALICE";
                                                     xdr.TrustAsset := xdr.AllowCode4 "USD";
                                                     xdr.Authorize := true |}))
                "USD" "GISSUER" dollars
                {[ @AssetString testnet dollars :=
                     {| fsm.Asset := dollars; fsm.Amount := 0;
                        fsm.Pending := true; fsm.Authorized := false |} ]}
                (openTx aliceTrusting)) as Hop.
  cbv zeta in Hop.
  specialize (Hop ltac:(right; exists true; split; [left|]; reflexivity)
                  ltac:(reflexivity) ltac:(reflexivity) ltac:(vm_compute; reflexivity)).
  destruct Hop as (s' & Hrun & Hbal & _).
  exists s'. split; [exact Hrun|]. split; [|reflexivity].
  unfold balancesGet. rewrite Hbal. rewrite lookup_insert_eq. reflexivity.
Defined.

(** The ledger confirms the trustline alice has asked for; in her
    wallet it stays pending. *)
Lemma ChangeTrust_of_an_account_is_skipped_witness :
  @walletOp testnet "GALICE" trustChangeTx (txOf "GALICE" trustOp None) 0
    (onlyOp "GALICE" trustOp) (openTx aliceTrusting)
  = (Ok tt, openTx aliceTrusting)
  /\ balancesGet (@AssetString testnet dollars) (walletOf aliceTrusting)
     = Some {| fsm.Asset := dollars; fsm.Amount := 0;
               fsm.Pending := true; fsm.Authorized := false |}.
Proof.
  split; [|reflexivity].
  apply (@ChangeTrust_of_an_account_is_skipped testnet "GALICE" trustChangeTx
           (txOf "GALICE" trustOp None) 0 (onlyOp "GALICE" trustOp)
           {| xdr.Line := dollars; xdr.Limit := 1000 |} "alice" "a.example"
           (openTx aliceTrusting));
    reflexivity.
Defined.

(** The faucet creates the account of alice, who has just configured
    her agent. *)
Lemma CreateAccount_funds_the_wallet_witness :
  exists s',
    @walletOp testnet "GALICE" fundingTx
      (txOf "GFAUCET" (xdr.CreateAccount {| xdr.Destination := "GALICE";
                                            xdr.StartingBalance := 100000000000 |}) None) 0
      (onlyOp "GFAUCET" (xdr.CreateAccount {| xdr.Destination := "GALICE";
                                              xdr.StartingBalance := 100000000000 |}))
      (openTx aliceWorld) = (Ok tt, s')
    /\ fsm.NativeBalance (db.Wallet (db.Agent_ (root s'))) = 99989999900
    /\ fsm.Reserve (db.Wallet (db.Agent_ (root s'))) = 10000000
    /\ fsm.Seqnum (db.Wallet (db.Agent_ (root s'))) = 30064771072.
Proof.
  pose proof (@CreateAccount_funds_the_wallet testnet "GALICE" fundingTx
                (txOf "GFAUCET" (xdr.CreateAccount {| xdr.Destination := "GALICE";
                                                      xdr.StartingBalance := 100000000000 |})
                   None) 0
                (onlyOp "GFAUCET" (xdr.CreateAccount {| xdr.Destination := "GALICE";
                                                        xdr.StartingBalance := 100000000000 |}))
                100000000000 (openTx aliceWorld)) as Hop.
  cbv zeta in Hop.
  specialize (Hop ltac:(reflexivity) ltac:(evaluated) ltac:(evaluated) ltac:(evaluated)).
  destruct Hop as [Hop _].
  specialize (Hop ltac:(reflexivity)).
  destruct Hop as (s' & Hrun & Hwal & _).
  exists s'. split; [exact Hrun|]. rewrite Hwal. evaluated.
Defined.

(** ** Closing the account *)

Section Closing.
Context `{Externals} `{Builders}.

(** The check of [DoCloseAccount] on one channel. *)
Lemma closed_check_stops (a : db.Agent) (l : list string) (id : string) :
  In id l -> fsm.State_ (db.ChannelsGet a id) <> fsm.Closed ->
  forall i (s : TxSt), exists msg,
    forRange (fun _ chanID =>
                failIf (bool_decide (fsm.State_ (db.ChannelsGet a chanID) <> fsm.Closed))
                  (New ("channel " +:+ chanID +:+ " in non-closed state "
                        +:+ stateString (fsm.State_ (db.ChannelsGet a chanID)))))
      i l s = (Fail (New msg), s).
Proof.
  intros Hin Hopen. induction l as [|k l IH]; intros i s; [destruct Hin|].
  cbn [forRange].
  destruct (decide (fsm.State_ (db.ChannelsGet a k) = fsm.Closed)) as [Hk|Hk].
  - rewrite bool_decide_eq_false_2 by (intros Hne; apply Hne, Hk).
    step. destruct Hin as [->|Hin]; [contradiction|]. apply IH, Hin.
  - rewrite bool_decide_eq_true_2 by exact Hk. eexists. step. reflexivity.
Qed.

Lemma closed_check_passes (a : db.Agent) (l : list string) :
  (forall id, In id l -> fsm.State_ (db.ChannelsGet a id) = fsm.Closed) ->
  forall i (s : TxSt),
    forRange (fun _ chanID =>
                failIf (bool_decide (fsm.State_ (db.ChannelsGet a chanID) <> fsm.Closed))
                  (New ("channel " +:+ chanID +:+ " in non-closed state "
                        +:+ stateString (fsm.State_ (db.ChannelsGet a chanID)))))
      i l s = (Ok tt, s).
Proof.
  intros Hall. induction l as [|k l IH]; intros i s; cbn [forRange]; [reflexivity|].
  rewrite bool_decide_eq_false_2
    by (intros Hne; apply Hne, Hall; left; reflexivity).
  step. apply IH. intros id Hin. apply Hall. right. exact Hin.
Qed.

(** [DoCloseAccount] goes through exactly when every channel of the
    agent is closed; it then stops taking commands and queues the
    merge, and nothing else changes. *)
Theorem DoCloseAccount_needs_closed_channels (dest env : string) (w : World) :
  db.Ready (db.Agent_ (store w)) = true ->
  mergeEnvelope (seed (g w)) (primaryAcct w) dest = Some env ->
  (forall id c, db.Get (channels w) id = Some c -> fsm.State_ c <> fsm.Closed ->
     exists msg, DoCloseAccount dest w = (Fail (New msg), w))
  /\ ((forall id, In id (map fst (channels w)) ->
         fsm.State_ (db.ChannelsGet (db.Agent_ (store w)) id) = fsm.Closed) ->
      DoCloseAccount dest w
      = (Ok tt,
         {| g := g w;
            store := {| db.Agent_ := db.PutReady false (db.Agent_ (store w));
                        db.Tasks := (db.Tasks (store w) ++ [TbTx walletBucket env])%list |} |})).
Proof.
  intros Hready Henv. unfold primaryAcct, channels in *. split.
  - intros id c Hget Hopen.
    destruct (closed_check_stops (db.Agent_ (store w)) (map fst (db.Channels (db.Agent_ (store w)))) id)
      with (i := 0) (s := {| root := store w; mem := g w; hooks := [] |}) as (msg & Hloop).
    { apply db_Get_In in Hget. apply (in_map fst) in Hget. exact Hget. }
    { unfold db.ChannelsGet. rewrite Hget. exact Hopen. }
    exists msg. unfold DoCloseAccount.
    etransitivity;
      [ apply db_Update_eq_Fail; steps; reflexivity
      | destruct w; reflexivity ].
  - intros Hall. unfold DoCloseAccount.
    pose proof (closed_check_passes _ _ Hall 0
                  {| root := store w; mem := g w; hooks := [] |}) as Hloop.
    etransitivity.
    { apply db_Update_eq_Ok.
      steps. cbn [db.Agent_ db.PrimaryAcct db.PutReady]. rewrite Henv.
      unfold ignoreErr, addTxTask, tbAddTx, modify. reflexivity. }
    reflexivity.
Qed.

(** The check reads only. *)
Lemma closed_check_reads (a : db.Agent) (l : list string) :
  forall i (s : TxSt),
    (forRange (fun _ chanID =>
                 failIf (bool_decide (fsm.State_ (db.ChannelsGet a chanID) <> fsm.Closed))
                   (New ("channel " +:+ chanID +:+ " in non-closed state "
                         +:+ stateString (fsm.State_ (db.ChannelsGet a chanID)))))
       i l s).2 = s.
Proof.
  induction l as [|k l IH]; intros i s; cbn [forRange]; [reflexivity|].
  destruct (bool_decide _); [reflexivity|]. step. apply IH.
Qed.

(** A [DoCloseAccount] that went through has cleared the flag [ready]. *)
Lemma DoCloseAccount_clears_ready (dest : string) (w w' : World) :
  DoCloseAccount dest w = (Ok tt, w') -> db.Ready (db.Agent_ (store w')) = false.
Proof.
  unfold DoCloseAccount, db_Update. step.
  destruct (db.Ready (db.Agent_ (store w))); cbn [negb]; [|step; discriminate].
  step.
  pose proof (closed_check_reads (db.Agent_ (store w))
                (map fst (db.Channels (db.Agent_ (store w)))) 0
                {| root := store w; mem := g w; hooks := [] |}) as Hreads.
  unfold mbind at 1, M_bind at 1.
  destruct (forRange _ _ _ _) as [[[]|e|msg] s1]; cbn [snd] in Hreads; subst s1;
    try discriminate.
  steps. destruct (mergeEnvelope _ _ _); [|discriminate].
  unfold ignoreErr, addTxTask, tbAddTx, modify. intros [= <-]. reflexivity.
Qed.

(** Once [DoCloseAccount] has gone through, the agent takes no more
    commands on its wallet: each is refused with [errAgentClosing] and
    changes nothing. *)
Theorem closing_agent_refuses_commands (dest : string) (w w' : World) :
  DoCloseAccount dest w = (Ok tt, w') ->
  (forall code issuer, code <> "" -> issuer <> "" ->
     AddAsset code issuer w' = (Fail (Sentinel errAgentClosing), w')
     /\ RemoveAsset code issuer w' = (Fail (Sentinel errAgentClosing), w'))
  /\ (forall to amount code issuer,
        to <> "" -> amount <> 0 -> (code = "" <-> issuer = "") ->
        DoWalletPay to amount code issuer w' = (Fail (Sentinel errAgentClosing), w'))
  /\ (forall to, DoCloseAccount to w' = (Fail (Sentinel errAgentClosing), w')).
Proof.
  intros Hclosed. apply DoCloseAccount_clears_ready in Hclosed as Hready.
  assert (Hrefused : forall (k : M TxSt unit),
    db_Update (a ← agent; failIf (negb (db.Ready a)) errAgentClosing;; k) w'
    = (Fail (Sentinel errAgentClosing), w')).
  { intros k. etransitivity.
    { apply db_Update_eq_Fail. steps. cbn [negb]. steps. reflexivity. }
    destruct w'; reflexivity. }
  split; [|split].
  - intros code issuer Hcode Hissuer. apply String.eqb_neq in Hcode, Hissuer.
    split.
    + unfold AddAsset. rewrite Hcode, Hissuer. steps. apply Hrefused.
    + unfold RemoveAsset. rewrite Hcode, Hissuer. steps. apply Hrefused.
  - intros to amount code issuer Hto Hamount Hboth.
    apply String.eqb_neq in Hto. apply Z.eqb_neq in Hamount.
    unfold DoWalletPay. rewrite Hto, Hamount.
    assert (Hpair : (String.eqb code "" && negb (String.eqb issuer "") = false)
                    /\ (negb (String.eqb code "") && String.eqb issuer "" = false)).
    { destruct (String.eqb_spec code "") as [Hc|Hc];
        destruct (String.eqb_spec issuer "") as [Hi|Hi]; cbn; split; try reflexivity;
        exfalso; tauto. }
    destruct Hpair as [-> ->]. steps. apply Hrefused.
  - intros to. unfold DoCloseAccount. apply Hrefused.
Qed.

End Closing.

(** Alice cannot close her account while her channel with bob is
    proposed; once it is closed, she can. *)
Lemma DoCloseAccount_needs_closed_channels_witness :
  (exists msg,
     @DoCloseAccount testBuilders "GBOB" aliceProposing
     = (Fail (New msg), aliceProposing))
  /\ @DoCloseAccount testBuilders "GBOB" aliceClosed = (Ok tt, aliceClosing)
  /\ db.Ready (db.Agent_ (store aliceClosing)) = false.
Proof.
  split.
  - pose proof (@DoCloseAccount_needs_closed_channels testBuilders "GBOB"
                  "merge GALICE into GBOB" aliceProposing
                  ltac:(reflexivity) ltac:(reflexivity)) as [Hopen _].
    apply (Hopen "GESCROW" (aliceChannel fsm.ChannelProposed 50)).
    + vm_compute; reflexivity.
    + discriminate.
  - pose proof (@DoCloseAccount_needs_closed_channels testBuilders "GBOB"
                  "merge GALICE into GBOB" aliceClosed
                  ltac:(reflexivity) ltac:(reflexivity)) as [_ Hclosed].
    split; [|reflexivity].
    rewrite Hclosed; [reflexivity|].
    intros id [<- | []]. vm_compute; reflexivity.
Defined.

(** Once alice has asked to close her account, her agent takes no
    further command on the wallet. *)
Lemma closing_agent_refuses_commands_witness :
  @AddAsset testnet testBuilders "USD" "GISSUER" aliceClosing
  = (Fail (Sentinel errAgentClosing), aliceClosing)
  /\ @DoWalletPay testnet testBuilders "GBOB" 5 "" "" aliceClosing
     = (Fail (Sentinel errAgentClosing), aliceClosing)
  /\ @DoCloseAccount testBuilders "GCAROL" aliceClosing
     = (Fail (Sentinel errAgentClosing), aliceClosing).
Proof.
  pose proof (@closing_agent_refuses_commands testnet testBuilders "GBOB"
                aliceClosed aliceClosing ltac:(vm_compute; reflexivity))
    as (Hassets & Hpay & Hclose).
  split; [|split].
  - apply (Hassets "USD" "GISSUER"); discriminate.
  - apply (Hpay "GBOB" 5 "" ""); [discriminate | discriminate | tauto].
  - apply Hclose.
Defined.

(** ** Configuration and authentication *)

Lemma quiet_ret {A} (a : A) : quiet (mret a).
Proof. intros s. repeat split. Qed.

Lemma quiet_fail {A} (e : error) : quiet (fail (A := A) e).
Proof. intros s. repeat split. Qed.

Lemma quiet_panic {A} (msg : string) : quiet (panic (A := A) msg).
Proof. intros s. repeat split. Qed.

Lemma quiet_gets {A} (f : TxSt -> A) : quiet (gets f).
Proof. intros s. repeat split. Qed.

Lemma quiet_check (o : option error) : quiet (check (S := TxSt) o).
Proof. destruct o; intros s; repeat split. Qed.

Lemma quiet_modifyMem (f : Agent -> Agent) :
  (forall a, seed (f a) = seed a) -> quiet (modifyMem f).
Proof. intros Hf s. cbn. auto. Qed.

Lemma quiet_bind {A B} (m : M TxSt A) (f : A -> M TxSt B) :
  quiet m -> (forall a, quiet (f a)) -> quiet (m ≫= f).
Proof.
  intros Hm Hf s. unfold mbind, M_bind. specialize (Hm s). cbv zeta in *.
  destruct (m s) as [[a|e|msg] s1]; cbn [snd] in *; [|exact Hm ..].
  destruct (Hf a s1) as (Hr & Hs & Hh). destruct Hm as (Hr1 & Hs1 & Hh1).
  rewrite Hr, Hs, Hh. auto.
Qed.

Lemma quiet_forRange {A} (body : Z -> A -> M TxSt unit) (l : list A) :
  (forall i x, quiet (body i x)) -> forall i, quiet (forRange body i l).
Proof.
  intros Hbody. induction l as [|x l IH]; intros i; cbn [forRange].
  - apply quiet_ret.
  - apply quiet_bind; [apply Hbody | intros _; apply IH].
Qed.

Ltac be_quiet :=
  repeat first
    [ apply quiet_ret | apply quiet_fail | apply quiet_panic | apply quiet_gets
    | apply quiet_check
    | apply quiet_modifyMem; intros; reflexivity
    | apply quiet_forRange; intros
    | apply quiet_bind; [|intros]
    | match goal with
      | |- quiet (if ?b then _ else _) => destruct b
      | |- quiet (match ?x with _ => _ end) => destruct x
      end ].

(** Symbolic execution that keeps the store of the transaction in
    normal form. *)
Ltac advance := repeat ((step || known); cbn [db.Agent_ db.Tasks]).

Section Configured.
Context `{Externals}.

(** [start] launches goroutines and reads the store; it does not
    write to it, and it leaves the seed alone. *)
Lemma start_quiet : quiet start.
Proof. unfold start, startChannel, close_wallet, agent. be_quiet. Qed.

Lemma runHooks_seed (l : list Hook) (a : Agent) :
  seed (fold_left (fun a h => runHook h a) l a) = seed a.
Proof.
  revert a. induction l as [|h l IH]; intros a; cbn [fold_left]; [reflexivity|].
  rewrite IH. destruct h; reflexivity.
Qed.

(** What a [ConfigInit] that returned without error has checked and
    written. *)
Lemma ConfigInit_Ok (c : Config) (hostURL rnd : string) (w w' : World) :
  ConfigInit c hostURL rnd w = (Ok tt, w') ->
  exists digest,
    GenerateFromPassword (Password c) = inr digest
    /\ isReadyConfigured (db.Agent_ (store w)) = false
    /\ (Password c <> "" /\ len (Password c) <= 72)
    /\ validateUsername (Username c) = true
    /\ (0 <= MaxRoundDurMins c /\ 0 <= FinalityDelayMins c
        /\ 0 <= ChannelFeerate c /\ 0 <= HostFeerate c)
    /\ seed (g w') = Some rnd
    /\ db.Tasks (store w') = db.Tasks (store w)
    /\ db.Agent_ (store w') = initialized c hostURL rnd digest (db.Agent_ (store w)).
Proof.
  unfold ConfigInit.
  destruct (ValidateTestnetURL (HorizonURL c)); [step; discriminate|]. step.
  unfold db_Update.
  match goal with |- context [match ?body ?s0 with _ => _ end] =>
    destruct (body s0) as [[[]|e|msg] s1] eqn:Hbody; [|discriminate ..]
  end.
  intros [= <-]. revert Hbody. step.
  destruct (isReadyConfigured (db.Agent_ (store w))) eqn:Hcfg; [step; discriminate|].
  steps.
  destruct (Z.ltb_spec 72 (len (Password c))); [step; discriminate|]. step.
  destruct (String.eqb_spec (Password c) ""); [step; discriminate|]. step.
  destruct (validateUsername (Username c)) eqn:Hname; cbn [negb]; [|step; discriminate].
  step.
  destruct (Z.ltb_spec (MaxRoundDurMins c) 0); [step; discriminate|]. step.
  destruct (Z.ltb_spec (FinalityDelayMins c) 0); [step; discriminate|]. step.
  destruct (Z.ltb_spec (ChannelFeerate c) 0); [step; discriminate|]. step.
  destruct (Z.ltb_spec (HostFeerate c) 0); [step; discriminate|]. step.
  destruct (GenerateFromPassword (Password c)) as [err|digest]; [step; discriminate|].
  advance. unfold putUpdate, OnCommit. advance.
  match goal with |- start ?s2 = _ -> _ =>
    intros Hstart; pose proof (start_quiet s2) as Hquiet; cbv zeta in Hquiet;
    rewrite Hstart in Hquiet; cbn [snd root mem hooks seed setSeed SetURL] in Hquiet;
    destruct Hquiet as (Hroot & Hseed & Hhooks)
  end.
  exists digest. cbn [store g]. rewrite runHooks_seed, Hseed, Hroot.
  repeat split; try assumption; try lia.
Qed.

End Configured.

Section Authentication.
Context `{Externals} `{Builders}.

(** [ConfigInit] stores the tuning values it was given, or the
    defaults where it was given zero: none of the stored values is
    zero or negative.  The wallet starts empty under the federation
    address of the user, and that address resolves to the new primary
    account at the federation endpoint of the agent. *)
Theorem ConfigInit_applies_defaults (c : Config) (hostURL rnd : string) (w w' : World) :
  ConfigInit c hostURL rnd w = (Ok tt, w') ->
  0 < Millilumen -> 0 < Stroop ->
  (db.MaxRoundDurMins (configOf w')
   = (if MaxRoundDurMins c =? 0 then 60 else MaxRoundDurMins c)
   /\ db.FinalityDelayMins (configOf w')
      = (if FinalityDelayMins c =? 0 then 60 else FinalityDelayMins c)
   /\ db.ChannelFeerate (configOf w')
      = (if ChannelFeerate c =? 0 then 10 * Millilumen else ChannelFeerate c)
   /\ db.HostFeerate (configOf w')
      = (if HostFeerate c =? 0 then 100 * Stroop else HostFeerate c)
   /\ db.KeepAlive (configOf w') = default true (KeepAlive c))
  /\ (0 < db.MaxRoundDurMins (configOf w') /\ 0 < db.FinalityDelayMins (configOf w')
      /\ 0 < db.ChannelFeerate (configOf w') /\ 0 < db.HostFeerate (configOf w'))
  /\ walletOf w'
     = {| fsm.NativeBalance := 0; fsm.Reserve := 0; fsm.Seqnum := 0; fsm.Cursor := "";
          fsm.Address := Username c +:+ "*" +:+ hostURL; fsm.Balances := Some ∅ |}
  /\ primaryAcct w' = DeriveAccountPrimary (Some rnd)
  /\ handleFed "name" (fsm.Address (walletOf w')) hostURL w'
     = (Ok (FedFound (fsm.Address (walletOf w') +:+ "*" +:+ hostURL) (primaryAcct w')), w').
Proof.
  intros Hinit Hmlm Hstroop.
  destruct (ConfigInit_Ok _ _ _ _ _ Hinit)
    as (digest & _ & _ & _ & _ & (Hmax & Hfin & Hchan & Hhost) & _ & _ & Hagent).
  assert (Hwal : walletOf w'
                 = {| fsm.NativeBalance := 0; fsm.Reserve := 0; fsm.Seqnum := 0;
                      fsm.Cursor := "";
                      fsm.Address := Username c +:+ "*" +:+ hostURL;
                      fsm.Balances := Some ∅ |})
    by (unfold walletOf; rewrite Hagent; reflexivity).
  assert (Hname : db.Username (configOf w') = Username c)
    by (unfold configOf; rewrite Hagent; reflexivity).
  split; [|split; [|split; [exact Hwal|split]]].
  - unfold configOf. rewrite Hagent. repeat split.
  - unfold configOf. rewrite Hagent.
    cbn [initialized db.Config_ db.MaxRoundDurMins db.FinalityDelayMins db.ChannelFeerate
         db.HostFeerate].
    unfold orDefault, defaultMaxRoundDurMins, defaultFinalityDelayMins,
           defaultChannelFeerate, defaultHostFeerate.
    destruct (Z.eqb_spec (MaxRoundDurMins c) 0), (Z.eqb_spec (FinalityDelayMins c) 0),
             (Z.eqb_spec (ChannelFeerate c) 0), (Z.eqb_spec (HostFeerate c) 0);
      repeat split; lia.
  - unfold primaryAcct. rewrite Hagent. reflexivity.
  - rewrite Hwal. cbn [fsm.Address].
    unfold handleFed, db_View, gets, mbind, M_bind. cbn [String.eqb Ascii.eqb Bool.eqb negb].
    fold (configOf w'). rewrite Hname, String.eqb_refl. reflexivity.
Qed.

(** An agent is configured once: after a [ConfigInit] that went
    through, the next is refused and changes nothing. *)
Theorem ConfigInit_only_once (c : Config) (hostURL rnd : string) (w w' : World) :
  ConfigInit c hostURL rnd w = (Ok tt, w') -> HorizonURL c <> "" ->
  Configured w' = (Ok true, w')
  /\ forall c2 hostURL2 rnd2,
       ValidateTestnetURL (HorizonURL c2) = None ->
       ConfigInit c2 hostURL2 rnd2 w' = (Fail (Sentinel errAlreadyConfigured), w').
Proof.
  intros Hinit Hurl.
  destruct (ConfigInit_Ok _ _ _ _ _ Hinit) as (digest & _ & _ & _ & _ & _ & _ & _ & Hagent).
  assert (Hcfg : isReadyConfigured (db.Agent_ (store w')) = true).
  { rewrite Hagent. unfold isReadyConfigured. cbn [initialized db.Config_ db.HorizonURL].
    apply String.eqb_neq in Hurl. rewrite Hurl. reflexivity. }
  split.
  - unfold Configured, db_View, gets. rewrite Hcfg. reflexivity.
  - intros c2 hostURL2 rnd2 Hvalid. unfold ConfigInit. rewrite Hvalid. step.
    etransitivity.
    { apply db_Update_eq_Fail. steps. reflexivity. }
    destruct w'; reflexivity.
Qed.

(** [Authenticate] always answers, and never writes to the store.  It
    says yes only for the stored user name and a password that
    verifies against the stored hash; a seed that is in memory is never
    replaced, one that is missing is taken from the sealed box when
    the answer is yes. *)
Theorem Authenticate_sound (name password : string) (w : World) :
  exists ok w',
    Authenticate name password w = (Ok ok, w')
    /\ store w' = store w
    /\ (ok = true ->
        validateUsername name = true
        /\ isReadyConfigured (db.Agent_ (store w)) = true
        /\ name = db.Username (configOf w)
        /\ db.PwType (configOf w) = "bcrypt"
        /\ CompareHashAndPassword (db.PwHash (configOf w)) password = None)
    /\ (ok = false \/ seed (g w) <> None -> w' = w)
    /\ (ok = true -> seed (g w) = None ->
        g w' = setSeed (openBox (db.EncryptedSeed (db.Agent_ (store w))) password) (g w)).
Proof.
  unfold Authenticate, configOf.
  destruct (validateUsername name) eqn:Hname; cbn [negb].
  2:{ exists false, w. repeat split; try discriminate; auto. }
  step. unfold checkPassword.
  destruct (isReadyConfigured (db.Agent_ (store w))) eqn:Hcfg; cbn [negb].
  2:{ exists false, w. repeat split; try discriminate; auto. }
  destruct (String.eqb_spec name (db.Username (db.Config_ (db.Agent_ (store w)))))
    as [Huser|Huser]; cbn [negb].
  2:{ exists false, w. repeat split; try discriminate; auto. }
  destruct (String.eqb_spec (db.PwType (db.Config_ (db.Agent_ (store w)))) "bcrypt")
    as [Htype|Htype]; cbn [negb].
  2:{ exists false, w. repeat split; try discriminate; auto. }
  destruct (CompareHashAndPassword _ password) as [err|] eqn:Hpw.
  { exists false, w. repeat split; try discriminate; auto. }
  destruct (seed (g w)) as [sd|] eqn:Hseed.
  - exists true, w. cbn [andb]. rewrite bool_decide_eq_false_2 by discriminate.
    repeat split; try discriminate; auto.
  - cbn [andb]. rewrite bool_decide_eq_true_2 by reflexivity.
    match goal with
    | |- context [db_Update ?f] =>
        assert (Hbox : db_Update f w
                       = (Ok tt, {| g := setSeed (openBox (db.EncryptedSeed
                                                            (db.Agent_ (store w))) password)
                                          (g w);
                                    store := store w |}))
    end.
    { etransitivity.
      { apply db_Update_eq_Ok. step. cbn [mem]. rewrite Hseed. steps. reflexivity. }
      reflexivity. }
    step. eexists true, _. split; [reflexivity|]. cbn [store g].
    repeat split; try discriminate; auto.
    intros [Hno|Hsome]; [discriminate | contradiction].
Qed.

(** After [ConfigInit] the user is authenticated by the password that
    was configured; and when the agent has dropped its seed, the same
    call opens the sealed box again. *)
Theorem Authenticate_after_ConfigInit (c : Config) (hostURL rnd : string) (w w' : World) :
  ConfigInit c hostURL rnd w = (Ok tt, w') -> HorizonURL c <> "" ->
  (forall digest, GenerateFromPassword (Password c) = inr digest ->
                  CompareHashAndPassword digest (Password c) = None) ->
  Authenticate (Username c) (Password c) w' = (Ok true, w')
  /\ (mustDeauthenticate;; Authenticate (Username c) (Password c)) w'
     = (Ok true,
        {| g := setSeed (openBox (sealBox (Some rnd) (Password c)) (Password c)) (g w');
           store := store w' |}).
Proof.
  intros Hinit Hurl Hbcrypt.
  destruct (ConfigInit_Ok _ _ _ _ _ Hinit)
    as (digest & Hdigest & _ & _ & Hname & _ & Hseed & _ & Hagent).
  specialize (Hbcrypt digest Hdigest). apply String.eqb_neq in Hurl.
  assert (Hcheck : forall g0,
    checkPassword (Username c) (Password c) {| g := g0; store := store w' |}
    = (true, seed g0)).
  { intros g0. unfold checkPassword, isReadyConfigured. cbn [store g]. rewrite Hagent.
    cbn [initialized db.Config_ db.HorizonURL db.Username db.PwType db.PwHash].
    rewrite Hurl, String.eqb_refl, Hbcrypt. reflexivity. }
  split.
  - unfold Authenticate. rewrite Hname. cbn [negb]. step.
    destruct w' as [g' store']. cbn [store g] in *. rewrite Hcheck, Hseed. reflexivity.
  - unfold mustDeauthenticate. step. cbn [fold_left].
    unfold Authenticate. rewrite Hname. cbn [negb]. step.
    rewrite Hcheck. cbn [seed setSeed andb].
    rewrite bool_decide_eq_true_2 by reflexivity.
    match goal with
    | |- context [db_Update ?f] =>
        assert (Hbox : db_Update f {| g := setSeed None (g w'); store := store w' |}
                       = (Ok tt, {| g := setSeed (openBox (sealBox (Some rnd) (Password c))
                                                   (Password c)) (g w');
                                    store := store w' |}))
    end.
    { etransitivity.
      { apply db_Update_eq_Ok. steps. reflexivity. }
      cbn [store g root mem hooks fold_left db.Agent_]. rewrite Hagent.
      cbn [initialized db.EncryptedSeed]. destruct (g w'); reflexivity. }
    step. reflexivity.
Qed.

Lemma handleFed_run (type_ q host : string) (w : World) :
  handleFed type_ q host w
  = (Ok (if negb (String.eqb type_ "name") then FedError "not implemented" 501
         else if String.eqb q (db.Username (configOf w) +:+ "*" +:+ host)
              then FedFound (q +:+ "*" +:+ host) (primaryAcct w)
              else FedError "not found" 404),
     w).
Proof.
  unfold handleFed, configOf, primaryAcct.
  destruct (String.eqb type_ "name"); cbn [negb]; [|reflexivity].
  step. destruct (String.eqb q _); reflexivity.
Qed.

(** The federation endpoint reads the store and never changes it.  It
    gives an account away for a query of type [name] that asks for the
    local user at the host of the request, and for nothing else; the
    account is the primary account, and the address it returns is the
    query with the host appended once more. *)
Theorem handleFed_answers_for_local_user (type_ q host : string) (w : World) :
  exists resp,
    handleFed type_ q host w = (Ok resp, w)
    /\ forall addr acct,
         resp = FedFound addr acct
         <-> type_ = "name"
             /\ q = db.Username (configOf w) +:+ "*" +:+ host
             /\ addr = q +:+ "*" +:+ host
             /\ acct = primaryAcct w.
Proof.
  eexists. split; [apply handleFed_run|].
  intros addr acct.
  destruct (String.eqb_spec type_ "name") as [Htype|Htype]; cbn [negb].
  - destruct (String.eqb_spec q (db.Username (configOf w) +:+ "*" +:+ host)) as [Hq|Hq].
    + split.
      * intros [= <- <-]. repeat split; assumption.
      * intros (_ & _ & -> & ->). reflexivity.
    + split; [discriminate|]. intros (_ & Hq' & _). contradiction.
  - split; [discriminate|]. intros (Htype' & _). contradiction.
Qed.

(** A change of password needs the old password: without it nothing
    changes; with it the new hash is stored, the seed in memory is
    sealed again under the new password, and the user is authenticated
    by the new password from then on. *)
Theorem ConfigEdit_changes_password (old new : string) (w : World) :
  new <> "" -> len new <= 72 ->
  isReadyConfigured (db.Agent_ (store w)) = true ->
  db.PwType (configOf w) = "bcrypt" ->
  validateUsername (db.Username (configOf w)) = true ->
  match CompareHashAndPassword (db.PwHash (configOf w)) old with
  | Some err =>
      exists e, ConfigEdit (passwordEdit old new) w = (Fail e, w)
                /\ Root e = Sentinel errPasswordsDontMatch
  | None =>
      forall digest,
        GenerateFromPassword new = inr digest ->
        CompareHashAndPassword digest new = None ->
        exists w',
          ConfigEdit (passwordEdit old new) w = (Ok tt, w')
          /\ db.PwHash (configOf w') = digest
          /\ db.EncryptedSeed (db.Agent_ (store w')) = sealBox (seed (g w)) new
          /\ seed (g w') = seed (g w)
          /\ (Authenticate (db.Username (configOf w)) new w').1 = Ok true
  end.
Proof.
  intros Hnew Hlen Hcfg Htype Hname. unfold configOf in *.
  apply String.eqb_neq in Hnew. apply Z.ltb_ge in Hlen.
  assert (Hedit : bool_decide (withOldPassword "" (passwordEdit old new) = zeroConfig) = false).
  { apply bool_decide_eq_false_2. intros [= Heq]. apply String.eqb_neq in Hnew. auto. }
  destruct (CompareHashAndPassword _ old) as [err|] eqn:Hold.
  - eexists. split.
    + unfold ConfigEdit. cbn [passwordEdit Username KeepAlive Password HorizonURL OldPassword
                              MaxRoundDurMins FinalityDelayMins ChannelFeerate HostFeerate].
      cbn [String.eqb negb orb].
      match goal with
      | |- context [failIf (@bool_decide ?P ?d) (Sentinel errInvalidEdit)] =>
          rewrite (@bool_decide_eq_false_2 P d) by (intros Hk; apply Hk; reflexivity)
      end.
      step. fold (passwordEdit old new). rewrite Hedit. step. rewrite Hlen. steps.
      etransitivity.
      { apply db_Update_eq_Fail. steps. cbn [negb]. steps.
        rewrite Htype. cbn [String.eqb Ascii.eqb Bool.eqb negb andb].
        steps. reflexivity. }
      destruct w; reflexivity.
    + reflexivity.
  - intros digest Hgen Hverify.
    assert (Hrun : ConfigEdit (passwordEdit old new) w
                   = (Ok tt,
                      {| g := runHook evcondBroadcast (g w);
                         store :=
                           {| db.Agent_ :=
                                db.setUpdates
                                  (fun l => (l ++ [stamped (Z.of_nat (length l) + 1) Now
                                                     (editUpdate (passwordEdit old new))])%list)
                                  (db.PutEncryptedSeed (sealBox (seed (g w)) new)
                                     (db.setConfig (db.PutPwHash digest)
                                        (db.setConfig (db.PutPwType "bcrypt")
                                           (db.Agent_ (store w)))));
                              db.Tasks := db.Tasks (store w) |} |})).
    { unfold ConfigEdit. cbn [passwordEdit Username KeepAlive Password HorizonURL OldPassword
                              MaxRoundDurMins FinalityDelayMins ChannelFeerate HostFeerate].
      cbn [String.eqb negb orb].
      match goal with
      | |- context [failIf (@bool_decide ?P ?d) (Sentinel errInvalidEdit)] =>
          rewrite (@bool_decide_eq_false_2 P d) by (intros Hk; apply Hk; reflexivity)
      end.
      step. fold (passwordEdit old new). rewrite Hedit. step. rewrite Hlen. steps.
      etransitivity.
      { apply db_Update_eq_Ok. steps. cbn [negb]. steps.
        rewrite Htype. cbn [String.eqb Ascii.eqb Bool.eqb negb andb].
        advance. cbn [Z.eqb negb]. advance.
        unfold putUpdate, OnCommit. advance. reflexivity. }
      reflexivity. }
    eexists. split; [exact Hrun|]. cbn [store g].
    split; [reflexivity|]. split; [reflexivity|]. split; [reflexivity|].
    unfold Authenticate. rewrite Hname. cbn [negb]. step.
    unfold checkPassword, isReadyConfigured in *. cbn [store g db.Agent_].
    cbn. cbn in Hcfg. rewrite Hcfg, String.eqb_refl, Hverify. cbn.
    destruct (seed (g w)); reflexivity.
Qed.

End Authentication.

(** Alice leaves the durations and fee rates of her configuration
    empty. *)
Lemma ConfigInit_applies_defaults_witness :
  db.MaxRoundDurMins (configOf aliceWorld) = 60
  /\ db.ChannelFeerate (configOf aliceWorld) = 100000
  /\ db.HostFeerate (configOf aliceWorld) = 100
  /\ fsm.Address (walletOf aliceWorld) = "alice*a.example"
  /\ @handleFed "name" "alice*a.example" "a.example" aliceWorld
     = (Ok (FedFound "alice*a.example*a.example" "GALICE"), aliceWorld).
Proof.
  pose proof (@ConfigInit_applies_defaults testnet aliceConfig "a.example" "entropy"
                emptyWorld aliceWorld ltac:(vm_compute; reflexivity)
                ltac:(reflexivity) ltac:(reflexivity))
    as ((Hround & _ & Hchannel & Hhost & _) & _ & Hwal & _ & Hfed).
  rewrite Hround, Hchannel, Hhost, Hwal.
  split; [reflexivity|]. split; [reflexivity|]. split; [reflexivity|].
  split; [reflexivity|]. exact Hfed.
Defined.

(** Alice cannot configure her agent a second time. *)
Lemma ConfigInit_only_once_witness :
  @Configured aliceWorld = (Ok true, aliceWorld)
  /\ @ConfigInit testnet aliceConfig "a.example" "other entropy" aliceWorld
     = (Fail (Sentinel errAlreadyConfigured), aliceWorld).
Proof.
  pose proof (@ConfigInit_only_once testnet aliceConfig "a.example" "entropy"
                emptyWorld aliceWorld ltac:(vm_compute; reflexivity) ltac:(discriminate))
    as [Hconfigured Hagain].
  split; [exact Hconfigured|].
  apply Hagain. reflexivity.
Defined.

(** Alice logs in with the password she has chosen; after a
    deauthentication her seed is read from the sealed box again. *)
Lemma Authenticate_after_ConfigInit_witness :
  @Authenticate testnet testBuilders "alice" "hunter2" aliceWorld = (Ok true, aliceWorld)
  /\ (mustDeauthenticate;; @Authenticate testnet testBuilders "alice" "hunter2") aliceWorld
     = (Ok true, {| g := setSeed (Some "entropy") (g aliceWorld);
                    store := store aliceWorld |}).
Proof.
  pose proof (@Authenticate_after_ConfigInit testnet testBuilders aliceConfig "a.example"
                "entropy" emptyWorld aliceWorld ltac:(vm_compute; reflexivity)
                ltac:(discriminate)) as Hauth.
  apply Hauth.
  intros digest [= <-]. reflexivity.
Defined.

(** Alice changes her password: the old one must match, and the new
    one opens her agent afterwards. *)
Lemma ConfigEdit_changes_password_witness :
  (exists e, @ConfigEdit testnet (passwordEdit "guess" "hunter3") aliceWorld
             = (Fail e, aliceWorld)
             /\ Root e = Sentinel errPasswordsDontMatch)
  /\ (exists w', @ConfigEdit testnet (passwordEdit "hunter2" "hunter3") aliceWorld
                 = (Ok tt, w')
                 /\ db.PwHash (configOf w') = "hunter3"
                 /\ (@Authenticate testnet testBuilders "alice" "hunter3" w').1 = Ok true).
Proof.
  split.
  - pose proof (@ConfigEdit_changes_password testnet testBuilders "guess" "hunter3"
                  aliceWorld ltac:(discriminate) ltac:(vm_compute; discriminate)
                  ltac:(reflexivity) ltac:(reflexivity) ltac:(reflexivity)) as Hedit.
    exact Hedit.
  - pose proof (@ConfigEdit_changes_password testnet testBuilders "hunter2" "hunter3"
                  aliceWorld ltac:(discriminate) ltac:(vm_compute; discriminate)
                  ltac:(reflexivity) ltac:(reflexivity) ltac:(reflexivity)) as Hedit.
    destruct (Hedit "hunter3" ltac:(reflexivity) ltac:(reflexivity))
      as (w' & Hrun & Hhash & _ & _ & Hlogin).
    exists w'. split; [exact Hrun|]. split; [exact Hhash|exact Hlogin].
Defined.
(** ** The faucet *)

Section Faucet.
Context `{Externals}.

(** The counter of the loop comes round to 1 again only after [2 ^ 64]
    increments. *)
Lemma wrap_int_succ (k : Z) : wrap_int (wrap_int k + 1) = wrap_int (k + 1).
Proof.
  unfold wrap_int, wrap_i64.
  replace ((k + 2 ^ 63) mod 2 ^ 64 - 2 ^ 63 + 1 + 2 ^ 63)
    with ((k + 2 ^ 63) mod 2 ^ 64 + 1) by lia.
  rewrite Z.add_mod_idemp_l by lia.
  f_equal. f_equal. lia.
Qed.

Lemma wrap_int_not_1 (k : Z) : 2 <= k <= 2 ^ 64 -> wrap_int k <> 1.
Proof.
  unfold wrap_int, wrap_i64. intros Hk Hone.
  pose proof (Z.div_mod (k + 2 ^ 63) (2 ^ 64) ltac:(lia)) as Hdiv.
  pose proof (Z.mod_pos_bound (k + 2 ^ 63) (2 ^ 64) ltac:(lia)) as Hmod.
  lia.
Qed.

Lemma faucetLoop_later (outcomes : list (option error)) :
  forall k (w : World),
    2 <= k -> k + Z.of_nat (length outcomes) <= 2 ^ 64 ->
    faucetLoop outcomes (wrap_int k) w = (Ok (succeeded outcomes), w).
Proof.
  induction outcomes as [|[err|] rest IH]; intros k w Hk Hlen;
    cbn [faucetLoop length] in *;
    (destruct (Z.eqb_spec (wrap_int k) 1) as [Heq|_];
     [exfalso; apply (wrap_int_not_1 k); [lia | exact Heq]|]); step.
  - reflexivity.
  - rewrite wrap_int_succ. apply IH; lia.
  - reflexivity.
Qed.

Lemma faucet_warning_published (w : World) :
  ignoreErr (db_Update (putUpdate faucetWarning)) w = (Ok tt, afterUpdate faucetWarning w).
Proof. reflexivity. Qed.

(** As long as fewer than [2 ^ 64] requests to the faucet have failed,
    so that the counter of the loop has not come round, the user is
    warned once, and only if the first request failed; the latch
    [g.wallet] is closed when a request has succeeded, and not
    before. *)
Theorem faucet_warns_once (acctID : string) (outcomes : list (option error)) (w : World) :
  wallet (g w) = false ->
  Z.of_nat (length outcomes) < 2 ^ 64 ->
  let w1 := if firstFailed outcomes then afterUpdate faucetWarning w else w in
  getTestnetFaucetFunds' acctID outcomes w
  = (Ok (succeeded outcomes),
     if succeeded outcomes
     then {| g := closeWallet (g w1); store := store w1 |}
     else w1).
Proof.
  intros Hopen Hlen. cbv zeta. unfold getTestnetFaucetFunds'.
  assert (Hloop : faucetLoop outcomes 0 w
                  = (Ok (succeeded outcomes),
                     if firstFailed outcomes then afterUpdate faucetWarning w else w)).
  { destruct outcomes as [|[err|] rest]; cbn [faucetLoop Z.eqb firstFailed]; step.
    - reflexivity.
    - change (wrap_int (0 + 1)) with 1.
      destruct rest as [|[err'|] rest']; cbn [faucetLoop Z.eqb Pos.eqb].
      + fold faucetWarning. rewrite (bind_Ok _ _ _ _ _ (faucet_warning_published w)).
        reflexivity.
      + fold faucetWarning. rewrite (bind_Ok _ _ _ _ _ (faucet_warning_published w)).
        cbv beta. change (1 + 1) with 2.
        rewrite faucetLoop_later; [reflexivity | lia |].
        cbn [length] in Hlen. lia.
      + fold faucetWarning. rewrite (bind_Ok _ _ _ _ _ (faucet_warning_published w)).
        reflexivity.
    - reflexivity. }
  step.
  destruct (succeeded outcomes); [|reflexivity].
  unfold closeWalletNow, mbind, M_bind.
  destruct (firstFailed outcomes); cbn [afterUpdate g wallet runHook]; rewrite Hopen;
    reflexivity.
Qed.

End Faucet.

(** The faucet times out once and then funds alice. *)
Lemma faucet_warns_once_witness :
  @getTestnetFaucetFunds' testnet "GALICE" [Some (New "timeout"); None] aliceWorld
  = (Ok true,
     {| g := closeWallet (g (@afterUpdate testnet faucetWarning aliceWorld));
        store := store (@afterUpdate testnet faucetWarning aliceWorld) |})
  /\ length (updates (store (@afterUpdate testnet faucetWarning aliceWorld)))
     = S (length (updates (store aliceWorld))).
Proof.
  split; [|reflexivity].
  exact (@faucet_warns_once testnet "GALICE" [Some (New "timeout"); None] aliceWorld
           ltac:(reflexivity) ltac:(reflexivity)).
Defined.

(** After the merge of her account alice configures her agent anew.
    The latch [g.wallet], which the faucet closed when it funded her
    first account, is closed still, and the faucet that the new
    configuration launches panics when it closes the latch again. *)
Lemma faucet_panics_after_reconfiguration :
  @walletTx testnet "GALICE" mergeTx aliceWatching = (Ok tt, aliceMerged)
  /\ @ConfigInit testnet aliceConfig "a.example" "entropy" aliceMerged = (Ok tt, aliceAgain)
  /\ wallet (g aliceAgain) = true
  /\ In (getTestnetFaucetFunds "GALICE") (goroutines (g aliceAgain))
  /\ (@getTestnetFaucetFunds' testnet "GALICE" [None] aliceAgain).1
     = Panic "close of closed channel".
Proof.
  split; [vm_compute; reflexivity|].
  split; [vm_compute; reflexivity|].
  split; [reflexivity|].
  split; [left; reflexivity|].
  vm_compute. reflexivity.
Qed.

(** ** When the watcher gives up *)

(** A step of a transaction that leaves the seed alone. *)
Lemma keepsSeed_inStore {A} (m : M TxSt A) :
  inStore m -> forall s, seed (mem (m s).2) = seed (mem s).
Proof. intros Hm s. rewrite (Hm s). reflexivity. Qed.

Section GivingUp.
Context `{Externals}.

Lemma walletOp_keeps_seed acctID htx tx index op (s : TxSt) :
  seed (mem (walletOp acctID htx tx index op s).2) = seed (mem s).
Proof.
  unfold walletOp. destruct (xdr.Body op) as [ca|po|dest|ct|at_|].
  - unfold opCreateAccount. step.
    assert (Hrest : forall m : M TxSt unit, inStore m ->
              forall s0, seed (mem s0) = seed (mem s) -> seed (mem (m s0).2) = seed (mem s)).
    { intros m Hm s0 <-. apply keepsSeed_inStore, Hm. }
    destruct (bool_decide (xdr.Destination ca ∈ acctsReady (mem s))); step;
      (apply Hrest; [|reflexivity]);
      unfold agent, addTxTask; in_store.
  - apply keepsSeed_inStore. unfold opPayment, paymentAsset, agent. in_store.
  - apply keepsSeed_inStore. unfold opAccountMerge, DeleteAgent, agent. in_store.
  - apply keepsSeed_inStore. unfold opChangeTrust, agent. in_store.
  - apply keepsSeed_inStore. unfold opAllowTrust, agent. in_store.
  - reflexivity.
Qed.

Lemma walletOps_keep_seed acctID htx tx ops :
  forall index (s : TxSt),
    seed (mem (forRange (walletOp acctID htx tx) index ops s).2) = seed (mem s).
Proof.
  induction ops as [|op ops IH]; intros index s; cbn [forRange]; [reflexivity|].
  pose proof (walletOp_keeps_seed acctID htx tx index op s) as Hop.
  unfold mbind, M_bind.
  destruct (walletOp acctID htx tx index op s) as [[[]|e|msg] s1]; cbn [snd] in *;
    [rewrite IH|..]; exact Hop.
Qed.

(** The handler of the stream returns an error only for a transaction
    it cannot decode; what goes wrong inside its database transaction
    is rolled back and dropped.  It never touches the seed. *)
Lemma walletTx_never_fails acctID htx (w : World) :
  (forall tx, worizon.NewTx htx = inr tx ->
     forall e, (walletTx acctID htx w).1 <> Fail e)
  /\ (forall err, worizon.NewTx htx = inl err -> walletTx acctID htx w = (Fail err, w))
  /\ seed (g (walletTx acctID htx w).2) = seed (g w).
Proof.
  unfold walletTx. destruct (worizon.NewTx htx) as [err|tx].
  { split; [intros tx [=]|]. split; [intros err0 [= <-]|]; step; reflexivity. }
  split; [|split; [intros err [=]|]].
  - intros tx0 _ e. step.
    destruct (xdr.TxSuccess (worizon.Result tx)); cbn [negb]; [|discriminate].
    unfold ignoreErr. destruct (db_Update _ w) as [[[]|e'|msg] w1]; discriminate.
  - step. destruct (xdr.TxSuccess (worizon.Result tx)); cbn [negb]; [|reflexivity].
    assert (Hseed : forall (m : M TxSt unit),
              (forall s, seed (mem (m s).2) = seed (mem s)) ->
              seed (g (ignoreErr (db_Update m) w).2) = seed (g w)).
    { intros m Hm. unfold ignoreErr, db_Update.
      specialize (Hm {| root := store w; mem := g w; hooks := [] |}).
      destruct (m _) as [[[]|e|msg] s1]; cbn [snd g mem] in *;
        rewrite ?runHooks_seed; exact Hm. }
    apply Hseed. intros s.
    unfold mbind at 1, M_bind at 1.
    match goal with
    | |- context [match ?pre s with _ => _ end] =>
        assert (Hpre : seed (mem (pre s).2) = seed (mem s))
          by (apply keepsSeed_inStore; in_store);
        destruct (pre s) as [[[]|e|msg] s1]; cbn [snd] in *; [|exact Hpre ..]
    end.
    rewrite walletOps_keep_seed. exact Hpre.
Qed.

Lemma stream_of_decodable acctID (txs : list worizon.Transaction) :
  Forall decodable txs ->
  forall i (w : World),
    let r := forRange (fun _ htx => walletTx acctID htx) i txs w in
    (forall e, r.1 <> Fail e) /\ seed (g r.2) = seed (g w).
Proof.
  induction 1 as [|htx txs (tx & Hdec) _ IH]; intros i w; cbv zeta; cbn [forRange].
  - split; [discriminate|reflexivity].
  - destruct (walletTx_never_fails acctID htx w) as (Hnever & _ & Hseed).
    specialize (Hnever tx Hdec). unfold mbind, M_bind.
    destruct (walletTx acctID htx w) as [[[]|e|msg] w1]; cbn [fst snd] in *.
    + destruct (IH (i + 1) w1) as [Hne Hs]. split; [exact Hne|]. rewrite Hs. exact Hseed.
    + exfalso. apply (Hnever e). reflexivity.
    + split; [discriminate | exact Hseed].
Qed.

Lemma forRange_app {S A} (body : Z -> A -> M S unit) (l1 l2 : list A) :
  forall i s s1,
    forRange body i l1 s = (Ok tt, s1) ->
    forRange body i (l1 ++ l2) s = forRange body (i + Z.of_nat (length l1)) l2 s1.
Proof.
  induction l1 as [|x l1 IH]; intros i s s1; cbn [forRange app length].
  - intros [= <-]. rewrite Z.add_0_r. reflexivity.
  - unfold mbind, M_bind. destruct (body i x s) as [[[]|e|msg] s0]; try discriminate.
    intros Hrest. rewrite (IH _ _ _ Hrest). f_equal. lia.
Qed.

(** The watcher gives up only when the stream delivers a transaction
    it cannot decode.  On a stream of transactions that can all be
    decoded it is blocked as long as neither the latch [g.wallet] nor
    the context is closed; or it has returned because the context is
    done, and has changed nothing; or it is streaming with the seed in
    place, whatever the transactions hold; or a handler has panicked.
    Once it streams, it stops at the first transaction that cannot be
    decoded: it keeps what it has written so far, clears the seed and
    returns; the transactions behind are never applied. *)
Theorem watcher_gives_up_on_undecodable_only (acctID : string) (done pick : bool) :
  (forall txs (w : World),
     Forall decodable txs ->
     match watchWalletAcct acctID done pick txs w with
     | Blocked => wallet (g w) = false /\ done = false
     | Returned w' => done = true /\ w' = w
     | Streaming w' => wallet (g w) = true /\ seed (g w') = seed (g w)
     | Crashed => wallet (g w) = true
     end)
  /\ (forall pre htx post err (w w1 : World),
        selectWallet (wallet (g w)) done pick = TakeWallet ->
        forRange (fun _ htx => walletTx acctID htx) 0 pre w = (Ok tt, w1) ->
        worizon.NewTx htx = inl err ->
        watchWalletAcct acctID done pick (pre ++ htx :: post) w
        = Returned {| g := setSeed None (g w1); store := store w1 |}).
Proof.
  split.
  - intros txs w Hdec. unfold watchWalletAcct, selectWallet.
    destruct (wallet (g w)), done; try destruct pick; try (split; reflexivity).
    all: destruct (stream_of_decodable acctID txs Hdec 0 w) as [Hnever Hseed];
      destruct (forRange _ 0 txs w) as [[[]|e|msg] w1]; cbn [fst snd] in *;
      [ split; [reflexivity | exact Hseed]
      | exfalso; apply (Hnever e); reflexivity
      | reflexivity ].
  - intros pre htx post err w w1 Hsel Hpre Hbad. unfold watchWalletAcct.
    rewrite Hsel, (forRange_app _ _ _ _ _ _ Hpre). cbn [forRange].
    destruct (walletTx_never_fails acctID htx w1) as (_ & Hfail & _).
    rewrite (bind_Fail _ _ _ _ _ (Hfail err Hbad)). reflexivity.
Qed.

End GivingUp.

(** The faucet has funded alice, so her watcher streams: it reads her
    funding, then a transaction it cannot decode, forgets the seed and
    never sees the payment of bob that follows.  Without the bad
    transaction it keeps the seed. *)
Lemma watcher_gives_up_on_undecodable_only_witness :
  @watchWalletAcct testnet "GALICE" false false [fundingTx; garbledTx; incomingTx]
    aliceLatched
  = Returned {| g := setSeed None (g aliceWatching); store := store aliceWatching |}
  /\ seed (g aliceWatching) = Some "entropy"
  /\ match @watchWalletAcct testnet "GALICE" false false [fundingTx; incomingTx]
             aliceLatched with
     | Streaming w' => seed (g w') = Some "entropy"
     | _ => False
     end.
Proof.
  pose proof (@watcher_gives_up_on_undecodable_only testnet "GALICE" false false)
    as [Hkeeps Hgives].
  split; [|split; [reflexivity|]].
  - apply (Hgives [fundingTx] garbledTx [incomingTx] (New "bad xdr")
             aliceLatched aliceWatching);
      vm_compute; reflexivity.
  - specialize (Hkeeps [fundingTx; incomingTx] aliceLatched).
    destruct (@watchWalletAcct testnet "GALICE" false false [fundingTx; incomingTx]
                aliceLatched) as [|w'|w'|] eqn:Hrun;
      try (vm_compute in Hrun; discriminate).
    destruct Hkeeps as [_ Hseed]; [|rewrite Hseed; reflexivity].
    repeat constructor; eexists; reflexivity.
Defined.

(** ** Starting the agent *)

Section Starting.
Context `{Externals}.

Lemma startChannels_launch (r : db.Root) (l : list string) :
  (forall id, In id l -> startChannelErr id r = None) ->
  forall i (a : Agent) (h : list Hook),
    forRange (fun _ chanID => startChannel chanID) i l {| root := r; mem := a; hooks := h |}
    = (Ok tt, {| root := r;
                 mem := fold_left (fun a id => allez (watchChannel id) a) l a;
                 hooks := h |}).
Proof.
  intros Hok. induction l as [|k l IH]; intros i a h; cbn [forRange fold_left];
    [reflexivity|].
  assert (Hk : startChannel k {| root := r; mem := a; hooks := h |}
               = (Ok tt, {| root := r; mem := allez (watchChannel k) a; hooks := h |})).
  { unfold startChannel. step. rewrite (Hok k) by (left; reflexivity). reflexivity. }
  step. apply IH. intros id Hin. apply Hok. right. exact Hin.
Qed.

Lemma launched_channels (l : list string) (a : Agent) :
  fold_left (fun a id => allez (watchChannel id) a) l a
  = {| seed := seed a; wclient := wclient a; wallet := wallet a;
       acctsReady := acctsReady a; tb := tb a;
       goroutines := (goroutines a ++ map watchChannel l)%list;
       timers := timers a; evcond := evcond a; steps := steps a |}.
Proof.
  revert a. induction l as [|k l IH]; intros a; cbn [fold_left map].
  - rewrite app_nil_r. destruct a; reflexivity.
  - rewrite IH. cbn [allez seed wclient wallet acctsReady tb goroutines timers evcond steps].
    rewrite <- app_assoc. reflexivity.
Qed.

(** A restart resumes where the agent stopped: the wallet watcher is
    launched at the cursor in the store, the task basket is run, the
    faucet is asked only while the account is unfunded, and the latch
    [g.wallet] is closed only when it is funded.  The store is not
    written, and the agent comes up without its seed.  On a store that
    is not configured nothing is launched. *)
Theorem StartAgent_resumes_at_cursor (r : db.Root) :
  let a := db.Agent_ r in
  (isReadyConfigured a = false -> StartAgent r = Ok {| g := newAgent; store := r |})
  /\ (isReadyConfigured a = true ->
      (forall id, In id (map fst (db.Channels a)) -> startChannelErr id r = None) ->
      taskbasketNewTx r = None ->
      StartAgent r
      = Ok {| g := {| seed := None;
                      wclient := db.HorizonURL (db.Config_ a);
                      wallet := isReadyFunded a;
                      acctsReady := ∅;
                      tb := true;
                      goroutines :=
                        ((if isReadyFunded a then []
                          else [getTestnetFaucetFunds (db.PrimaryAcct a)])
                         ++ map watchChannel (map fst (db.Channels a))
                         ++ [watchWalletAcct_ (db.PrimaryAcct a) (fsm.Cursor (db.Wallet a));
                             taskbasketRun])%list;
                      timers := []; evcond := 0; steps := [] |};
              store := r |}).
Proof.
  cbv zeta. unfold StartAgent. split.
  - intros Hcfg. unfold db_Update, start. step. cbn [store]. rewrite Hcfg. reflexivity.
  - intros Hcfg Hchans Htb.
    match goal with
    | |- match _ with _ => _ end = Ok {| g := ?final; store := _ |} =>
        assert (Hrun : start {| root := store {| g := newAgent; store := r |};
                                mem := g {| g := newAgent; store := r |}; hooks := [] |}
                       = (Ok tt, {| root := r; mem := final; hooks := [] |}))
    end.
    { unfold start. step. cbn [store g root]. rewrite Hcfg. cbn [negb].
      destruct (isReadyFunded (db.Agent_ r)).
      + unfold close_wallet. steps. cbn [newAgent wallet]. steps.
        rewrite (bind_Ok _ _ _ _ _ (startChannels_launch r _ Hchans 0 _ _)).
        steps. rewrite launched_channels. unfold modifyMem, modify.
        unfold allez, setTb. cbn. rewrite <- ?app_assoc. reflexivity.
      + steps.
        rewrite (bind_Ok _ _ _ _ _ (startChannels_launch r _ Hchans 0 _ _)).
        steps. rewrite launched_channels. unfold modifyMem, modify.
        unfold allez, setTb. cbn. rewrite <- ?app_assoc. reflexivity. }
    rewrite (db_Update_eq_Ok _ _ _ _ Hrun). reflexivity.
Qed.

End Starting.

(** The agent of alice is started again: before the faucet has funded
    her, and later, with a channel proposed to bob. *)
Lemma StartAgent_resumes_at_cursor_witness :
  @StartAgent testnet (store emptyWorld) = Ok emptyWorld
  /\ (exists w, @StartAgent testnet (store aliceWorld) = Ok w
                /\ goroutines (g w)
                   = [getTestnetFaucetFunds "GALICE"; watchWalletAcct_ "GALICE" "";
                      taskbasketRun]
                /\ seed (g w) = None)
  /\ (exists w, @StartAgent testnet (store aliceProposing) = Ok w
                /\ goroutines (g w)
                   = [watchChannel "GESCROW"; watchWalletAcct_ "GALICE" "41";
                      taskbasketRun]
                /\ store w = store aliceProposing).
Proof.
  split; [|split].
  - apply (@StartAgent_resumes_at_cursor testnet (store emptyWorld)). reflexivity.
  - eexists. split.
    + apply (@StartAgent_resumes_at_cursor testnet (store aliceWorld));
        [reflexivity | intros id [] | reflexivity].
    + split; reflexivity.
  - eexists. split.
    + apply (@StartAgent_resumes_at_cursor testnet (store aliceProposing));
        [reflexivity | reflexivity | reflexivity].
    + split; reflexivity.
Defined.

(** ** Payments the agent has sent itself *)

Section Outgoing.
Context `{Externals}.

Lemma payments_to_others_skipped acctID htx tx (ops : list xdr.Operation) :
  Forall (fun op => exists p, xdr.Body op = xdr.Payment p
                              /\ xdr.PayDestination p <> acctID) ops ->
  forall i (s : TxSt), forRange (walletOp acctID htx tx) i ops s = (Ok tt, s).
Proof.
  induction 1 as [|op ops (p & Hbody & Hdest) _ IH]; intros i s; cbn [forRange].
  - reflexivity.
  - assert (Hop : walletOp acctID htx tx i op s = (Ok tt, s)).
    { unfold walletOp. rewrite Hbody. unfold opPayment.
      apply String.eqb_neq in Hdest. rewrite Hdest. reflexivity. }
    step. apply IH.
Qed.

(** When the ledger confirms a transaction of the agent's own account
    that only pays others, the watcher moves the cursor and reports
    the success, and leaves the balance as the command that sent the
    payment has left it: nothing is debited a second time. *)
Theorem outgoing_payments_are_not_debited_again
    (acctID : string) (htx : worizon.Transaction) (tx : worizon.Tx) (w : World) :
  worizon.NewTx htx = inr tx ->
  xdr.TxSuccess (worizon.Result tx) = true ->
  xdr.TxSourceAccount (worizon.Env tx) = acctID ->
  Forall (fun op => exists p, xdr.Body op = xdr.Payment p
                              /\ xdr.PayDestination p <> acctID)
    (xdr.Operations (worizon.Env tx)) ->
  walletTx acctID htx w
  = (Ok tt,
     afterUpdate (withInputTx tx 0 (newUpdate update.TxSuccessType))
       {| g := g w;
          store := {| db.Agent_ := db.PutWallet (withCursor (worizon.PT htx) (walletOf w))
                                     (db.Agent_ (store w));
                      db.Tasks := db.Tasks (store w) |} |}).
Proof.
  intros Hdecoded Hsuccess Hsource Hops.
  unfold walletTx. rewrite Hdecoded. step. rewrite Hsuccess. cbn [negb].
  rewrite Hsource, String.eqb_refl.
  unfold ignoreErr, db_Update.
  set (s := {| root := store w; mem := g w; hooks := [] |}).
  match goal with
  | |- context [(?m ≫= ?k) s] =>
      assert (Hrun : (m ≫= k) s
                     = (Ok tt,
                        {| root := store (afterUpdate (withInputTx tx 0
                                                       (newUpdate update.TxSuccessType))
                                            {| g := g w;
                                               store := {| db.Agent_ :=
                                                             db.PutWallet
                                                               (withCursor (worizon.PT htx)
                                                                  (walletOf w))
                                                               (db.Agent_ (store w));
                                                           db.Tasks := db.Tasks (store w) |} |});
                           mem := g w; hooks := [evcondBroadcast] |}))
  end.
  { unfold agent. subst s. steps.
    match goal with
    | |- context [forRange ?b ?i ?l] =>
        pose proof (payments_to_others_skipped acctID htx tx _ Hops) as Hskip
    end.
    unfold putUpdate, OnCommit, modifyAgent, agent. steps.
    rewrite Hskip. reflexivity. }
  rewrite Hrun. reflexivity.
Qed.

End Outgoing.

(** The ledger confirms the payment of alice to bob. *)
Lemma outgoing_payments_are_not_debited_again_witness :
  exists w',
    @walletTx testnet "GALICE" outgoingTx alicePaid = (Ok tt, w')
    /\ fsm.NativeBalance (walletOf alicePaid) = 99989998800
    /\ fsm.NativeBalance (walletOf w') = 99989998800
    /\ fsm.Cursor (walletOf w') = "46".
Proof.
  eexists. split.
  - apply (@outgoing_payments_are_not_debited_again testnet "GALICE" outgoingTx
             (txOf "GALICE"
                (xdr.Payment {| xdr.PayDestination := "GBOB"; xdr.PayAsset := xdr.AssetNative;
                                xdr.Amount := 1000 |}) None) alicePaid);
      [reflexivity | reflexivity | reflexivity |].
    repeat constructor. eexists. split; [reflexivity | discriminate].
  - evaluated.
Defined.
